(** * screenshot.cc: region selection and the capture pipeline

    A shallow embedding of [screenshot.cc] (the X11 screenshot tool that was
    written for chromeos-wm).  The program talks to three outside parties:
    the X server (through Xlib), cairo, and the C++ runtime (gflags, glog's
    [CHECK], [std::istringstream]).  Their answers are collected in an
    environment record [Env]; the calls the program makes are appended to a
    log kept in the mutable [World].  The program itself is written in a
    small state-and-termination monad, one definition per source function. *)

From Stdlib Require Import ZArith List Bool String Ascii Lia.
Import ListNotations.
Local Open Scope string_scope.
Local Open Scope list_scope.
Local Open Scope Z_scope.

(** ** Machine integers

    [int] and [unsigned int] are 32 bits wide.  Values are kept in [Z]; the
    wrap-around of every arithmetic result is written out. *)
Module CInt.

Definition int_min : Z := - 2 ^ 31.
Definition int_max : Z := 2 ^ 31 - 1.
Definition uint_max : Z := 2 ^ 32 - 1.

Definition in_int (z : Z) : Prop := int_min <= z <= int_max.

(** the value of an [int] expression whose mathematical result is [z] *)
Definition wrap (z : Z) : Z := (z + 2 ^ 31) mod 2 ^ 32 - 2 ^ 31.

(** [static_cast<unsigned int>(z)], also the implicit conversion of an
    [int] argument to an [unsigned int] parameter *)
Definition to_unsigned (z : Z) : Z := z mod 2 ^ 32.

Definition add (a b : Z) : Z := wrap (a + b).
Definition sub (a b : Z) : Z := wrap (a - b).
Definition mul (a b : Z) : Z := wrap (a * b).

End CInt.

(** ** X11 vocabulary *)

Definition XID := Z.
Definition Window := XID.
Definition Cursor := XID.
Definition GC := XID.

(** [GrabSuccess] of X.h; every other grab status is a failure *)
Definition GrabSuccess : Z := 0.

(** [CAIRO_STATUS_SUCCESS] of cairo.h *)
Definition CAIRO_STATUS_SUCCESS : Z := 0.

Inductive Pixel := BlackPixel | WhitePixel.

Inductive cairo_format_t := CAIRO_FORMAT_ARGB32 | CAIRO_FORMAT_RGB24.

(** The events the selection loop dispatches on; any other event type falls
    through the [switch]. *)
Inductive XEvent :=
| ButtonPress (x_root y_root : Z)
| ButtonRelease (x_root y_root : Z)
| Expose (window : Window)
| KeyPress (keycode : Z)
| MotionNotify (x_root y_root : Z)
| OtherEvent (type : Z).

(** The part of an [XImage] that [main] looks at. *)
Record XImage := {
  depth : Z;
  width : Z;
  height : Z;
  bytes_per_line : Z
}.

(** Calls that leave the program, in the order they are made. *)
Inductive XCall :=
| ShowUsageWithFlags
| XOpenDisplay
| IstreamExtractHex (s : string)
| XGetGeometry (w : Window)
| XCreateFontCursor (c : Cursor)
| XCreateWindow (w : Window) (x y wd ht : Z)
| XSelectInput (w : Window)
| XCreateGC (g : GC) (foreground : Pixel)
| XDestroyWindow (w : Window)
| XFreeCursor (c : Cursor)
| XFreeGC (g : GC)
| XGrabPointer (result : Z)
| XGrabKeyboard (result : Z)
| XUngrabPointer
| XUngrabKeyboard
| usleep (usec : Z)
| XMapWindow (w : Window)
| XUnmapWindow (w : Window)
| XMoveResizeWindow (w : Window) (x y wd ht : Z)
| XNextEvent (ev : XEvent)
| XKeysymToKeycode_Escape
| XFillRectangle (w : Window) (g : GC) (x y wd ht : Z)
| XGetImage (w : Window) (x y wd ht : Z)
| XInternAtom (name : string)
| XChangeProperty (w : Window) (value : Z)
| XFlush
| cairo_image_surface_create_for_data (fmt : cairo_format_t) (wd ht stride : Z)
| cairo_surface_write_to_png (filename : string)
| cairo_surface_destroy
| XDestroyImage
| XCloseDisplay.

(** The [CHECK]s of [main], in source order.  A failed [CHECK] logs its
    message and aborts the process. *)
Inductive Check :=
| CheckDisplay
| CheckParseWindow
| CheckGeometry
| CheckImage
| CheckDepth
| CheckSurface
| CheckWritePng.

(** How a run ends.  [Blocked] is a run that waits in [XNextEvent] for an
    event that never comes; [OutOfFuel] only exists in the model (see
    [grab_keyboard_retry]). *)
Inductive Termination :=
| Exit (code : Z)
| CheckFailed (c : Check)
| Segfault
| Blocked
| OutOfFuel.

(** ** Memory

    [main] passes the addresses of four of its locals to [SelectRegion]. *)
Inductive local := shot_x | shot_y | shot_width | shot_height.

Inductive pointer := NULL | AddrOf (l : local).

Record Frame := {
  val_shot_x : Z;
  val_shot_y : Z;
  val_shot_width : Z;
  val_shot_height : Z
}.

Definition frame_get (f : Frame) (l : local) : Z :=
  match l with
  | shot_x => val_shot_x f
  | shot_y => val_shot_y f
  | shot_width => val_shot_width f
  | shot_height => val_shot_height f
  end.

Definition frame_set (f : Frame) (l : local) (z : Z) : Frame :=
  match l with
  | shot_x => {| val_shot_x := z; val_shot_y := val_shot_y f;
                 val_shot_width := val_shot_width f;
                 val_shot_height := val_shot_height f |}
  | shot_y => {| val_shot_x := val_shot_x f; val_shot_y := z;
                 val_shot_width := val_shot_width f;
                 val_shot_height := val_shot_height f |}
  | shot_width => {| val_shot_x := val_shot_x f; val_shot_y := val_shot_y f;
                     val_shot_width := z;
                     val_shot_height := val_shot_height f |}
  | shot_height => {| val_shot_x := val_shot_x f; val_shot_y := val_shot_y f;
                      val_shot_width := val_shot_width f;
                      val_shot_height := z |}
  end.

(** [p > 0] for a pointer [p]: the comparison with the null pointer constant
    holds exactly for a non-null pointer. *)
Definition pointer_gt_0 (p : pointer) : bool :=
  match p with
  | NULL => false
  | AddrOf _ => true
  end.

(** ** The environment and the world *)

(** Everything the program is told from outside. *)
Record Env := {
  (** after [google::ParseCommandLineFlags] *)
  argc : Z;
  filename : string;
  FLAGS_window : string;
  FLAGS_region : bool;
  (** [input >> hex >> win]: the extracted value, [None] when the stream's
      fail bit is set *)
  extract_hex : string -> option Z;
  (** does [XOpenDisplay] return a display? *)
  display_opens : bool;
  DefaultRootWindow : Window;
  (** [XGetGeometry]: width and height, [None] for a zero status *)
  geometry : Window -> option (Z * Z);
  (** the status [XGrabPointer] returns *)
  pointer_grab : Z;
  (** the status the [n]-th call of [XGrabKeyboard] returns *)
  keyboard_grab : nat -> Z;
  (** [XKeysymToKeycode(display_, XK_Escape)] *)
  escape_keycode : Z;
  (** the events [XNextEvent] delivers, in order *)
  events : list XEvent;
  (** [XGetImage], [None] for a null image *)
  get_image : Window -> Z -> Z -> Z -> Z -> option XImage;
  (** is the cairo surface non-null? *)
  surface_created : bool;
  (** the status [cairo_surface_write_to_png] returns *)
  write_png_status : Z;
  (** the first resource id Xlib hands out *)
  first_xid : XID
}.

(** What changes while the program runs. *)
Record World := {
  log : list XCall;
  next_xid : XID;
  kbd_calls : nat;
  pending : list XEvent;
  frame : Frame
}.

Definition set_log (l : list XCall) (w : World) : World :=
  {| log := l; next_xid := next_xid w; kbd_calls := kbd_calls w;
     pending := pending w; frame := frame w |}.

Definition set_next_xid (n : XID) (w : World) : World :=
  {| log := log w; next_xid := n; kbd_calls := kbd_calls w;
     pending := pending w; frame := frame w |}.

Definition set_kbd_calls (n : nat) (w : World) : World :=
  {| log := log w; next_xid := next_xid w; kbd_calls := n;
     pending := pending w; frame := frame w |}.

Definition set_pending (p : list XEvent) (w : World) : World :=
  {| log := log w; next_xid := next_xid w; kbd_calls := kbd_calls w;
     pending := p; frame := frame w |}.

Definition set_frame (f : Frame) (w : World) : World :=
  {| log := log w; next_xid := next_xid w; kbd_calls := kbd_calls w;
     pending := pending w; frame := f |}.

(** ** The monad *)

Inductive Outcome (A : Type) :=
| Ret (a : A)
| Stop (t : Termination).
Arguments Ret {A} a.
Arguments Stop {A} t.

Definition M (A : Type) : Type := World -> Outcome A * World.

Definition ret {A : Type} (a : A) : M A := fun w => (Ret a, w).

Definition stop {A : Type} (t : Termination) : M A := fun w => (Stop t, w).

Definition bind {A B : Type} (m : M A) (k : A -> M B) : M B :=
  fun w =>
    match m w with
    | (Ret a, w') => k a w'
    | (Stop t, w') => (Stop t, w')
    end.

Notation "x <- m ;; k" := (bind m (fun x => k))
  (at level 61, m at next level, right associativity).
Notation "m ;; k" := (bind m (fun _ => k))
  (at level 61, right associativity).

(** a call whose result the program ignores or that returns nothing *)
Definition call (c : XCall) : M unit :=
  fun w => (Ret tt, set_log (log w ++ [c]) w).

(** A fresh resource id.  Xlib hands out ids from a counter, so an id
    is never given twice in a run. *)
Definition fresh : M XID :=
  fun w => (Ret (next_xid w), set_next_xid (next_xid w + 1) w).

(** [*p = z] *)
Definition store (p : pointer) (z : Z) : M unit :=
  match p with
  | NULL => stop Segfault
  | AddrOf l => fun w => (Ret tt, set_frame (frame_set (frame w) l z) w)
  end.

(** [*p] *)
Definition load (p : pointer) : M Z :=
  match p with
  | NULL => stop Segfault
  | AddrOf l => fun w => (Ret (frame_get (frame w) l), w)
  end.

(** Modelled from the spec: the [CHECK] macro comes from glog (or from
    base/logging.h), neither of which is part of the sources.  A failed
    check is fatal: it is reported, the process ends with a non-zero
    status, and nothing else is attempted. *)
Definition CHECK (cond : bool) (c : Check) : M unit :=
  if cond then ret tt else stop (CheckFailed c).

(** ** class RegionSelector *)

Record RegionSelector := {
  root_ : Window;
  cursor_ : Cursor;
  left_win_ : Window;
  right_win_ : Window;
  top_win_ : Window;
  bottom_win_ : Window;
  black_gc_ : GC;
  white_gc_ : GC
}.

(** Total width of the (black) region border, in pixels. *)
Definition kBorder : Z := 2.

(** Width of the inner (white) part of the region border, in pixels. *)
Definition kInteriorBorder : Z := 1.

(** Maximum number of times that we'll attempt to grab the keyboard. *)
Definition kMaxKeyboardGrabAttempts : Z := 10.

(** Delay before we retry grabbing the keyboard, in milliseconds. *)
Definition kKeyboardGrabDelayMs : Z := 100.

(** The locals of the selection loop. *)
Record DragVars := {
  done : bool;
  dragging : bool;
  aborted : bool;
  start_x : Z;
  start_y : Z;
  end_x : Z;
  end_y : Z
}.

(** [bool done = false, dragging = false, aborted = false;
     int start_x = 0, start_y = 0, end_x = 0, end_y = 0;] *)
Definition initial_vars : DragVars :=
  {| done := false; dragging := false; aborted := false;
     start_x := 0; start_y := 0; end_x := 0; end_y := 0 |}.

Section Selector.

Variable env : Env.

(** Create and return an offscreen border window.  Doesn't map it. *)
Definition CreateWindow : M Window :=
  win <- fresh ;;
  call (XCreateWindow win (-1) (-1) 1 1) ;;
  call (XSelectInput win) ;;
  ret win.

(** The constructor: the member initialisers in declaration order, then
    the two graphics contexts. *)
Definition RegionSelector_ctor : M RegionSelector :=
  let root := DefaultRootWindow env in
  cursor <- fresh ;;
  call (XCreateFontCursor cursor) ;;
  left_win <- CreateWindow ;;
  right_win <- CreateWindow ;;
  top_win <- CreateWindow ;;
  bottom_win <- CreateWindow ;;
  black_gc <- fresh ;;
  call (XCreateGC black_gc BlackPixel) ;;
  white_gc <- fresh ;;
  call (XCreateGC white_gc WhitePixel) ;;
  ret {| root_ := root; cursor_ := cursor;
         left_win_ := left_win; right_win_ := right_win;
         top_win_ := top_win; bottom_win_ := bottom_win;
         black_gc_ := black_gc; white_gc_ := white_gc |}.

(** The destructor. *)
Definition RegionSelector_dtor (this : RegionSelector) : M unit :=
  call (XDestroyWindow (left_win_ this)) ;;
  call (XDestroyWindow (right_win_ this)) ;;
  call (XDestroyWindow (top_win_ this)) ;;
  call (XDestroyWindow (bottom_win_ this)) ;;
  call (XFreeCursor (cursor_ this)) ;;
  call (XFreeGC (black_gc_ this)) ;;
  call (XFreeGC (white_gc_ this)).

(** Configure all of the border windows to frame the current dragged
    region. *)
Definition ConfigureWindows (this : RegionSelector)
    (start_x start_y drag_x drag_y : Z) : M unit :=
  let left := Z.min drag_x start_x in
  let right := Z.max drag_x start_x in
  let top := Z.min drag_y start_y in
  let bottom := Z.max drag_y start_y in
  call (XMoveResizeWindow (left_win_ this)
          (CInt.sub left kBorder) top
          (CInt.to_unsigned kBorder)
          (CInt.to_unsigned (Z.max (CInt.sub bottom top) 1))) ;;
  call (XMoveResizeWindow (right_win_ this)
          right top
          (CInt.to_unsigned kBorder)
          (CInt.to_unsigned (Z.max (CInt.sub bottom top) 1))) ;;
  call (XMoveResizeWindow (top_win_ this)
          (CInt.sub left kBorder) (CInt.sub top kBorder)
          (CInt.to_unsigned
             (CInt.add (CInt.sub right left) (CInt.mul 2 kBorder)))
          (CInt.to_unsigned kBorder)) ;;
  call (XMoveResizeWindow (bottom_win_ this)
          (CInt.sub left kBorder) bottom
          (CInt.to_unsigned
             (CInt.add (CInt.sub right left) (CInt.mul 2 kBorder)))
          (CInt.to_unsigned kBorder)).

(** Move all of the border windows offscreen. *)
Definition MoveWindowsOffscreen (this : RegionSelector) : M unit :=
  call (XMoveResizeWindow (left_win_ this) (-1) (-1) 1 1) ;;
  call (XMoveResizeWindow (right_win_ this) (-1) (-1) 1 1) ;;
  call (XMoveResizeWindow (top_win_ this) (-1) (-1) 1 1) ;;
  call (XMoveResizeWindow (bottom_win_ this) (-1) (-1) 1 1).

(** Repaint a border window. *)
Definition PaintWindow (this : RegionSelector) (win : Window)
    (start_x start_y drag_x drag_y : Z) : M unit :=
  let width := CInt.sub (Z.max start_x drag_x) (Z.min start_x drag_x) in
  let height := CInt.sub (Z.max start_y drag_y) (Z.min start_y drag_y) in
  let outer := CInt.sub kBorder kInteriorBorder in
  if win =? left_win_ this then
    call (XFillRectangle win (black_gc_ this)
            0 0 (CInt.to_unsigned outer) (CInt.to_unsigned height)) ;;
    call (XFillRectangle win (white_gc_ this)
            outer 0
            (CInt.to_unsigned kInteriorBorder) (CInt.to_unsigned height))
  else if win =? right_win_ this then
    call (XFillRectangle win (black_gc_ this)
            kInteriorBorder 0
            (CInt.to_unsigned outer) (CInt.to_unsigned height)) ;;
    call (XFillRectangle win (white_gc_ this)
            0 0
            (CInt.to_unsigned kInteriorBorder) (CInt.to_unsigned height))
  else if win =? top_win_ this then
    call (XFillRectangle win (black_gc_ this)
            0 0
            (CInt.to_unsigned (CInt.add width (CInt.mul 2 kBorder)))
            (CInt.to_unsigned outer)) ;;
    call (XFillRectangle win (black_gc_ this)
            0 outer
            (CInt.to_unsigned outer) (CInt.to_unsigned kInteriorBorder)) ;;
    call (XFillRectangle win (black_gc_ this)
            (CInt.add (CInt.add kBorder width) kInteriorBorder)
            outer
            (CInt.to_unsigned outer) (CInt.to_unsigned kInteriorBorder)) ;;
    call (XFillRectangle win (white_gc_ this)
            outer outer
            (CInt.to_unsigned
               (CInt.add width (CInt.mul 2 kInteriorBorder)))
            (CInt.to_unsigned kInteriorBorder))
  else if win =? bottom_win_ this then
    call (XFillRectangle win (black_gc_ this)
            0 kInteriorBorder
            (CInt.to_unsigned (CInt.add width (CInt.mul 2 kBorder)))
            (CInt.to_unsigned outer)) ;;
    call (XFillRectangle win (black_gc_ this)
            0 0
            (CInt.to_unsigned outer) (CInt.to_unsigned kInteriorBorder)) ;;
    call (XFillRectangle win (black_gc_ this)
            (CInt.add (CInt.add kBorder width) kInteriorBorder) 0
            (CInt.to_unsigned outer) (CInt.to_unsigned kInteriorBorder)) ;;
    call (XFillRectangle win (white_gc_ this)
            outer 0
            (CInt.to_unsigned
               (CInt.add width (CInt.mul 2 kInteriorBorder)))
            (CInt.to_unsigned kInteriorBorder))
  else ret tt.

(** Grab the pointer, returning true if successful. *)
Definition GrabPointer (this : RegionSelector) : M bool :=
  let grab_result := pointer_grab env in
  call (XGrabPointer grab_result) ;;
  ret (grab_result =? GrabSuccess).

(** Grab the keyboard, returning true if successful. *)
Definition GrabKeyboard (this : RegionSelector) : M bool :=
  fun w =>
    let grab_result := keyboard_grab env (kbd_calls w) in
    (call (XGrabKeyboard grab_result) ;;
     ret (grab_result =? GrabSuccess))
      (set_kbd_calls (S (kbd_calls w)) w).

(** [SelectRegion], lines 97-105: the keyboard-grab retry loop
    [while (!GrabKeyboard()) { ... }].  It yields [true] when the loop is
    left with the keyboard grabbed and [false] when the function returns
    from inside the loop.  The loop is bounded by its counter only, so the
    model recurses on [fuel]; [grab_keyboard_retry_fuel] below shows that
    [kMaxKeyboardGrabAttempts] units are always enough. *)
Fixpoint grab_keyboard_retry (fuel : nat) (this : RegionSelector)
    (num_failed_grabs : Z) : M bool :=
  match fuel with
  | O => stop OutOfFuel
  | S fuel' =>
      grabbed <- GrabKeyboard this ;;
      if grabbed then ret true
      else
        let num_failed_grabs := CInt.add num_failed_grabs 1 in
        if num_failed_grabs >=? kMaxKeyboardGrabAttempts then
          call XUngrabPointer ;;
          ret false
        else
          call (usleep (kKeyboardGrabDelayMs * 1000)) ;;
          grab_keyboard_retry fuel' this num_failed_grabs
  end.

(** [SelectRegion], lines 118-152: the [switch] on one event. *)
Definition handle_event (this : RegionSelector) (event : XEvent)
    (v : DragVars) : M DragVars :=
  match event with
  | ButtonPress x_root y_root =>
      ret {| done := done v; dragging := true; aborted := aborted v;
             start_x := x_root; start_y := y_root;
             end_x := end_x v; end_y := end_y v |}
  | ButtonRelease x_root y_root =>
      if dragging v then
        ret {| done := true; dragging := dragging v; aborted := aborted v;
               start_x := start_x v; start_y := start_y v;
               end_x := x_root; end_y := y_root |}
      else ret v
  | Expose window =>
      PaintWindow this window (start_x v) (start_y v) (end_x v) (end_y v) ;;
      ret v
  | KeyPress keycode =>
      call XKeysymToKeycode_Escape ;;
      if keycode =? escape_keycode env then
        (* If we're in a drag, cancel it; otherwise, abort the selection. *)
        if dragging v then
          MoveWindowsOffscreen this ;;
          ret {| done := done v; dragging := false; aborted := aborted v;
                 start_x := start_x v; start_y := start_y v;
                 end_x := end_x v; end_y := end_y v |}
        else
          ret {| done := done v; dragging := dragging v; aborted := true;
                 start_x := start_x v; start_y := start_y v;
                 end_x := end_x v; end_y := end_y v |}
      else ret v
  | MotionNotify x_root y_root =>
      if dragging v then
        ConfigureWindows this (start_x v) (start_y v) x_root y_root ;;
        ret {| done := done v; dragging := dragging v; aborted := aborted v;
               start_x := start_x v; start_y := start_y v;
               end_x := x_root; end_y := y_root |}
      else ret v
  | OtherEvent _ => ret v
  end.

(** [SelectRegion], lines 115-153: [while (!done && !aborted)].  Every
    turn takes one event from the queue, so the model recurses on the
    queue; with the queue empty [XNextEvent] does not return. *)
Fixpoint event_loop (queue : list XEvent) (this : RegionSelector)
    (v : DragVars) : M DragVars :=
  if negb (done v) && negb (aborted v) then
    match queue with
    | [] => stop Blocked
    | event :: queue' =>
        (fun w => (Ret tt, set_pending queue' w)) ;;
        call (XNextEvent event) ;;
        v' <- handle_event this event v ;;
        event_loop queue' this v'
    end
  else ret v.

(** Returns false on failure (e.g. couldn't grab, user aborted, etc.). *)
Definition SelectRegion (this : RegionSelector)
    (x y width height : pointer) : M bool :=
  grabbed <- GrabPointer this ;;
  if negb grabbed then ret false
  else
    (* Retry the keyboard grab if it fails -- it may be briefly grabbed by
       the keyboard shortcut that launched the screenshot program. *)
    grabbed <- grab_keyboard_retry
                 (Z.to_nat kMaxKeyboardGrabAttempts) this 0 ;;
    if negb grabbed then ret false
    else
      MoveWindowsOffscreen this ;;
      call (XMapWindow (left_win_ this)) ;;
      call (XMapWindow (right_win_ this)) ;;
      call (XMapWindow (top_win_ this)) ;;
      call (XMapWindow (bottom_win_ this)) ;;
      v <- (fun w => event_loop (pending w) this initial_vars w) ;;
      call XUngrabKeyboard ;;
      call XUngrabPointer ;;
      call (XUnmapWindow (left_win_ this)) ;;
      call (XUnmapWindow (right_win_ this)) ;;
      call (XUnmapWindow (top_win_ this)) ;;
      call (XUnmapWindow (bottom_win_ this)) ;;
      if aborted v then ret false
      else
        store x (Z.min (start_x v) (end_x v)) ;;
        store y (Z.min (start_y v) (end_y v)) ;;
        x_val <- load x ;;
        store width
          (CInt.to_unsigned
             (CInt.sub (Z.max (start_x v) (end_x v)) x_val)) ;;
        y_val <- load y ;;
        store height
          (CInt.to_unsigned
             (CInt.sub (Z.max (start_y v) (end_y v)) y_val)) ;;
        ret (pointer_gt_0 width && pointer_gt_0 height).

End Selector.

(** ** The capture pipeline *)

(** How opaque should the window that we flash onscreen to provide visual
    feedback after the screenshot is taken be?  [0.25] times
    [numeric_limits<uint32_t>::max()], truncated to [uint32_t]; a quarter of
    [2^32 - 1] is exact in a double, so the truncation is the integer
    quotient. *)
Definition kVisualFeedbackWindowOpacity_times_max : Z := CInt.uint_max / 4.

(** How long should the visual feedback window be displayed? *)
Definition kVisualFeedbackWindowDisplayTimeMs : Z := 100.

(** Create and return a window that can be displayed after the screenshot is
    taken to provide visual feedback.  Doesn't map the window. *)
Definition CreateVisualFeedbackWindow (x y width height : Z) : M Window :=
  win <- fresh ;;
  call (XCreateWindow win x y width height) ;;
  let opacity := kVisualFeedbackWindowOpacity_times_max in
  call (XInternAtom "_NET_WM_WINDOW_OPACITY") ;;
  call (XChangeProperty win opacity) ;;
  ret win.

Section Main.

Variable env : Env.

Definition initial_world : World :=
  {| log := []; next_xid := first_xid env; kbd_calls := 0%nat;
     pending := events env;
     frame := {| val_shot_x := 0; val_shot_y := 0;
                 val_shot_width := 0; val_shot_height := 0 |} |}.

(** The body of [main]; [return n] is [stop (Exit n)]. *)
Definition main_body : M unit :=
  if negb (argc env =? 2) then
    call ShowUsageWithFlags ;;
    stop (Exit 1)
  else
    call XOpenDisplay ;;
    CHECK (display_opens env) CheckDisplay ;;
    win <- (if (FLAGS_window env =? "")%string || FLAGS_region env then
              ret (DefaultRootWindow env)
            else
              call (IstreamExtractHex (FLAGS_window env)) ;;
              match extract_hex env (FLAGS_window env) with
              | Some id => ret id
              | None => stop (CheckFailed CheckParseWindow)
              end) ;;
    store (AddrOf shot_x) 0 ;;
    store (AddrOf shot_y) 0 ;;
    store (AddrOf shot_width) 0 ;;
    store (AddrOf shot_height) 0 ;;
    call (XGetGeometry win) ;;
    match geometry env win with
    | Some (wd, ht) =>
        store (AddrOf shot_width) wd ;;
        store (AddrOf shot_height) ht
    | None => stop (CheckFailed CheckGeometry)
    end ;;
    (if FLAGS_region env then
       selector <- RegionSelector_ctor env ;;
       selected <- SelectRegion env selector
                     (AddrOf shot_x) (AddrOf shot_y)
                     (AddrOf shot_width) (AddrOf shot_height) ;;
       RegionSelector_dtor selector ;;
       if negb selected then stop (Exit 1) else ret tt
     else ret tt) ;;
    x <- load (AddrOf shot_x) ;;
    y <- load (AddrOf shot_y) ;;
    wd <- load (AddrOf shot_width) ;;
    ht <- load (AddrOf shot_height) ;;
    call (XGetImage win x y wd ht) ;;
    match get_image env win x y wd ht with
    | None => stop (CheckFailed CheckImage)
    | Some image =>
        CHECK ((depth image =? 24) || (depth image =? 32)) CheckDepth ;;
        visual_feedback_win <- CreateVisualFeedbackWindow x y wd ht ;;
        call (XMapWindow visual_feedback_win) ;;
        call XFlush ;;
        call (usleep (kVisualFeedbackWindowDisplayTimeMs * 1000)) ;;
        call (XDestroyWindow visual_feedback_win) ;;
        call XFlush ;;
        call (cairo_image_surface_create_for_data
                (if depth image =? 24 then CAIRO_FORMAT_RGB24
                 else CAIRO_FORMAT_ARGB32)
                (width image) (height image) (bytes_per_line image)) ;;
        CHECK (surface_created env) CheckSurface ;;
        call (cairo_surface_write_to_png (filename env)) ;;
        CHECK (write_png_status env =? CAIRO_STATUS_SUCCESS)
          CheckWritePng ;;
        call cairo_surface_destroy ;;
        call XDestroyImage ;;
        call XCloseDisplay ;;
        stop (Exit 0)
    end.

(** A run of the program: how it ends, and the world it leaves. *)
Definition main : Termination * World :=
  match main_body initial_world with
  | (Ret _, w) => (Exit 0, w)
  | (Stop t, w) => (t, w)
  end.

End Main.

(** ** Reading the log *)

Definition is_XUngrabPointer (c : XCall) : bool :=
  match c with XUngrabPointer => true | _ => false end.

Definition is_XUngrabKeyboard (c : XCall) : bool :=
  match c with XUngrabKeyboard => true | _ => false end.

Definition count_calls (p : XCall -> bool) (l : list XCall) : nat :=
  List.length (List.filter p l).

(** Is the pointer grabbed after the calls of [l], given that it was
    ([held = true]) or was not grabbed before them? *)
Fixpoint pointer_held (held : bool) (l : list XCall) : bool :=
  match l with
  | [] => held
  | XGrabPointer r :: l' => pointer_held (held || (r =? GrabSuccess)) l'
  | XUngrabPointer :: l' => pointer_held false l'
  | _ :: l' => pointer_held held l'
  end.

Fixpoint keyboard_held (held : bool) (l : list XCall) : bool :=
  match l with
  | [] => held
  | XGrabKeyboard r :: l' => keyboard_held (held || (r =? GrabSuccess)) l'
  | XUngrabKeyboard :: l' => keyboard_held false l'
  | _ :: l' => keyboard_held held l'
  end.

(** The geometry a window has after the calls of [l]: the one of the last
    [XMoveResizeWindow] on it, else the one it was created with. *)
Fixpoint window_geometry (win : Window) (l : list XCall)
    (current : option (Z * Z * Z * Z)) : option (Z * Z * Z * Z) :=
  match l with
  | [] => current
  | XCreateWindow w x y wd ht :: l' =>
      window_geometry win l'
        (if w =? win then Some (x, y, wd, ht) else current)
  | XMoveResizeWindow w x y wd ht :: l' =>
      window_geometry win l'
        (if w =? win then Some (x, y, wd, ht) else current)
  | _ :: l' => window_geometry win l' current
  end.

(** A concrete [input >> hex >> win] for the examples: optional [0x], then
    hexadecimal digits up to the first other character; no digit at all
    sets the fail bit. *)
Definition hex_digit (c : ascii) : option Z :=
  let n := Z.of_nat (nat_of_ascii c) in
  if (48 <=? n) && (n <=? 57) then Some (n - 48)
  else if (97 <=? n) && (n <=? 102) then Some (n - 87)
  else if (65 <=? n) && (n <=? 70) then Some (n - 55)
  else None.

Fixpoint hex_digits (s : string) (acc : option Z) : option Z :=
  match s with
  | EmptyString => acc
  | String c s' =>
      match hex_digit c with
      | Some d =>
          hex_digits s' (Some (16 * match acc with Some a => a | None => 0 end + d))
      | None => acc
      end
  end.

Definition example_extract_hex (s : string) : option Z :=
  match s with
  | String "0" (String "x" s') => hex_digits s' None
  | String "0" (String "X" s') => hex_digits s' None
  | _ => hex_digits s None
  end.

(** * Vocabulary of the properties

    The parts of [SelectRegion] and of [main] that the lemmas name, the
    readings of the call log, and the example environments. *)

(** [w'] is [w] after some more calls: nothing but the log has changed. *)
Definition logged (w : World) (calls : list XCall) : World :=
  set_log (log w ++ calls) w.

(** A computation that only makes calls: it returns [a] and appends
    [calls] to the log, in every world. *)
Definition emits {A : Type} (m : M A) (a : A) (calls : list XCall) : Prop :=
  forall w, m w = (Ret a, logged w calls).

Definition is_border (this : RegionSelector) (w : Window) : bool :=
  (w =? left_win_ this) || (w =? right_win_ this)
  || (w =? top_win_ this) || (w =? bottom_win_ this).

(** what the selection loop may call *)
Definition loop_call (this : RegionSelector) (c : XCall) : bool :=
  match c with
  | XNextEvent _ => true
  | XKeysymToKeycode_Escape => true
  | XMoveResizeWindow w _ _ _ _ => is_border this w
  | XFillRectangle w _ _ _ _ _ => is_border this w
  | _ => false
  end.

(** what [SelectRegion] may call *)
Definition selection_call (this : RegionSelector) (c : XCall) : bool :=
  match c with
  | XGrabPointer _ | XGrabKeyboard _ | XUngrabPointer | XUngrabKeyboard
  | usleep _ => true
  | XMapWindow w | XUnmapWindow w => is_border this w
  | _ => loop_call this c
  end.

Definition offscreen_calls (this : RegionSelector) : list XCall :=
  [XMoveResizeWindow (left_win_ this) (-1) (-1) 1 1;
   XMoveResizeWindow (right_win_ this) (-1) (-1) 1 1;
   XMoveResizeWindow (top_win_ this) (-1) (-1) 1 1;
   XMoveResizeWindow (bottom_win_ this) (-1) (-1) 1 1].

(** The loop runs on: neither [done] nor [aborted]. *)
Definition alive (v : DragVars) : bool := negb (done v) && negb (aborted v).

(** The locals after one event, read off [handle_event]. *)
Definition next_vars (env : Env) (this : RegionSelector) (event : XEvent)
    (v : DragVars) : DragVars :=
  match fst (handle_event env this event v (initial_world env)) with
  | Ret v' => v'
  | Stop _ => v
  end.

(** The locals after the events [evs], taken one after the other. *)
Definition vars_after (env : Env) (this : RegionSelector)
    (evs : list XEvent) (v : DragVars) : DragVars :=
  fold_left (fun v event => next_vars env this event v) evs v.

(** An event that leaves a drag in progress as it is, up to the end point:
    no button, no Escape. *)
Definition keeps_drag (env : Env) (event : XEvent) : bool :=
  match event with
  | ButtonPress _ _ | ButtonRelease _ _ => false
  | KeyPress keycode => negb (keycode =? escape_keycode env)
  | Expose _ | MotionNotify _ _ | OtherEvent _ => true
  end.

(** The calls of [n] failed attempts, the first of them attempt number
    [first]: each is followed by the delay. *)
Definition failed_attempts (env : Env) (first n : nat) : list XCall :=
  flat_map
    (fun i => [XGrabKeyboard (keyboard_grab env i);
               usleep (kKeyboardGrabDelayMs * 1000)])
    (seq first n).

(** a call of a failed attempt *)
Definition kbd_failure_call (c : XCall) : bool :=
  match c with
  | XGrabKeyboard r => negb (r =? GrabSuccess)
  | usleep _ => true
  | _ => false
  end.

(** The world after [n] more keyboard-grab attempts that made [calls]. *)
Definition attempted (w : World) (n : nat) (calls : list XCall) : World :=
  logged (set_kbd_calls (kbd_calls w + n) w) calls.

Definition enter_calls (this : RegionSelector) : list XCall :=
  offscreen_calls this
  ++ [XMapWindow (left_win_ this); XMapWindow (right_win_ this);
      XMapWindow (top_win_ this); XMapWindow (bottom_win_ this)].

Definition leave_calls (this : RegionSelector) : list XCall :=
  [XUngrabKeyboard; XUngrabPointer;
   XUnmapWindow (left_win_ this); XUnmapWindow (right_win_ this);
   XUnmapWindow (top_win_ this); XUnmapWindow (bottom_win_ this)].

(** The rectangle [SelectRegion] stores for the drag recorded in [v]. *)
Definition stored_rectangle (v : DragVars) : Frame :=
  {| val_shot_x := Z.min (start_x v) (end_x v);
     val_shot_y := Z.min (start_y v) (end_y v);
     val_shot_width :=
       CInt.to_unsigned
         (CInt.sub (Z.max (start_x v) (end_x v))
            (Z.min (start_x v) (end_x v)));
     val_shot_height :=
       CInt.to_unsigned
         (CInt.sub (Z.max (start_y v) (end_y v))
            (Z.min (start_y v) (end_y v))) |}.

(** lines 155-169: from the end of the loop to the [return] *)
Definition after_loop (this : RegionSelector)
    (x y width height : pointer) (v : DragVars)
    : M bool :=
  call XUngrabKeyboard ;;
  call XUngrabPointer ;;
  call (XUnmapWindow (left_win_ this)) ;;
  call (XUnmapWindow (right_win_ this)) ;;
  call (XUnmapWindow (top_win_ this)) ;;
  call (XUnmapWindow (bottom_win_ this)) ;;
  if aborted v then ret false
  else
    store x (Z.min (start_x v) (end_x v)) ;;
    store y (Z.min (start_y v) (end_y v)) ;;
    x_val <- load x ;;
    store width
      (CInt.to_unsigned (CInt.sub (Z.max (start_x v) (end_x v)) x_val)) ;;
    y_val <- load y ;;
    store height
      (CInt.to_unsigned (CInt.sub (Z.max (start_y v) (end_y v)) y_val)) ;;
    ret (pointer_gt_0 width && pointer_gt_0 height).

(** lines 107-169: what [SelectRegion] does once both grabs are held *)
Definition selection (env : Env) (this : RegionSelector)
    (x y width height : pointer) : M bool :=
  MoveWindowsOffscreen this ;;
  call (XMapWindow (left_win_ this)) ;;
  call (XMapWindow (right_win_ this)) ;;
  call (XMapWindow (top_win_ this)) ;;
  call (XMapWindow (bottom_win_ this)) ;;
  v <- (fun w => event_loop env (pending w) this initial_vars w) ;;
  after_loop this x y width height v.

(** Both grabs are acquired, the keyboard after [n] failed attempts. *)
Definition grabs_acquired (env : Env) (w : World) (n : nat) : Prop :=
  pointer_grab env = GrabSuccess
  /\ Z.of_nat n < kMaxKeyboardGrabAttempts
  /\ (forall i, (i < n)%nat ->
                keyboard_grab env (kbd_calls w + i) <> GrabSuccess)
  /\ keyboard_grab env (kbd_calls w + n) = GrabSuccess.

(** the calls that acquire the grabs *)
Definition acquire_calls (env : Env) (w : World) (n : nat) : list XCall :=
  XGrabPointer GrabSuccess
  :: failed_attempts env (kbd_calls w) n ++ [XGrabKeyboard GrabSuccess].

(** The rectangle of a drag from [(sx, sy)] to [(ex, ey)], as the machine
    computes it. *)
Definition drag_rectangle (sx sy ex ey : Z) : Frame :=
  {| val_shot_x := Z.min sx ex;
     val_shot_y := Z.min sy ey;
     val_shot_width :=
       CInt.to_unsigned (CInt.sub (Z.max sx ex) (Z.min sx ex));
     val_shot_height :=
       CInt.to_unsigned (CInt.sub (Z.max sy ey) (Z.min sy ey)) |}.

(** The outcome of [SelectRegion] and the calls it has made, path by path:
    the pointer grab fails; the keyboard grab is given up; the loop waits
    for an event that does not come; the loop ends. *)
Inductive selection_run (env : Env) (this : RegionSelector)
    : Outcome bool -> list XCall -> Prop :=
| run_pointer_busy :
    pointer_grab env <> GrabSuccess ->
    selection_run env this (Ret false) [XGrabPointer (pointer_grab env)]
| run_keyboard_busy K :
    pointer_grab env = GrabSuccess ->
    forallb kbd_failure_call K = true ->
    selection_run env this (Ret false)
      (XGrabPointer GrabSuccess :: K ++ [XUngrabPointer])
| run_blocked K L :
    pointer_grab env = GrabSuccess ->
    forallb kbd_failure_call K = true ->
    forallb (loop_call this) L = true ->
    selection_run env this (Stop Blocked)
      (XGrabPointer GrabSuccess
       :: K ++ XGrabKeyboard GrabSuccess :: enter_calls this ++ L)
| run_finished K L o :
    pointer_grab env = GrabSuccess ->
    forallb kbd_failure_call K = true ->
    forallb (loop_call this) L = true ->
    (o = Stop Segfault \/ exists b, o = Ret b) ->
    selection_run env this o
      (XGrabPointer GrabSuccess
       :: K ++ XGrabKeyboard GrabSuccess
       :: enter_calls this ++ L ++ leave_calls this).

(** lines 381-383: the block that runs the selector *)
Definition select_block (env : Env) : M unit :=
  selector <- RegionSelector_ctor env ;;
  selected <- SelectRegion env selector
                (AddrOf shot_x) (AddrOf shot_y)
                (AddrOf shot_width) (AddrOf shot_height) ;;
  RegionSelector_dtor selector ;;
  if negb selected then stop (Exit 1) else ret tt.

(** lines 369-384, once the window is known *)
Definition measure_and_select (env : Env) (win : Window) : M Window :=
  store (AddrOf shot_x) 0 ;;
  store (AddrOf shot_y) 0 ;;
  store (AddrOf shot_width) 0 ;;
  store (AddrOf shot_height) 0 ;;
  call (XGetGeometry win) ;;
  match geometry env win with
  | Some (wd, ht) =>
      store (AddrOf shot_width) wd ;;
      store (AddrOf shot_height) ht
  | None => stop (CheckFailed CheckGeometry)
  end ;;
  (if FLAGS_region env then select_block env else ret tt) ;;
  ret win.

(** lines 349-384: everything up to the selection; yields the window that
    is captured *)
Definition main_prelude (env : Env) : M Window :=
  if negb (argc env =? 2) then
    call ShowUsageWithFlags ;;
    stop (Exit 1)
  else
    call XOpenDisplay ;;
    CHECK (display_opens env) CheckDisplay ;;
    win <- (if (FLAGS_window env =? "")%string || FLAGS_region env then
              ret (DefaultRootWindow env)
            else
              call (IstreamExtractHex (FLAGS_window env)) ;;
              match extract_hex env (FLAGS_window env) with
              | Some id => ret id
              | None => stop (CheckFailed CheckParseWindow)
              end) ;;
    measure_and_select env win.

(** lines 386-417: read the image, flash, encode *)
Definition capture (env : Env) (win : Window) : M unit :=
  x <- load (AddrOf shot_x) ;;
  y <- load (AddrOf shot_y) ;;
  wd <- load (AddrOf shot_width) ;;
  ht <- load (AddrOf shot_height) ;;
  call (XGetImage win x y wd ht) ;;
  match get_image env win x y wd ht with
  | None => stop (CheckFailed CheckImage)
  | Some image =>
      CHECK ((depth image =? 24) || (depth image =? 32)) CheckDepth ;;
      visual_feedback_win <- CreateVisualFeedbackWindow x y wd ht ;;
      call (XMapWindow visual_feedback_win) ;;
      call XFlush ;;
      call (usleep (kVisualFeedbackWindowDisplayTimeMs * 1000)) ;;
      call (XDestroyWindow visual_feedback_win) ;;
      call XFlush ;;
      call (cairo_image_surface_create_for_data
              (if depth image =? 24 then CAIRO_FORMAT_RGB24
               else CAIRO_FORMAT_ARGB32)
              (width image) (height image) (bytes_per_line image)) ;;
      CHECK (surface_created env) CheckSurface ;;
      call (cairo_surface_write_to_png (filename env)) ;;
      CHECK (write_png_status env =? CAIRO_STATUS_SUCCESS) CheckWritePng ;;
      call cairo_surface_destroy ;;
      call XDestroyImage ;;
      call XCloseDisplay ;;
      stop (Exit 0)
  end.

(** the calls that flash the feedback window [fb] over the rectangle *)
Definition flash_calls (fb : Window) (x y wd ht : Z) : list XCall :=
  [XCreateWindow fb x y wd ht;
   XInternAtom "_NET_WM_WINDOW_OPACITY";
   XChangeProperty fb kVisualFeedbackWindowOpacity_times_max;
   XMapWindow fb;
   XFlush;
   usleep (kVisualFeedbackWindowDisplayTimeMs * 1000);
   XDestroyWindow fb;
   XFlush].

(** the call that wraps the image data in a cairo surface *)
Definition create_surface_call (image : XImage) : XCall :=
  cairo_image_surface_create_for_data
    (if depth image =? 24 then CAIRO_FORMAT_RGB24 else CAIRO_FORMAT_ARGB32)
    (width image) (height image) (bytes_per_line image).

(** How the capture of the rectangle [(x, y, wd, ht)] of [win] ends, and
    the calls it makes; [fb] is the id the feedback window gets. *)
Inductive capture_run (env : Env) (win : Window) (x y wd ht : Z) (fb : XID)
    : Termination -> list XCall -> Prop :=
| capture_no_image :
    get_image env win x y wd ht = None ->
    capture_run env win x y wd ht fb (CheckFailed CheckImage)
      [XGetImage win x y wd ht]
| capture_bad_depth image :
    get_image env win x y wd ht = Some image ->
    depth image <> 24 -> depth image <> 32 ->
    capture_run env win x y wd ht fb (CheckFailed CheckDepth)
      [XGetImage win x y wd ht]
| capture_no_surface image :
    get_image env win x y wd ht = Some image ->
    depth image = 24 \/ depth image = 32 ->
    surface_created env = false ->
    capture_run env win x y wd ht fb (CheckFailed CheckSurface)
      (XGetImage win x y wd ht
       :: flash_calls fb x y wd ht ++ [create_surface_call image])
| capture_not_written image :
    get_image env win x y wd ht = Some image ->
    depth image = 24 \/ depth image = 32 ->
    surface_created env = true ->
    write_png_status env <> CAIRO_STATUS_SUCCESS ->
    capture_run env win x y wd ht fb (CheckFailed CheckWritePng)
      (XGetImage win x y wd ht
       :: flash_calls fb x y wd ht
       ++ [create_surface_call image;
           cairo_surface_write_to_png (filename env)])
| capture_saved image :
    get_image env win x y wd ht = Some image ->
    depth image = 24 \/ depth image = 32 ->
    surface_created env = true ->
    write_png_status env = CAIRO_STATUS_SUCCESS ->
    capture_run env win x y wd ht fb (Exit 0)
      (XGetImage win x y wd ht
       :: flash_calls fb x y wd ht
       ++ [create_surface_call image;
           cairo_surface_write_to_png (filename env);
           cairo_surface_destroy; XDestroyImage; XCloseDisplay]).

(** the selector the constructor builds when [n] is the next resource id *)
Definition selector_at (env : Env) (n : XID) : RegionSelector :=
  {| root_ := DefaultRootWindow env; cursor_ := n;
     left_win_ := n + 1; right_win_ := n + 2;
     top_win_ := n + 3; bottom_win_ := n + 4;
     black_gc_ := n + 5; white_gc_ := n + 6 |}.

Definition ctor_calls (n : XID) : list XCall :=
  [XCreateFontCursor n;
   XCreateWindow (n + 1) (-1) (-1) 1 1; XSelectInput (n + 1);
   XCreateWindow (n + 2) (-1) (-1) 1 1; XSelectInput (n + 2);
   XCreateWindow (n + 3) (-1) (-1) 1 1; XSelectInput (n + 3);
   XCreateWindow (n + 4) (-1) (-1) 1 1; XSelectInput (n + 4);
   XCreateGC (n + 5) BlackPixel; XCreateGC (n + 6) WhitePixel].

Definition dtor_calls (this : RegionSelector) : list XCall :=
  [XDestroyWindow (left_win_ this); XDestroyWindow (right_win_ this);
   XDestroyWindow (top_win_ this); XDestroyWindow (bottom_win_ this);
   XFreeCursor (cursor_ this);
   XFreeGC (black_gc_ this); XFreeGC (white_gc_ this)].

(** A call the selector makes in its lifetime; the windows it creates or
    maps have ids below [bound]. *)
Definition selector_lifetime_call (bound : XID) (c : XCall) : bool :=
  match c with
  | XCreateFontCursor _ | XSelectInput _ | XCreateGC _ _
  | XDestroyWindow _ | XFreeCursor _ | XFreeGC _
  | XGrabPointer _ | XGrabKeyboard _ | XUngrabPointer | XUngrabKeyboard
  | usleep _ | XUnmapWindow _ | XMoveResizeWindow _ _ _ _ _
  | XNextEvent _ | XKeysymToKeycode_Escape
  | XFillRectangle _ _ _ _ _ _ => true
  | XCreateWindow w _ _ _ _ | XMapWindow w => w <? bound
  | _ => false
  end.

(** A call [main] makes before it reads the image. *)
Definition prelude_call (env : Env) (bound : XID) (c : XCall) : bool :=
  match c with
  | ShowUsageWithFlags | XOpenDisplay => true
  | IstreamExtractHex _ => negb (FLAGS_region env)
  | XGetGeometry w =>
      negb (FLAGS_region env) || (w =? DefaultRootWindow env)
  | _ => selector_lifetime_call bound c
  end.

Definition is_pointer_acquired (c : XCall) : bool :=
  match c with XGrabPointer r => r =? GrabSuccess | _ => false end.

Definition is_keyboard_acquired (c : XCall) : bool :=
  match c with XGrabKeyboard r => r =? GrabSuccess | _ => false end.

(** a call that neither grabs nor releases anything for good *)
Definition grab_neutral (c : XCall) : bool :=
  match c with
  | XGrabPointer r | XGrabKeyboard r => negb (r =? GrabSuccess)
  | XUngrabPointer | XUngrabKeyboard => false
  | _ => true
  end.

(** An environment for the examples: a 1920x1080 root window with id 1,
    Escape on keycode 9, resource ids from 100, an X server that refuses
    to read an empty rectangle, and a cairo that works. *)
Definition example_env (window : string) (region : bool)
    (pointer : Z) (keyboard : nat -> Z) (evs : list XEvent)
    (image_depth : Z) : Env :=
  {| argc := 2; filename := "shot.png";
     FLAGS_window := window; FLAGS_region := region;
     extract_hex := example_extract_hex;
     display_opens := true;
     DefaultRootWindow := 1;
     geometry := fun _ => Some (1920, 1080);
     pointer_grab := pointer;
     keyboard_grab := keyboard;
     escape_keycode := 9;
     events := evs;
     get_image := fun _ _ _ wd ht =>
       if (wd =? 0) || (ht =? 0) then None
       else Some {| depth := image_depth; width := wd; height := ht;
                    bytes_per_line := 4 * wd |};
     surface_created := true;
     write_png_status := CAIRO_STATUS_SUCCESS;
     first_xid := 100 |}.

(** the keyboard is free at once *)
Definition keyboard_free (n : nat) : Z := GrabSuccess.

(** the keyboard is held ([AlreadyGrabbed]) for the first [k] attempts *)
Definition keyboard_busy_for (k : nat) (n : nat) : Z :=
  if (n <? k)%nat then 1 else GrabSuccess.

(** a click without movement at [(5, 5)] *)
Definition click_env : Env :=
  example_env "" true GrabSuccess keyboard_free
    [ButtonPress 5 5; ButtonRelease 5 5] 24.

(** a drag from [(50, 50)] to [(10, 10)] *)
Definition drag_env : Env :=
  example_env "" true GrabSuccess keyboard_free
    [ButtonPress 50 50; MotionNotify 30 30; ButtonRelease 10 10] 24.

(** a drag with the press at (50, 50), cancelled with Escape *)
Definition cancel_env : Env :=
  example_env "" true GrabSuccess keyboard_free
    [ButtonPress 50 50; MotionNotify 30 30; KeyPress 9] 24.

(** Escape before any button press *)
Definition abort_env : Env :=
  example_env "" true GrabSuccess keyboard_free [KeyPress 9] 24.

(** the keyboard is held for the first three attempts *)
Definition retry_env : Env :=
  example_env "" true GrabSuccess (keyboard_busy_for 3)
    [ButtonPress 50 50; ButtonRelease 10 10] 24.

(** the keyboard is never released *)
Definition keyboard_stuck_env : Env :=
  example_env "" true GrabSuccess (fun _ => 1)
    [ButtonPress 50 50; ButtonRelease 10 10] 24.

(** the pointer is grabbed by another client ([AlreadyGrabbed]) *)
Definition pointer_busy_env : Env :=
  example_env "" true 1 keyboard_free
    [ButtonPress 50 50; ButtonRelease 10 10] 24.

(** a call that hands the image to cairo *)
Definition is_encode_call (c : XCall) : bool :=
  match c with
  | cairo_image_surface_create_for_data _ _ _ _
  | cairo_surface_write_to_png _ => true
  | _ => false
  end.

(** a call that creates or maps the window [win] *)
Definition shows_window (win : Window) (c : XCall) : bool :=
  match c with
  | XCreateWindow w _ _ _ _ | XMapWindow w => w =? win
  | _ => false
  end.

(** a call the capture pipeline makes when it captures [win] *)
Definition capture_call (win : Window) (c : XCall) : bool :=
  match c with
  | XGetImage w _ _ _ _ => w =? win
  | XCreateWindow _ _ _ _ _ | XInternAtom _ | XChangeProperty _ _
  | XMapWindow _ | XFlush | usleep _ | XDestroyWindow _
  | cairo_image_surface_create_for_data _ _ _ _
  | cairo_surface_write_to_png _ | cairo_surface_destroy
  | XDestroyImage | XCloseDisplay => true
  | _ => false
  end.

(** a capture of the whole screen that yields an image of depth [d] *)
Definition root_env (d : Z) : Env :=
  example_env "" false GrabSuccess keyboard_free [] d.

(** the region flag together with a window id that does not parse *)
Definition region_not_hex_env : Env :=
  example_env "not-hex" true GrabSuccess keyboard_free
    [ButtonPress 50 50; MotionNotify 30 30; ButtonRelease 10 10] 24.

(** a window id that does not parse, without the region flag *)
Definition not_hex_env : Env :=
  example_env "not-hex" false GrabSuccess keyboard_free [] 24.

(** a call that talks to the X server *)
Definition is_display_call (c : XCall) : bool :=
  match c with
  | ShowUsageWithFlags | IstreamExtractHex _ | usleep _
  | cairo_image_surface_create_for_data _ _ _ _
  | cairo_surface_write_to_png _ | cairo_surface_destroy => false
  | _ => true
  end.

(** ** Rectangles on the screen *)

(** A rectangle: position, width and height. *)
Definition Rect : Type := (Z * Z * Z * Z)%type.

(** Does the rectangle cover the pixel [(px, py)]? *)
Definition in_rect (r : Rect) (px py : Z) : bool :=
  let '(x, y, wd, ht) := r in
  (x <=? px) && (px <? x + wd) && (y <=? py) && (py <? y + ht).

(** A pointer position for which none of the border computations leaves
    the range of [int]; the 16-bit positions of the X protocol are well
    inside. *)
Definition coordinate (z : Z) : Prop := - 2 ^ 29 < z < 2 ^ 29.

(** [XMoveResizeWindow] of [win] to the rectangle [r] *)
Definition move_call (win : Window) (r : Rect) : XCall :=
  let '(x, y, wd, ht) := r in XMoveResizeWindow win x y wd ht.

(** The rectangle dragged between the start point and the pointer. *)
Definition dragged_rect (sx sy dx dy : Z) : Rect :=
  (Z.min dx sx, Z.min dy sy,
   Z.max dx sx - Z.min dx sx, Z.max dy sy - Z.min dy sy).

(** The dragged rectangle grown by [k] pixels on every side. *)
Definition grown_rect (k : Z) (sx sy dx dy : Z) : Rect :=
  (Z.min dx sx - k, Z.min dy sy - k,
   Z.max dx sx - Z.min dx sx + 2 * k, Z.max dy sy - Z.min dy sy + 2 * k).

(** The four border rectangles, in plain arithmetic. *)
Definition left_border (sx sy dx dy : Z) : Rect :=
  (Z.min dx sx - 2, Z.min dy sy, 2,
   Z.max (Z.max dy sy - Z.min dy sy) 1).

Definition right_border (sx sy dx dy : Z) : Rect :=
  (Z.max dx sx, Z.min dy sy, 2,
   Z.max (Z.max dy sy - Z.min dy sy) 1).

Definition top_border (sx sy dx dy : Z) : Rect :=
  (Z.min dx sx - 2, Z.min dy sy - 2,
   Z.max dx sx - Z.min dx sx + 4, 2).

Definition bottom_border (sx sy dx dy : Z) : Rect :=
  (Z.min dx sx - 2, Z.max dy sy,
   Z.max dx sx - Z.min dx sx + 4, 2).

(** The graphics contexts of the fills of [calls] that cover the pixel
    [(px, py)] of the window, in call order. *)
Fixpoint fills_at (calls : list XCall) (px py : Z) : list GC :=
  match calls with
  | [] => []
  | XFillRectangle _ g x y wd ht :: l =>
      if in_rect (x, y, wd, ht) px py then g :: fills_at l px py
      else fills_at l px py
  | _ :: l => fills_at l px py
  end.

(** The four border windows of a selector are different windows. *)
Definition distinct_borders (this : RegionSelector) : Prop :=
  NoDup [left_win_ this; right_win_ this; top_win_ this; bottom_win_ this].

(** An event that an idle selection ignores: anything but a button press
    and Escape. *)
Definition idle_noise (env : Env) (event : XEvent) : bool :=
  match event with
  | ButtonPress _ _ => false
  | KeyPress keycode => negb (keycode =? escape_keycode env)
  | ButtonRelease _ _ | Expose _ | MotionNotify _ _ | OtherEvent _ => true
  end.

(** a call that leaves every window where it is *)
Definition keeps_geometry (c : XCall) : bool :=
  match c with
  | XCreateWindow _ _ _ _ _ | XMoveResizeWindow _ _ _ _ _ => false
  | _ => true
  end.

(** what an idle selection may call: it waits, looks up Escape, repaints *)
Definition idle_call (c : XCall) : bool :=
  match c with
  | XNextEvent _ | XKeysymToKeycode_Escape
  | XFillRectangle _ _ _ _ _ _ => true
  | _ => false
  end.

(** motion, a release, a key and an expose event before the drag *)
Definition noisy_env : Env :=
  example_env "" true GrabSuccess keyboard_free
    [MotionNotify 7 7; ButtonRelease 7 7; KeyPress 38; Expose 101;
     ButtonPress 50 50; ButtonRelease 10 10] 24.

Definition is_write_png (c : XCall) : bool :=
  match c with cairo_surface_write_to_png _ => true | _ => false end.

Definition is_XGrabKeyboard (c : XCall) : bool :=
  match c with XGrabKeyboard _ => true | _ => false end.

Definition is_XGrabPointer (c : XCall) : bool :=
  match c with XGrabPointer _ => true | _ => false end.

(** the microseconds slept in [l] *)
Fixpoint sleep_total (l : list XCall) : Z :=
  match l with
  | [] => 0
  | usleep usec :: l' => usec + sleep_total l'
  | _ :: l' => sleep_total l'
  end.

(** a call that neither grabs nor sleeps *)
Definition no_retry_call (c : XCall) : bool :=
  match c with
  | XGrabPointer _ | XGrabKeyboard _ | usleep _ => false
  | _ => true
  end.

(** the window [main] works on, when it finds one: lines 360-367 *)
Definition target_window (env : Env) : option Window :=
  if (FLAGS_window env =? "")%string || FLAGS_region env
  then Some (DefaultRootWindow env)
  else extract_hex env (FLAGS_window env).

Definition resolve_calls (env : Env) : list XCall :=
  if (FLAGS_window env =? "")%string || FLAGS_region env
  then []
  else [IstreamExtractHex (FLAGS_window env)].

(** the world once [XGetGeometry] has measured [win] *)
Definition measured_world (env : Env) (win : Window) (wd ht : Z) : World :=
  {| log := XOpenDisplay :: resolve_calls env ++ [XGetGeometry win];
     next_xid := first_xid env; kbd_calls := 0%nat;
     pending := events env;
     frame := {| val_shot_x := 0; val_shot_y := 0;
                 val_shot_width := wd; val_shot_height := ht |} |}.

(** the selector of [main] and the world in which it starts to select *)
Definition main_selector (env : Env) : RegionSelector :=
  selector_at env (first_xid env).

Definition selecting_world (env : Env) (wd ht : Z) : World :=
  {| log := [XOpenDisplay; XGetGeometry (DefaultRootWindow env)]
            ++ ctor_calls (first_xid env);
     next_xid := first_xid env + 7; kbd_calls := 0%nat;
     pending := events env;
     frame := {| val_shot_x := 0; val_shot_y := 0;
                 val_shot_width := wd; val_shot_height := ht |} |}.

Definition is_XGetImage (c : XCall) : bool :=
  match c with XGetImage _ _ _ _ _ => true | _ => false end.

(** the window [0x2a], given by its id *)
Definition window_env : Env :=
  example_env "0x2a" false GrabSuccess keyboard_free [] 32.

(** Does the window [id] exist after the calls of [l], given that it did
    ([now = true]) or did not exist before them? *)
Fixpoint window_exists (id : Window) (l : list XCall) (now : bool) : bool :=
  match l with
  | [] => now
  | XCreateWindow w _ _ _ _ :: l' => window_exists id l' (now || (w =? id))
  | XDestroyWindow w :: l' => window_exists id l' (now && negb (w =? id))
  | _ :: l' => window_exists id l' now
  end.

(** a call that neither creates nor destroys a window *)
Definition keeps_windows (c : XCall) : bool :=
  match c with
  | XCreateWindow _ _ _ _ _ | XDestroyWindow _ => false
  | _ => true
  end.

Definition not_read (c : XCall) : bool := negb (is_XGetImage c).

(** What the program acquires from the X server and from cairo. *)
Inductive Resource :=
| TheDisplay
| ACursor (c : Cursor)
| AWindow (w : Window)
| AGC (g : GC)
| TheImage
| TheSurface.

(** the call [c] hands out the resource [r] *)
Definition acquires (r : Resource) (c : XCall) : bool :=
  match c, r with
  | XOpenDisplay, TheDisplay => true
  | XCreateFontCursor id, ACursor id' => id =? id'
  | XCreateWindow id _ _ _ _, AWindow id' => id =? id'
  | XCreateGC id _, AGC id' => id =? id'
  | XGetImage _ _ _ _ _, TheImage => true
  | cairo_image_surface_create_for_data _ _ _ _, TheSurface => true
  | _, _ => false
  end.

(** the call [c] gives the resource [r] back *)
Definition frees (r : Resource) (c : XCall) : bool :=
  match c, r with
  | XCloseDisplay, TheDisplay => true
  | XFreeCursor id, ACursor id' => id =? id'
  | XDestroyWindow id, AWindow id' => id =? id'
  | XFreeGC id, AGC id' => id =? id'
  | XDestroyImage, TheImage => true
  | cairo_surface_destroy, TheSurface => true
  | _, _ => false
  end.

(** Is [r] held after the calls of [l], given that it was ([now = true]) or
    was not held before them? *)
Fixpoint held_after (r : Resource) (l : list XCall) (now : bool) : bool :=
  match l with
  | [] => now
  | c :: l' => held_after r l' ((now || acquires r c) && negb (frees r c))
  end.

(** a call that neither hands out nor takes back a resource *)
Definition keeps_resources (c : XCall) : bool :=
  match c with
  | XOpenDisplay | XCreateFontCursor _ | XCreateWindow _ _ _ _ _
  | XCreateGC _ _ | XGetImage _ _ _ _ _
  | cairo_image_surface_create_for_data _ _ _ _
  | XCloseDisplay | XFreeCursor _ | XDestroyWindow _ | XFreeGC _
  | XDestroyImage | cairo_surface_destroy => false
  | _ => true
  end.

(** * Properties *)

(** ** Machine arithmetic *)

Lemma wrap_small (z : Z) : CInt.in_int z -> CInt.wrap z = z.
Proof.
  unfold CInt.in_int, CInt.int_min, CInt.int_max, CInt.wrap. intros H.
  rewrite Z.mod_small; lia.
Qed.

(** The distance of two [int]s fits an [unsigned int], whatever the
    intermediate [int] subtraction wraps to. *)
Lemma unsigned_distance (lo hi : Z) :
  CInt.in_int lo -> CInt.in_int hi -> lo <= hi ->
  CInt.to_unsigned (CInt.sub hi lo) = hi - lo.
Proof.
  unfold CInt.in_int, CInt.int_min, CInt.int_max.
  unfold CInt.to_unsigned, CInt.sub, CInt.wrap. intros Hlo Hhi Hle.
  rewrite Zminus_mod_idemp_l.
  replace (hi - lo + 2 ^ 31 - 2 ^ 31) with (hi - lo) by lia.
  apply Z.mod_small. lia.
Qed.

Lemma max_sub_min_abs (a b : Z) : Z.max a b - Z.min a b = Z.abs (a - b).
Proof. lia. Qed.

(** ** Worlds *)

Lemma set_log_same (w : World) : set_log (log w) w = w.
Proof. destruct w; reflexivity. Qed.

Lemma set_pending_same (w : World) : set_pending (pending w) w = w.
Proof. destruct w; reflexivity. Qed.

Lemma logged_nil (w : World) : logged w [] = w.
Proof. unfold logged. rewrite app_nil_r. apply set_log_same. Qed.

Lemma logged_logged (w : World) (c1 c2 : list XCall) :
  logged (logged w c1) c2 = logged w (c1 ++ c2).
Proof. unfold logged, set_log; cbn. rewrite app_assoc. reflexivity. Qed.

Lemma emits_ret {A : Type} (a : A) : emits (ret a) a [].
Proof. intro w. rewrite logged_nil. reflexivity. Qed.

Lemma emits_call (c : XCall) : emits (call c) tt [c].
Proof. intro w. reflexivity. Qed.

Lemma emits_bind {A B : Type} (m : M A) (k : A -> M B) a b c1 c2 :
  emits m a c1 -> emits (k a) b c2 -> emits (bind m k) b (c1 ++ c2).
Proof.
  intros H1 H2 w. unfold bind. rewrite H1, H2, logged_logged. reflexivity.
Qed.

Lemma emits_eq {A : Type} (m : M A) a c c' :
  emits m a c -> c = c' -> emits m a c'.
Proof. intros H <-. exact H. Qed.

Ltac emit :=
  repeat first
    [ apply emits_call
    | apply emits_ret
    | eapply emits_bind ].

(** ** The calls of the selector *)

Lemma is_border_left this : is_border this (left_win_ this) = true.
Proof. unfold is_border. rewrite Z.eqb_refl, ?orb_true_r. reflexivity. Qed.

Lemma is_border_right this : is_border this (right_win_ this) = true.
Proof. unfold is_border. rewrite Z.eqb_refl, ?orb_true_r. reflexivity. Qed.

Lemma is_border_top this : is_border this (top_win_ this) = true.
Proof. unfold is_border. rewrite Z.eqb_refl, ?orb_true_r. reflexivity. Qed.

Lemma is_border_bottom this : is_border this (bottom_win_ this) = true.
Proof. unfold is_border. rewrite Z.eqb_refl, ?orb_true_r. reflexivity. Qed.

Create Rewrite HintDb border.
#[local] Hint Rewrite is_border_left is_border_right is_border_top
  is_border_bottom : border.

Lemma MoveWindowsOffscreen_emits this :
  emits (MoveWindowsOffscreen this) tt (offscreen_calls this).
Proof.
  eapply emits_eq; [ unfold MoveWindowsOffscreen; emit | reflexivity ].
Qed.

Lemma ConfigureWindows_emits this sx sy dx dy :
  exists calls,
    emits (ConfigureWindows this sx sy dx dy) tt calls
    /\ forallb (loop_call this) calls = true.
Proof.
  eexists. split.
  - unfold ConfigureWindows. emit.
  - cbn. autorewrite with border. reflexivity.
Qed.

Lemma PaintWindow_emits this win sx sy dx dy :
  exists calls,
    emits (PaintWindow this win sx sy dx dy) tt calls
    /\ forallb (loop_call this) calls = true.
Proof.
  unfold PaintWindow.
  destruct (win =? left_win_ this) eqn:El;
    [| destruct (win =? right_win_ this) eqn:Er;
       [| destruct (win =? top_win_ this) eqn:Et;
          [| destruct (win =? bottom_win_ this) eqn:Eb ]]];
    (eexists; split; [ emit | cbn; unfold is_border;
       rewrite ?El, ?Er, ?Et, ?Eb; reflexivity ]).
Qed.

(** ** The selection loop as a state machine *)

Section Loop.

Variable env : Env.
Variable this : RegionSelector.

Lemma handle_event_emits_some event v :
  exists v' calls,
    emits (handle_event env this event v) v' calls
    /\ forallb (loop_call this) calls = true.
Proof.
  destruct event as [x y | x y | win | keycode | x y | ty];
    cbn [handle_event].
  - exists {| done := done v; dragging := true; aborted := aborted v;
              start_x := x; start_y := y;
              end_x := end_x v; end_y := end_y v |}, [].
    split; [ apply emits_ret | reflexivity ].
  - destruct (dragging v); eexists _, []; (split; [ apply emits_ret | reflexivity ]).
  - destruct (PaintWindow_emits this win (start_x v) (start_y v)
                (end_x v) (end_y v)) as (calls & He & Hc).
    exists v, (calls ++ []). split.
    + eapply emits_bind; [ exact He | apply emits_ret ].
    + rewrite app_nil_r. exact Hc.
  - destruct (keycode =? escape_keycode env); [ destruct (dragging v) |].
    + eexists _, _. split.
      * eapply emits_bind; [ apply emits_call |].
        eapply emits_bind;
          [ apply MoveWindowsOffscreen_emits | apply emits_ret ].
      * cbn. autorewrite with border. reflexivity.
    + eexists _, _. split.
      * eapply emits_bind; [ apply emits_call | apply emits_ret ].
      * reflexivity.
    + eexists _, _. split.
      * eapply emits_bind; [ apply emits_call | apply emits_ret ].
      * reflexivity.
  - destruct (dragging v).
    + destruct (ConfigureWindows_emits this (start_x v) (start_y v) x y)
        as (calls & He & Hc).
      eexists _, (calls ++ []). split.
      * eapply emits_bind; [ exact He | apply emits_ret ].
      * rewrite app_nil_r. exact Hc.
    + eexists _, []. split; [ apply emits_ret | reflexivity ].
  - eexists _, []. split; [ apply emits_ret | reflexivity ].
Qed.

(** One event: the handler only makes calls, and leaves [next_vars]. *)
Lemma handle_event_emits event v :
  exists calls,
    emits (handle_event env this event v) (next_vars env this event v) calls
    /\ forallb (loop_call this) calls = true.
Proof.
  destruct (handle_event_emits_some event v) as (v' & calls & He & Hc).
  exists calls. split; [| exact Hc ].
  unfold next_vars. rewrite He. exact He.
Qed.

(** [next_vars], case by case. *)
Lemma next_vars_eq event v :
  next_vars env this event v =
  match event with
  | ButtonPress x y =>
      {| done := done v; dragging := true; aborted := aborted v;
         start_x := x; start_y := y; end_x := end_x v; end_y := end_y v |}
  | ButtonRelease x y =>
      if dragging v then
        {| done := true; dragging := dragging v; aborted := aborted v;
           start_x := start_x v; start_y := start_y v;
           end_x := x; end_y := y |}
      else v
  | KeyPress keycode =>
      if keycode =? escape_keycode env then
        if dragging v then
          {| done := done v; dragging := false; aborted := aborted v;
             start_x := start_x v; start_y := start_y v;
             end_x := end_x v; end_y := end_y v |}
        else
          {| done := done v; dragging := dragging v; aborted := true;
             start_x := start_x v; start_y := start_y v;
             end_x := end_x v; end_y := end_y v |}
      else v
  | MotionNotify x y =>
      if dragging v then
        {| done := done v; dragging := dragging v; aborted := aborted v;
           start_x := start_x v; start_y := start_y v;
           end_x := x; end_y := y |}
      else v
  | Expose _ | OtherEvent _ => v
  end.
Proof.
  unfold next_vars.
  destruct event as [x y | x y | win | keycode | x y | ty];
    cbn [handle_event].
  - reflexivity.
  - destruct (dragging v); reflexivity.
  - destruct (PaintWindow_emits this win (start_x v) (start_y v)
                (end_x v) (end_y v)) as (calls & He & _).
    unfold bind. rewrite He. reflexivity.
  - destruct (keycode =? escape_keycode env); [ destruct (dragging v) |];
      reflexivity.
  - destruct (dragging v); [| reflexivity ].
    destruct (ConfigureWindows_emits this (start_x v) (start_y v) x y)
      as (calls & He & _).
    unfold bind. rewrite He. reflexivity.
  - reflexivity.
Qed.

(** Nothing brings a finished loop back to life. *)
Lemma alive_next event v :
  alive (next_vars env this event v) = true -> alive v = true.
Proof.
  rewrite next_vars_eq. unfold alive.
  destruct event as [x y | x y | win | keycode | x y | ty]; cbn;
    try (destruct (keycode =? escape_keycode env));
    destruct (dragging v), (done v), (aborted v); cbn; congruence.
Qed.

Lemma alive_vars_after evs : forall v,
  alive (vars_after env this evs v) = true -> alive v = true.
Proof.
  induction evs as [| event evs IH]; intros v H; [ exact H |].
  apply (alive_next event). apply IH. exact H.
Qed.

Lemma vars_after_app pre post v :
  vars_after env this (pre ++ post) v =
  vars_after env this post (vars_after env this pre v).
Proof. unfold vars_after. apply fold_left_app. Qed.

(** One turn of a loop that runs on, for a handler whose calls are
    known. *)
Lemma event_loop_step_emits event queue v v' calls w :
  alive v = true ->
  emits (handle_event env this event v) v' calls ->
  event_loop env (event :: queue) this v w =
  event_loop env queue this v'
    (logged (set_pending queue w) (XNextEvent event :: calls)).
Proof.
  intros Hv He.
  cbn [event_loop]. unfold alive in Hv. rewrite Hv.
  unfold bind at 1. unfold bind at 1. cbn [call].
  unfold bind. rewrite He.
  fold (logged (set_pending queue w) [XNextEvent event]).
  rewrite logged_logged. reflexivity.
Qed.

(** One turn of a loop that runs on. *)
Lemma event_loop_step event queue v w :
  alive v = true ->
  exists calls,
    forallb (loop_call this) calls = true
    /\ event_loop env (event :: queue) this v w =
       event_loop env queue this (next_vars env this event v)
         (logged (set_pending queue w) (XNextEvent event :: calls)).
Proof.
  intros Hv.
  destruct (handle_event_emits event v) as (calls & He & Hc).
  exists calls. split; [ exact Hc |].
  apply event_loop_step_emits; assumption.
Qed.

(** A prefix of events that does not end the loop is consumed. *)
Lemma event_loop_prefix pre : forall queue v w,
  alive (vars_after env this pre v) = true ->
  pending w = pre ++ queue ->
  exists calls,
    forallb (loop_call this) calls = true
    /\ event_loop env (pre ++ queue) this v w =
       event_loop env queue this (vars_after env this pre v)
         (logged (set_pending queue w) calls).
Proof.
  induction pre as [| event pre IH]; intros queue v w Hv Hp.
  - exists []. split; [ reflexivity |].
    cbn in Hp |- *. rewrite <- Hp, set_pending_same, logged_nil.
    reflexivity.
  - cbn [vars_after fold_left] in Hv. fold (vars_after env this pre) in Hv.
    assert (Hv0 : alive v = true).
    { apply (alive_next event), (alive_vars_after pre). exact Hv. }
    destruct (event_loop_step event (pre ++ queue) v w Hv0)
      as (c1 & Hc1 & E1).
    destruct (IH queue (next_vars env this event v)
                (logged (set_pending (pre ++ queue) w)
                   (XNextEvent event :: c1)) Hv eq_refl)
      as (c2 & Hc2 & E2).
    exists ((XNextEvent event :: c1) ++ c2). split.
    + rewrite forallb_app. cbn. rewrite Hc1, Hc2. reflexivity.
    + cbn [app]. rewrite E1, E2. f_equal.
      unfold logged, set_log, set_pending; cbn. rewrite <- app_assoc.
      reflexivity.
Qed.

(** However the loop ends, it has only made loop calls. *)
Lemma event_loop_result queue : forall v w,
  exists calls rest,
    forallb (loop_call this) calls = true
    /\ (event_loop env queue this v w =
          (Stop Blocked, logged (set_pending rest w) calls)
        \/ exists v',
             alive v' = false
             /\ event_loop env queue this v w =
                (Ret v', logged (set_pending rest w) calls)).
Proof.
  induction queue as [| event queue IH]; intros v w.
  - exists [], (pending w). split; [ reflexivity |].
    rewrite set_pending_same, logged_nil.
    cbn [event_loop]. fold (alive v).
    destruct (alive v) eqn:Hv.
    + left. reflexivity.
    + right. exists v. split; [ exact Hv | reflexivity ].
  - destruct (alive v) eqn:Hv.
    + destruct (event_loop_step event queue v w Hv) as (c1 & Hc1 & E1).
      destruct (IH (next_vars env this event v)
                  (logged (set_pending queue w) (XNextEvent event :: c1)))
        as (c2 & rest & Hc2 & E2).
      exists ((XNextEvent event :: c1) ++ c2), rest. split.
      * rewrite forallb_app. cbn. rewrite Hc1, Hc2. reflexivity.
      * assert (Ew : logged
                  (set_pending rest
                     (logged (set_pending queue w)
                        (XNextEvent event :: c1))) c2 =
                logged (set_pending rest w)
                  ((XNextEvent event :: c1) ++ c2)).
        { unfold logged, set_log, set_pending; cbn.
          rewrite <- app_assoc. reflexivity. }
        rewrite E1. rewrite Ew in E2. exact E2.
    + exists [], (pending w). split; [ reflexivity |].
      rewrite set_pending_same, logged_nil. right.
      exists v. split; [ exact Hv |].
      cbn [event_loop]. fold (alive v). rewrite Hv. reflexivity.
Qed.

Lemma event_loop_finished queue v w :
  alive v = false -> event_loop env queue this v w = (Ret v, w).
Proof.
  intros Hv. unfold alive in Hv.
  destruct queue; cbn [event_loop]; rewrite Hv; reflexivity.
Qed.

End Loop.

(** ** The keyboard-grab retry loop *)

Lemma world_eq (w1 w2 : World) :
  log w1 = log w2 -> next_xid w1 = next_xid w2 ->
  kbd_calls w1 = kbd_calls w2 -> pending w1 = pending w2 ->
  frame w1 = frame w2 -> w1 = w2.
Proof. destruct w1, w2; cbn; intros; subst; reflexivity. Qed.

Lemma attempted_0 (w : World) : attempted w 0 [] = w.
Proof.
  apply world_eq; cbn; try reflexivity.
  - apply app_nil_r.
  - apply Nat.add_0_r.
Qed.

Lemma attempted_attempted w n1 c1 n2 c2 :
  attempted (attempted w n1 c1) n2 c2 = attempted w (n1 + n2) (c1 ++ c2).
Proof.
  apply world_eq; cbn; try reflexivity.
  - symmetry. apply app_assoc.
  - symmetry. apply Nat.add_assoc.
Qed.

Lemma logged_attempted w n c1 c2 :
  logged (attempted w n c1) c2 = attempted w n (c1 ++ c2).
Proof. apply world_eq; cbn; try reflexivity. symmetry. apply app_assoc. Qed.

Lemma kbd_calls_attempted w n c :
  kbd_calls (attempted w n c) = (kbd_calls w + n)%nat.
Proof. reflexivity. Qed.

Lemma failed_attempts_S env first n :
  failed_attempts env first (S n) =
  failed_attempts env first 1 ++ failed_attempts env (first + 1) n.
Proof.
  unfold failed_attempts. cbn [seq flat_map]. rewrite app_nil_r.
  replace (first + 1)%nat with (S first) by lia. reflexivity.
Qed.

Section KeyboardRetry.

Variable env : Env.
Variable this : RegionSelector.

Lemma GrabKeyboard_eq w :
  GrabKeyboard env this w =
  (Ret (keyboard_grab env (kbd_calls w) =? GrabSuccess),
   attempted w 1 [XGrabKeyboard (keyboard_grab env (kbd_calls w))]).
Proof.
  unfold GrabKeyboard, bind, call, ret. f_equal.
  apply world_eq; cbn; try reflexivity. lia.
Qed.

(** A turn of the retry loop whose attempt succeeds. *)
Lemma grab_keyboard_retry_now fuel k w :
  keyboard_grab env (kbd_calls w) = GrabSuccess ->
  grab_keyboard_retry env (S fuel) this k w =
  (Ret true, attempted w 1 [XGrabKeyboard GrabSuccess]).
Proof.
  intros Hok. cbn [grab_keyboard_retry]. unfold bind.
  rewrite GrabKeyboard_eq, Hok. reflexivity.
Qed.

(** A turn whose attempt fails with attempts left. *)
Lemma grab_keyboard_retry_again fuel k w :
  keyboard_grab env (kbd_calls w) <> GrabSuccess ->
  0 <= k -> k + 1 < kMaxKeyboardGrabAttempts ->
  grab_keyboard_retry env (S fuel) this k w =
  grab_keyboard_retry env fuel this (k + 1)
    (attempted w 1 (failed_attempts env (kbd_calls w) 1)).
Proof.
  unfold kMaxKeyboardGrabAttempts. intros Hf Hk Hlt.
  cbn [grab_keyboard_retry]. unfold bind at 1. rewrite GrabKeyboard_eq.
  apply Z.eqb_neq in Hf. rewrite Hf.
  unfold CInt.add. rewrite wrap_small
    by (unfold CInt.in_int, CInt.int_min, CInt.int_max; lia).
  unfold kMaxKeyboardGrabAttempts.
  destruct (k + 1 >=? 10) eqn:E; [ lia |].
  unfold bind, call. f_equal.
  apply world_eq; cbn; try reflexivity.
  rewrite <- app_assoc. reflexivity.
Qed.

(** A turn whose attempt fails and was the last one. *)
Lemma grab_keyboard_retry_last fuel k w :
  keyboard_grab env (kbd_calls w) <> GrabSuccess ->
  0 <= k -> k + 1 = kMaxKeyboardGrabAttempts ->
  grab_keyboard_retry env (S fuel) this k w =
  (Ret false,
   attempted w 1
     [XGrabKeyboard (keyboard_grab env (kbd_calls w)); XUngrabPointer]).
Proof.
  unfold kMaxKeyboardGrabAttempts. intros Hf Hk Hlt.
  cbn [grab_keyboard_retry]. unfold bind at 1. rewrite GrabKeyboard_eq.
  apply Z.eqb_neq in Hf. rewrite Hf.
  unfold CInt.add. rewrite wrap_small
    by (unfold CInt.in_int, CInt.int_min, CInt.int_max; lia).
  unfold kMaxKeyboardGrabAttempts.
  destruct (k + 1 >=? 10) eqn:E; [| lia ].
  unfold bind, call, ret. f_equal.
  apply world_eq; cbn; try reflexivity.
  rewrite <- app_assoc. reflexivity.
Qed.

(** After [n] failures the next attempt succeeds: the loop is left with
    the keyboard grabbed. *)
Lemma grab_keyboard_retry_success n : forall fuel k w,
  (n < fuel)%nat -> 0 <= k ->
  k + Z.of_nat n < kMaxKeyboardGrabAttempts ->
  (forall i, (i < n)%nat ->
             keyboard_grab env (kbd_calls w + i) <> GrabSuccess) ->
  keyboard_grab env (kbd_calls w + n) = GrabSuccess ->
  grab_keyboard_retry env fuel this k w =
  (Ret true,
   attempted w (n + 1)
     (failed_attempts env (kbd_calls w) n ++ [XGrabKeyboard GrabSuccess])).
Proof.
  induction n as [| n IH]; intros fuel k w Hfuel Hk Hlt Hfail Hok;
    (destruct fuel as [| fuel]; [ lia |]).
  - rewrite Nat.add_0_r in Hok.
    rewrite grab_keyboard_retry_now by exact Hok. reflexivity.
  - rewrite grab_keyboard_retry_again; try lia.
    2:{ specialize (Hfail 0%nat). rewrite Nat.add_0_r in Hfail.
        apply Hfail. lia. }
    rewrite (IH fuel (k + 1)); try lia.
    + rewrite attempted_attempted, kbd_calls_attempted,
        (failed_attempts_S env (kbd_calls w) n).
      replace (1 + (n + 1))%nat with (S n + 1)%nat by lia.
      rewrite app_assoc. reflexivity.
    + intros i Hi. rewrite kbd_calls_attempted.
      replace (kbd_calls w + 1 + i)%nat with (kbd_calls w + S i)%nat
        by lia.
      apply Hfail. lia.
    + rewrite kbd_calls_attempted.
      replace (kbd_calls w + 1 + n)%nat with (kbd_calls w + S n)%nat
        by lia.
      exact Hok.
Qed.

(** [n + 1] failures exhaust a budget that has [n + 1] attempts left: the
    pointer is released and the loop gives up. *)
Lemma grab_keyboard_retry_exhausted n : forall fuel k w,
  (n < fuel)%nat -> 0 <= k ->
  k + Z.of_nat n + 1 = kMaxKeyboardGrabAttempts ->
  (forall i, (i <= n)%nat ->
             keyboard_grab env (kbd_calls w + i) <> GrabSuccess) ->
  grab_keyboard_retry env fuel this k w =
  (Ret false,
   attempted w (n + 1)
     (failed_attempts env (kbd_calls w) n
      ++ [XGrabKeyboard (keyboard_grab env (kbd_calls w + n));
          XUngrabPointer])).
Proof.
  induction n as [| n IH]; intros fuel k w Hfuel Hk Hlt Hfail;
    (destruct fuel as [| fuel]; [ lia |]).
  - specialize (Hfail 0%nat (Nat.le_refl _)).
    rewrite Nat.add_0_r in Hfail |- *.
    rewrite grab_keyboard_retry_last by (try exact Hfail; lia).
    reflexivity.
  - rewrite grab_keyboard_retry_again; try lia.
    2:{ specialize (Hfail 0%nat). rewrite Nat.add_0_r in Hfail.
        apply Hfail. lia. }
    rewrite (IH fuel (k + 1)); try lia.
    + rewrite attempted_attempted, kbd_calls_attempted,
        (failed_attempts_S env (kbd_calls w) n).
      replace (kbd_calls w + 1 + n)%nat with (kbd_calls w + S n)%nat
        by lia.
      replace (1 + (n + 1))%nat with (S n + 1)%nat by lia.
      rewrite app_assoc. reflexivity.
    + intros i Hi. rewrite kbd_calls_attempted.
      replace (kbd_calls w + 1 + i)%nat with (kbd_calls w + S i)%nat
        by lia.
      apply Hfail. lia.
Qed.

(** The three ways the retry loop can end, for any answers of the server.
    Running out of fuel takes a budget that the fuel does not cover. *)
Lemma grab_keyboard_retry_cases fuel : forall k w,
  0 <= k < kMaxKeyboardGrabAttempts ->
  exists n K,
    forallb kbd_failure_call K = true
    /\ (grab_keyboard_retry env fuel this k w =
          (Ret true, attempted w n (K ++ [XGrabKeyboard GrabSuccess]))
        \/ grab_keyboard_retry env fuel this k w =
             (Ret false, attempted w n (K ++ [XUngrabPointer]))
        \/ (grab_keyboard_retry env fuel this k w =
              (Stop OutOfFuel, attempted w n K)
            /\ Z.of_nat fuel + k < kMaxKeyboardGrabAttempts)).
Proof.
  induction fuel as [| fuel IH]; intros k w Hk.
  - exists 0%nat, []. split; [ reflexivity |].
    right; right. rewrite attempted_0. split; [ reflexivity | lia ].
  - destruct (Z.eq_dec (keyboard_grab env (kbd_calls w)) GrabSuccess)
      as [Hok | Hfail].
    + exists 1%nat, []. split; [ reflexivity |]. left.
      apply grab_keyboard_retry_now. exact Hok.
    + assert (Hcall : forallb kbd_failure_call
                        [XGrabKeyboard (keyboard_grab env (kbd_calls w))]
                      = true).
      { cbn. apply Z.eqb_neq in Hfail. rewrite Hfail. reflexivity. }
      destruct (Z.eq_dec (k + 1) kMaxKeyboardGrabAttempts)
        as [Hlast | Hmore].
      * exists 1%nat, [XGrabKeyboard (keyboard_grab env (kbd_calls w))].
        split; [ exact Hcall |]. right; left.
        apply grab_keyboard_retry_last; [ exact Hfail | lia | exact Hlast ].
      * destruct (IH (k + 1)
                    (attempted w 1 (failed_attempts env (kbd_calls w) 1)))
          as (n & K & HK & Hcases); [ lia |].
        exists (1 + n)%nat, (failed_attempts env (kbd_calls w) 1 ++ K).
        split.
        { rewrite forallb_app, HK. cbn.
          apply Z.eqb_neq in Hfail. rewrite Hfail. reflexivity. }
        rewrite grab_keyboard_retry_again by (try exact Hfail; lia).
        rewrite !attempted_attempted, !app_assoc in Hcases.
        destruct Hcases as [H | [H | [H Hf]]].
        -- left. exact H.
        -- right; left. exact H.
        -- right; right. split; [ exact H |].
           rewrite Nat2Z.inj_succ. lia.
Qed.

(** With [n + 1] attempts left, any fuel above [n] gives the same run,
    and it does not run out. *)
Lemma grab_keyboard_retry_enough n : forall f1 f2 k w,
  0 <= k -> k + Z.of_nat n + 1 = kMaxKeyboardGrabAttempts ->
  (n < f1)%nat -> (n < f2)%nat ->
  grab_keyboard_retry env f1 this k w = grab_keyboard_retry env f2 this k w
  /\ fst (grab_keyboard_retry env f1 this k w) <> Stop OutOfFuel.
Proof.
  induction n as [| n IH]; intros f1 f2 k w Hk Hn H1 H2;
    (destruct f1 as [| f1]; [ lia |]); (destruct f2 as [| f2]; [ lia |]);
    (destruct (Z.eq_dec (keyboard_grab env (kbd_calls w)) GrabSuccess)
       as [Hok | Hfail];
     [ rewrite !grab_keyboard_retry_now by exact Hok;
       split; [ reflexivity | discriminate ] |]).
  - rewrite !grab_keyboard_retry_last by (try exact Hfail; lia).
    split; [ reflexivity | discriminate ].
  - rewrite !grab_keyboard_retry_again by (try exact Hfail; lia).
    apply IH; lia.
Qed.

(** Ten units of fuel are enough, and more change nothing. *)
Lemma grab_keyboard_retry_fuel fuel w :
  (Z.to_nat kMaxKeyboardGrabAttempts <= fuel)%nat ->
  grab_keyboard_retry env fuel this 0 w =
  grab_keyboard_retry env (Z.to_nat kMaxKeyboardGrabAttempts) this 0 w
  /\ fst (grab_keyboard_retry env fuel this 0 w) <> Stop OutOfFuel.
Proof.
  intros Hfuel. apply (grab_keyboard_retry_enough 9%nat).
  - lia.
  - reflexivity.
  - change (Z.to_nat kMaxKeyboardGrabAttempts) with 10%nat in Hfuel. lia.
  - change (Z.to_nat kMaxKeyboardGrabAttempts) with 10%nat. lia.
Qed.

End KeyboardRetry.

(** ** The parts of [SelectRegion] *)

Section SelectRegionParts.

Variable env : Env.
Variable this : RegionSelector.

Lemma SelectRegion_eq x y width height :
  SelectRegion env this x y width height =
  (grabbed <- GrabPointer env this ;;
   if negb grabbed then ret false
   else
     grabbed <- grab_keyboard_retry env
                  (Z.to_nat kMaxKeyboardGrabAttempts) this 0 ;;
     if negb grabbed then ret false
     else selection env this x y width height).
Proof. reflexivity. Qed.

(** an aborted selection returns [false] and stores nothing *)
Lemma after_loop_aborted x y width height v w :
  aborted v = true ->
  after_loop this x y width height v w = (Ret false, logged w (leave_calls this)).
Proof.
  intros Ha. unfold after_loop. rewrite Ha.
  revert w. change (emits ?m false (leave_calls this)) with
    (forall w, m w = (Ret false, logged w (leave_calls this))).
  eapply emits_eq; [ emit | reflexivity ].
Qed.

(** a completed drag stores its rectangle in the locals of [main] and
    returns [true] *)
Lemma after_loop_done v w :
  aborted v = false ->
  after_loop this (AddrOf shot_x) (AddrOf shot_y)
    (AddrOf shot_width) (AddrOf shot_height) v w =
  (Ret true, set_frame (stored_rectangle v) (logged w (leave_calls this))).
Proof.
  intros Ha. unfold after_loop. rewrite Ha.
  unfold bind, call, store, load, ret; cbn.
  f_equal. apply world_eq; cbn; try reflexivity.
  rewrite <- !app_assoc. reflexivity.
Qed.

(** whatever the pointers, the grabs are released before the stores *)
Lemma after_loop_any x y width height v w :
  exists o f,
    after_loop this x y width height v w =
    (o, set_frame f (logged w (leave_calls this)))
    /\ (o = Stop Segfault \/ exists b, o = Ret b).
Proof.
  destruct (aborted v) eqn:Ha.
  - exists (Ret false), (frame w). split.
    + rewrite after_loop_aborted by exact Ha. reflexivity.
    + right. exists false. reflexivity.
  - unfold after_loop. rewrite Ha.
    destruct x as [| lx], y as [| ly], width as [| lw], height as [| lh];
      unfold bind, call, store, load, ret, stop; cbn;
      eexists _, _;
      (split;
       [ f_equal; apply world_eq; cbn;
         [ rewrite <- !app_assoc; reflexivity | reflexivity ..]
       | first [ left; reflexivity | right; eexists; reflexivity ] ]).
Qed.

End SelectRegionParts.

#[local] Arguments grab_keyboard_retry : simpl never.
#[local] Arguments event_loop : simpl never.

Lemma bind_emits {A B : Type} (m : M A) (k : A -> M B) a calls w :
  emits m a calls -> bind m k w = k a (logged w calls).
Proof. intros H. unfold bind. rewrite H. reflexivity. Qed.

Section SelectRegionRuns.

Variable env : Env.
Variable this : RegionSelector.

Lemma GrabPointer_emits :
  emits (GrabPointer env this) (pointer_grab env =? GrabSuccess)
    [XGrabPointer (pointer_grab env)].
Proof. eapply emits_eq; [ unfold GrabPointer; emit | reflexivity ]. Qed.

(** Events without buttons and without Escape keep the drag going, from
    the same start point. *)
Lemma vars_after_keeps_drag mid : forall v,
  forallb (keeps_drag env) mid = true ->
  dragging v = true ->
  let v' := vars_after env this mid v in
  dragging v' = true /\ done v' = done v /\ aborted v' = aborted v
  /\ start_x v' = start_x v /\ start_y v' = start_y v.
Proof.
  induction mid as [| event mid IH]; intros v Hmid Hd; cbn.
  - repeat split; assumption.
  - cbn in Hmid. apply andb_true_iff in Hmid. destruct Hmid as [He Hmid].
    assert (Hn : dragging (next_vars env this event v) = true
                 /\ done (next_vars env this event v) = done v
                 /\ aborted (next_vars env this event v) = aborted v
                 /\ start_x (next_vars env this event v) = start_x v
                 /\ start_y (next_vars env this event v) = start_y v).
    { rewrite next_vars_eq.
      destruct event as [x y | x y | win | keycode | x y | ty];
        cbn in He; try discriminate; try rewrite Hd; cbn;
        try (apply negb_true_iff in He; rewrite He);
        repeat split; assumption. }
    destruct Hn as (Hd' & Hdone & Hab & Hsx & Hsy).
    destruct (IH (next_vars env this event v) Hmid Hd')
      as (H1 & H2 & H3 & H4 & H5).
    fold (vars_after env this mid (next_vars env this event v)).
    repeat split; congruence.
Qed.

(** With both grabs acquired, [SelectRegion] goes on to the selection. *)
Lemma SelectRegion_acquired x y width height w n :
  grabs_acquired env w n ->
  SelectRegion env this x y width height w =
  selection env this x y width height
    (attempted w (n + 1) (acquire_calls env w n)).
Proof.
  intros (Hp & Hn & Hfail & Hok).
  rewrite SelectRegion_eq.
  rewrite (bind_emits _ _ _ _ _ GrabPointer_emits).
  rewrite Hp. cbn [Z.eqb GrabSuccess negb].
  unfold bind at 1.
  rewrite (grab_keyboard_retry_success env this n)
    by (cbn [kbd_calls logged set_log];
        first [ assumption | unfold kMaxKeyboardGrabAttempts in *; lia ]).
  cbn [negb]. f_equal.
  apply world_eq; cbn; try reflexivity.
  rewrite <- app_assoc. reflexivity.
Qed.

(** The selection consumes a prefix of events that does not end it. *)
Lemma selection_prefix x y width height pre queue w :
  pending w = pre ++ queue ->
  alive (vars_after env this pre initial_vars) = true ->
  exists calls,
    forallb (loop_call this) calls = true
    /\ selection env this x y width height w =
       bind (event_loop env queue this
               (vars_after env this pre initial_vars))
         (after_loop this x y width height)
         (logged (set_pending queue w) (enter_calls this ++ calls)).
Proof.
  intros Hp Hv.
  destruct (event_loop_prefix env this pre queue initial_vars
              (logged w (enter_calls this)) Hv Hp) as (calls & Hc & E).
  exists calls. split; [ exact Hc |].
  unfold selection.
  rewrite (bind_emits _ _ _ _ _ (MoveWindowsOffscreen_emits this)).
  rewrite !(bind_emits _ _ _ _ _ (emits_call _)), !logged_logged.
  unfold bind at 1.
  change (pending (logged w ?c)) with (pending w).
  rewrite Hp.
  change (offscreen_calls this ++ _) with (enter_calls this).
  assert (Ew : logged (set_pending queue (logged w (enter_calls this)))
                 calls =
               logged (set_pending queue w) (enter_calls this ++ calls)).
  { apply world_eq; cbn; try reflexivity.
    rewrite <- !app_assoc. reflexivity. }
  rewrite E, Ew. reflexivity.
Qed.

End SelectRegionRuns.

(** ** Completed drags and aborted selections *)

Section Drags.

Variable env : Env.
Variable this : RegionSelector.

(** A press, then events that keep the drag, then a release: the loop
    state before the release. *)
Lemma vars_after_press pre sx sy mid :
  alive (vars_after env this pre initial_vars) = true ->
  forallb (keeps_drag env) mid = true ->
  let v := vars_after env this (pre ++ ButtonPress sx sy :: mid)
             initial_vars in
  alive v = true /\ dragging v = true
  /\ start_x v = sx /\ start_y v = sy.
Proof.
  intros Hpre Hmid. cbn zeta. rewrite vars_after_app.
  set (v0 := vars_after env this pre initial_vars) in *.
  change (vars_after env this (ButtonPress sx sy :: mid) v0)
    with (vars_after env this mid
            (next_vars env this (ButtonPress sx sy) v0)).
  rewrite next_vars_eq.
  match goal with |- context [vars_after env this mid ?v] =>
    destruct (vars_after_keeps_drag env this mid v Hmid eq_refl)
      as (Hd & Hdone & Hab & Hsx & Hsy)
  end.
  cbn in Hdone, Hab, Hsx, Hsy.
  unfold alive in Hpre |- *. rewrite Hdone, Hab.
  repeat split; assumption.
Qed.

(** A completed drag: [SelectRegion] stores the rectangle of the last
    press and the release, and returns [true]. *)
Lemma SelectRegion_drag w n pre sx sy mid ex ey rest :
  grabs_acquired env w n ->
  pending w = pre ++ ButtonPress sx sy :: mid ++ ButtonRelease ex ey :: rest ->
  alive (vars_after env this pre initial_vars) = true ->
  forallb (keeps_drag env) mid = true ->
  exists w',
    SelectRegion env this (AddrOf shot_x) (AddrOf shot_y)
      (AddrOf shot_width) (AddrOf shot_height) w = (Ret true, w')
    /\ frame w' = drag_rectangle sx sy ex ey
    /\ pending w' = rest.
Proof.
  intros Hg Hp Hpre Hmid.
  destruct (vars_after_press pre sx sy mid Hpre Hmid)
    as (Hv & Hd & Hsx & Hsy).
  set (v := vars_after env this (pre ++ ButtonPress sx sy :: mid)
              initial_vars) in *.
  rewrite (SelectRegion_acquired env this _ _ _ _ w n Hg).
  set (w1 := attempted w (n + 1) (acquire_calls env w n)).
  assert (Hp1 : pending w1 =
                (pre ++ ButtonPress sx sy :: mid)
                ++ ButtonRelease ex ey :: rest).
  { change (pending w1) with (pending w). rewrite Hp, <- app_assoc.
    reflexivity. }
  destruct (selection_prefix env this (AddrOf shot_x) (AddrOf shot_y)
              (AddrOf shot_width) (AddrOf shot_height) _ _ w1 Hp1 Hv)
    as (c1 & _ & E1).
  fold v in E1. rewrite E1. clear E1.
  set (w2 := logged _ _).
  destruct (event_loop_step env this (ButtonRelease ex ey) rest v w2 Hv)
    as (c2 & _ & E2).
  unfold bind. rewrite E2. clear E2.
  rewrite next_vars_eq, Hd.
  rewrite event_loop_finished by (unfold alive; reflexivity).
  rewrite after_loop_done by (unfold alive in Hv; cbn;
    destruct (aborted v); [ rewrite andb_false_r in Hv; discriminate
                          | reflexivity ]).
  eexists. split; [ reflexivity |]. split.
  - cbn. unfold drag_rectangle, stored_rectangle; cbn.
    rewrite Hsx, Hsy. reflexivity.
  - reflexivity.
Qed.

(** Escape with no drag in progress: [SelectRegion] returns [false] and
    stores nothing. *)
Lemma SelectRegion_escape_idle x y width height w n pre rest :
  grabs_acquired env w n ->
  pending w = pre ++ KeyPress (escape_keycode env) :: rest ->
  alive (vars_after env this pre initial_vars) = true ->
  dragging (vars_after env this pre initial_vars) = false ->
  exists w',
    SelectRegion env this x y width height w = (Ret false, w')
    /\ frame w' = frame w
    /\ pending w' = rest.
Proof.
  intros Hg Hp Hv Hd.
  set (v := vars_after env this pre initial_vars) in *.
  rewrite (SelectRegion_acquired env this _ _ _ _ w n Hg).
  set (w1 := attempted w (n + 1) (acquire_calls env w n)).
  assert (Hp1 : pending w1 = pre ++ KeyPress (escape_keycode env) :: rest)
    by exact Hp.
  destruct (selection_prefix env this x y width height _ _ w1 Hp1 Hv)
    as (c1 & _ & E1).
  fold v in E1. rewrite E1. clear E1.
  set (w2 := logged _ _).
  destruct (event_loop_step env this (KeyPress (escape_keycode env))
              rest v w2 Hv) as (c2 & _ & E2).
  unfold bind. rewrite E2. clear E2.
  rewrite next_vars_eq, Z.eqb_refl, Hd.
  rewrite event_loop_finished
    by (unfold alive; cbn; apply andb_false_r).
  rewrite after_loop_aborted by reflexivity.
  eexists. split; [ reflexivity |]. split; reflexivity.
Qed.

End Drags.

(** ** The exit paths of [SelectRegion] *)

Lemma SelectRegion_runs env this x y width height w :
  exists o calls n rest f,
    SelectRegion env this x y width height w =
    (o, {| log := log w ++ calls; next_xid := next_xid w;
           kbd_calls := kbd_calls w + n; pending := rest; frame := f |})
    /\ selection_run env this o calls.
Proof.
  rewrite SelectRegion_eq.
  rewrite (bind_emits _ _ _ _ _ (GrabPointer_emits env this)).
  destruct (Z.eq_dec (pointer_grab env) GrabSuccess) as [Hp | Hp].
  2:{ apply Z.eqb_neq in Hp. rewrite Hp. cbn [negb].
      exists (Ret false), [XGrabPointer (pointer_grab env)], 0%nat,
        (pending w), (frame w).
      split.
      - unfold ret. f_equal. apply world_eq; cbn; try reflexivity. lia.
      - apply run_pointer_busy. apply Z.eqb_neq. exact Hp. }
  rewrite Hp. cbn [Z.eqb GrabSuccess negb].
  set (w1 := logged w [XGrabPointer GrabSuccess]).
  destruct (grab_keyboard_retry_cases env this
              (Z.to_nat kMaxKeyboardGrabAttempts) 0 w1)
    as (n & K & HK & [E | [E | [E Hf]]]);
    [ unfold kMaxKeyboardGrabAttempts; lia | | | ].
  - (* the keyboard is grabbed *)
    unfold bind at 1. rewrite E. cbn [negb].
    set (w2 := attempted w1 n (K ++ [XGrabKeyboard GrabSuccess])).
    unfold selection.
    rewrite (bind_emits _ _ _ _ _ (MoveWindowsOffscreen_emits this)).
    rewrite !(bind_emits _ _ _ _ _ (emits_call _)), !logged_logged.
    change (offscreen_calls this ++ _) with (enter_calls this).
    set (w3 := logged w2 (enter_calls this)).
    unfold bind at 1.
    destruct (event_loop_result env this (pending w3) initial_vars w3)
      as (L & rest & HL & [E' | (v' & _ & E')]); rewrite E'.
    + exists (Stop Blocked),
        (XGrabPointer GrabSuccess
         :: K ++ XGrabKeyboard GrabSuccess :: enter_calls this ++ L),
        n, rest, (frame w).
      split.
      * f_equal. apply world_eq; cbn; try reflexivity.
        rewrite <- !app_assoc. reflexivity.
      * apply run_blocked; assumption.
    + destruct (after_loop_any this x y width height v'
                  (logged (set_pending rest w3) L))
        as (o & f & E'' & Ho).
      rewrite E''.
      exists o,
        (XGrabPointer GrabSuccess
         :: K ++ XGrabKeyboard GrabSuccess
         :: enter_calls this ++ L ++ leave_calls this),
        n, rest, f.
      split.
      * f_equal. apply world_eq; cbn; try reflexivity.
        rewrite <- !app_assoc. reflexivity.
      * apply run_finished; assumption.
  - (* the keyboard grab is given up *)
    unfold bind at 1. rewrite E. cbn [negb].
    exists (Ret false), (XGrabPointer GrabSuccess :: K ++ [XUngrabPointer]),
      n, (pending w), (frame w).
    split.
    + unfold ret. f_equal. apply world_eq; cbn; try reflexivity.
      rewrite <- !app_assoc. reflexivity.
    + apply run_keyboard_busy; assumption.
  - (* the fuel covers the whole budget *)
    unfold kMaxKeyboardGrabAttempts in Hf. cbn in Hf. lia.
Qed.

Lemma forallb_impl {A : Type} (p q : A -> bool) (l : list A) :
  (forall a, p a = true -> q a = true) ->
  forallb p l = true -> forallb q l = true.
Proof.
  intros Hpq. induction l as [| a l IH]; cbn; [ reflexivity |].
  intros H. apply andb_true_iff in H. destruct H as [Ha Hl].
  rewrite (Hpq a Ha), (IH Hl). reflexivity.
Qed.

Lemma kbd_failure_selection this c :
  kbd_failure_call c = true -> selection_call this c = true.
Proof. destruct c; cbn; congruence. Qed.

Lemma loop_selection this c :
  loop_call this c = true -> selection_call this c = true.
Proof. destruct c; cbn; congruence. Qed.

Lemma enter_calls_selection this :
  forallb (selection_call this) (enter_calls this) = true.
Proof. cbn. autorewrite with border. reflexivity. Qed.

Lemma leave_calls_selection this :
  forallb (selection_call this) (leave_calls this) = true.
Proof. cbn. autorewrite with border. reflexivity. Qed.

(** On every path [SelectRegion] makes selector calls only. *)
Lemma selection_run_calls env this o calls :
  selection_run env this o calls ->
  forallb (selection_call this) calls = true.
Proof.
  intros H.
  destruct H as [Hp | K Hp HK | K L Hp HK HL | K L o Hp HK HL Ho];
    cbn [forallb selection_call andb];
    rewrite ?forallb_app; cbn [forallb selection_call andb];
    rewrite ?forallb_app;
    rewrite ?(forallb_impl _ _ K (kbd_failure_selection this) HK),
            ?(forallb_impl _ _ L (loop_selection this) HL),
            ?enter_calls_selection, ?leave_calls_selection;
    reflexivity.
Qed.

(** ** The parts of [main] *)

#[local] Arguments SelectRegion : simpl never.

Lemma bind_assoc {A B C : Type} (m : M A) (f : A -> M B) (g : B -> M C) w :
  bind (bind m f) g w = bind m (fun a => bind (f a) g) w.
Proof. unfold bind. destruct (m w) as [[a | t] w']; reflexivity. Qed.

Lemma bind_cong {A B : Type} (m : M A) (k1 k2 : A -> M B) w :
  (forall a w', k1 a w' = k2 a w') -> bind m k1 w = bind m k2 w.
Proof.
  intros H. unfold bind. destruct (m w) as [[a | t] w']; [ apply H |].
  reflexivity.
Qed.

Lemma main_body_eq env w :
  main_body env w = (win <- main_prelude env ;; capture env win) w.
Proof.
  unfold main_body, main_prelude, measure_and_select, select_block.
  destruct (negb (argc env =? 2)); [ reflexivity |].
  do 3 (rewrite bind_assoc; apply bind_cong; intros ? ?).
  do 7 (rewrite bind_assoc; apply bind_cong; intros ? ?).
  reflexivity.
Qed.

(** ** The exit paths of the capture pipeline *)

Lemma capture_runs env win w :
  exists t calls w',
    capture env win w = (Stop t, w')
    /\ log w' = log w ++ calls
    /\ capture_run env win
         (val_shot_x (frame w)) (val_shot_y (frame w))
         (val_shot_width (frame w)) (val_shot_height (frame w))
         (next_xid w) t calls.
Proof.
  destruct w as [l n k p f].
  unfold capture, load, bind at 1 2 3 4;
    cbn [frame_get log next_xid kbd_calls pending frame].
  unfold bind at 1; cbn [call]. unfold set_log.
  cbn [log next_xid kbd_calls pending frame].
  destruct (get_image env win _ _ _ _) as [image |] eqn:Hi.
  2:{ eexists _, _, _. split; [ reflexivity |]. split; [ reflexivity |].
      apply capture_no_image. exact Hi. }
  assert (Hd : ((depth image =? 24) || (depth image =? 32) = false
                /\ depth image <> 24 /\ depth image <> 32)
               \/ ((depth image =? 24) || (depth image =? 32) = true
                   /\ (depth image = 24 \/ depth image = 32))).
  { destruct (depth image =? 24) eqn:E24; [ right | ].
    - split; [ reflexivity |]. left. apply Z.eqb_eq. exact E24.
    - destruct (depth image =? 32) eqn:E32; [ right | left ].
      + split; [ reflexivity |]. right. apply Z.eqb_eq. exact E32.
      + apply Z.eqb_neq in E24, E32. repeat split; assumption. }
  destruct Hd as [(Hb & H24 & H32) | (Hb & Hd)]; rewrite Hb.
  { eexists _, _, _. split; [ reflexivity |]. split; [ reflexivity |].
    eapply capture_bad_depth; eassumption. }
  destruct (surface_created env) eqn:Hs.
  2:{ eexists _, _, _. split; [ reflexivity |]. split.
      - cbn. rewrite <- !app_assoc. reflexivity.
      - eapply capture_no_surface; eassumption. }
  destruct (Z.eq_dec (write_png_status env) CAIRO_STATUS_SUCCESS)
    as [Hw | Hw].
  - rewrite Hw. eexists _, _, _. split; [ reflexivity |]. split.
    + cbn. rewrite <- !app_assoc. reflexivity.
    + eapply capture_saved; eassumption.
  - assert (Hw' := Hw). apply Z.eqb_neq in Hw'. rewrite Hw'.
    eexists _, _, _. split; [ reflexivity |]. split.
    + cbn. rewrite <- !app_assoc. reflexivity.
    + eapply capture_not_written; eassumption.
Qed.

(** ** The calls made before the capture *)

Lemma bind_fresh {B : Type} (k : XID -> M B) w :
  bind fresh k w = k (next_xid w) (set_next_xid (next_xid w + 1) w).
Proof. reflexivity. Qed.

Lemma bind_call {B : Type} (c : XCall) (k : unit -> M B) w :
  bind (call c) k w = k tt (logged w [c]).
Proof. reflexivity. Qed.

Lemma bind_ret {A B : Type} (a : A) (k : A -> M B) w :
  bind (ret a) k w = k a w.
Proof. reflexivity. Qed.

Lemma RegionSelector_ctor_eq env w :
  RegionSelector_ctor env w =
  (Ret (selector_at env (next_xid w)),
   set_next_xid (next_xid w + 7) (logged w (ctor_calls (next_xid w)))).
Proof.
  destruct w as [l n k p f].
  unfold RegionSelector_ctor, CreateWindow.
  repeat (first [ rewrite bind_assoc | rewrite bind_fresh
                | rewrite bind_call | rewrite bind_ret ];
          unfold logged, set_log, set_next_xid;
          cbn [log next_xid kbd_calls pending frame]).
  unfold ret, selector_at, ctor_calls, logged, set_log, set_next_xid.
  cbn [log next_xid kbd_calls pending frame].
  rewrite <- !Z.add_assoc, <- !app_assoc; cbn.
  reflexivity.
Qed.

Lemma RegionSelector_dtor_emits this :
  emits (RegionSelector_dtor this) tt (dtor_calls this).
Proof. eapply emits_eq; [ unfold RegionSelector_dtor; emit | reflexivity ]. Qed.

Lemma selection_lifetime env n c :
  selection_call (selector_at env n) c = true ->
  selector_lifetime_call (n + 7) c = true.
Proof.
  assert (Hb : forall w, is_border (selector_at env n) w = true ->
                         (w <? n + 7) = true).
  { intros w. unfold is_border, selector_at; cbn. intros H.
    apply Z.ltb_lt.
    repeat (apply orb_true_iff in H; destruct H as [H | H]);
      apply Z.eqb_eq in H; lia. }
  destruct c; cbn; try congruence; try apply Hb.
Qed.

Lemma lifetime_prelude env bound c :
  selector_lifetime_call bound c = true -> prelude_call env bound c = true.
Proof. destruct c; cbn; congruence. Qed.

Lemma select_block_runs env w :
  exists o w' calls,
    select_block env w = (o, w')
    /\ log w' = log w ++ calls
    /\ next_xid w' = next_xid w + 7
    /\ forallb (selector_lifetime_call (next_xid w + 7)) calls = true
    /\ (o = Ret tt \/ o = Stop (Exit 1) \/ o = Stop Blocked
        \/ o = Stop Segfault).
Proof.
  unfold select_block. unfold bind at 1. rewrite RegionSelector_ctor_eq.
  set (this := selector_at env (next_xid w)).
  set (w1 := set_next_xid _ _).
  destruct (SelectRegion_runs env this (AddrOf shot_x) (AddrOf shot_y)
              (AddrOf shot_width) (AddrOf shot_height) w1)
    as (o & calls & n & rest & f & E & Hrun).
  assert (Hcalls := selection_run_calls env this o calls Hrun).
  assert (Hlife : forallb (selector_lifetime_call (next_xid w + 7)) calls
                  = true).
  { revert Hcalls. apply forallb_impl. apply selection_lifetime. }
  assert (Hctor : forallb (selector_lifetime_call (next_xid w + 7))
                    (ctor_calls (next_xid w)) = true).
  { cbn. repeat (rewrite (proj2 (Z.ltb_lt _ _)) by lia). reflexivity. }
  assert (Hdtor : forallb (selector_lifetime_call (next_xid w + 7))
                    (dtor_calls this) = true) by reflexivity.
  assert (Hlog : forall l, (log w1 ++ calls) ++ l =
                           log w ++ ctor_calls (next_xid w) ++ calls ++ l).
  { intros l. subst w1. cbn [log set_next_xid logged set_log].
    rewrite <- !app_assoc. reflexivity. }
  unfold bind at 1. rewrite E.
  assert (Ho : (o = Stop Blocked \/ o = Stop Segfault) \/ exists b, o = Ret b).
  { destruct Hrun as [| | | ? ? ? ? ? ? [Hs | Hb]]; eauto. }
  destruct Ho as [[Ho | Ho] | (b & Ho)]; subst o.
  - eexists _, _, (ctor_calls (next_xid w) ++ calls ++ []).
    split; [ reflexivity |]. split; [| split; [ reflexivity | split ]].
    + cbn [log]. rewrite <- Hlog, app_nil_r. reflexivity.
    + rewrite !forallb_app, Hctor, Hlife. reflexivity.
    + auto.
  - eexists _, _, (ctor_calls (next_xid w) ++ calls ++ []).
    split; [ reflexivity |]. split; [| split; [ reflexivity | split ]].
    + cbn [log]. rewrite <- Hlog, app_nil_r. reflexivity.
    + rewrite !forallb_app, Hctor, Hlife. reflexivity.
    + auto.
  - rewrite (bind_emits _ _ _ _ _ (RegionSelector_dtor_emits this)).
    destruct b; cbn [negb];
      eexists _, _, (ctor_calls (next_xid w) ++ calls ++ dtor_calls this);
      (split; [ reflexivity |]);
      (split; [| split; [ reflexivity | split ]]).
    + cbn [log logged set_log]. apply Hlog.
    + rewrite !forallb_app, Hctor, Hlife, Hdtor. reflexivity.
    + auto.
    + cbn [log logged set_log]. apply Hlog.
    + rewrite !forallb_app, Hctor, Hlife, Hdtor. reflexivity.
    + auto.
Qed.

Lemma measure_and_select_runs env win w :
  (FLAGS_region env = true -> win = DefaultRootWindow env) ->
  exists o w1 calls,
    measure_and_select env win w = (o, w1)
    /\ log w1 = log w ++ XGetGeometry win :: calls
    /\ forallb (prelude_call env (next_xid w1)) (XGetGeometry win :: calls)
       = true
    /\ next_xid w <= next_xid w1
    /\ match o with
       | Ret win' => win' = win
       | Stop t => t <> Exit 0 /\ t <> CheckFailed CheckParseWindow
       end.
Proof.
  intros Hroot. unfold measure_and_select.
  unfold bind at 1 2 3 4 5; cbn [store call].
  assert (Hgeo : forall b, prelude_call env b (XGetGeometry win) = true).
  { intros b. cbn. destruct (FLAGS_region env) eqn:Hr; [| reflexivity ].
    rewrite (Hroot eq_refl). apply Z.eqb_refl. }
  destruct (geometry env win) as [[wd ht] |].
  2:{ eexists _, _, []. split; [ reflexivity |].
      split; [ reflexivity |]. split; [| split ].
      - cbn [forallb]. rewrite Hgeo. reflexivity.
      - cbn. lia.
      - split; discriminate. }
  unfold bind at 1 2; cbn [store].
  destruct (FLAGS_region env) eqn:Hr.
  - unfold bind at 1.
    match goal with |- context [select_block env ?w0] =>
      destruct (select_block_runs env w0)
        as (o & w1 & calls & E & Hlog & Hnext & Hcalls & Ho)
    end.
    rewrite E. cbn in Hlog, Hnext, Hcalls.
    destruct Ho as [Ho | [Ho | [Ho | Ho]]]; subst o;
      eexists _, w1, calls;
      (split; [ reflexivity |]);
      (split; [ rewrite Hlog; cbn; rewrite <- app_assoc; reflexivity |]);
      (split; [ cbn [forallb]; rewrite Hgeo, Hnext; cbn [andb];
                revert Hcalls; apply forallb_impl;
                intros c Hc; apply lifetime_prelude; exact Hc |]);
      (split; [ rewrite Hnext; cbn; lia |]);
      first [ reflexivity | split; discriminate ].
  - eexists _, _, []. split; [ reflexivity |].
    split; [ reflexivity |]. split; [| split ].
    + cbn [forallb]. rewrite Hgeo. reflexivity.
    + cbn. lia.
    + reflexivity.
Qed.

Lemma main_prelude_runs env :
  exists o w1,
    main_prelude env (initial_world env) = (o, w1)
    /\ forallb (prelude_call env (next_xid w1)) (log w1) = true
    /\ match o with
       | Ret win =>
           FLAGS_region env = true -> win = DefaultRootWindow env
       | Stop t =>
           t <> Exit 0
           /\ (FLAGS_region env = true -> t <> CheckFailed CheckParseWindow)
       end.
Proof.
  unfold main_prelude.
  destruct (negb (argc env =? 2)).
  { eexists _, _. split; [ reflexivity |]. split; [ reflexivity |].
    split; discriminate. }
  unfold bind at 1; cbn [call].
  destruct (display_opens env).
  2:{ eexists _, _. split; [ reflexivity |]. split; [ reflexivity |].
      split; discriminate. }
  unfold bind at 1; cbn [CHECK ret].
  unfold bind at 1.
  set (w0 := set_log _ _).
  assert (Hwin :
    exists o0 pre,
      (if (FLAGS_window env =? "")%string || FLAGS_region env
       then ret (DefaultRootWindow env)
       else
         call (IstreamExtractHex (FLAGS_window env)) ;;
         match extract_hex env (FLAGS_window env) with
         | Some id => ret id
         | None => stop (CheckFailed CheckParseWindow)
         end) w0 = (o0, logged w0 pre)
      /\ (forall b, forallb (prelude_call env b) (XOpenDisplay :: pre) = true)
      /\ match o0 with
         | Ret win => FLAGS_region env = true -> win = DefaultRootWindow env
         | Stop t => t <> Exit 0 /\ FLAGS_region env = false
         end).
  { destruct (FLAGS_region env) eqn:Hr.
    - rewrite orb_true_r. exists (Ret (DefaultRootWindow env)), [].
      rewrite logged_nil. repeat split.
    - rewrite orb_false_r.
      destruct (FLAGS_window env =? "")%string.
      + exists (Ret (DefaultRootWindow env)), []. rewrite logged_nil.
        repeat split.
      + unfold bind; cbn [call].
        destruct (extract_hex env (FLAGS_window env)) as [id |];
          eexists _, [IstreamExtractHex (FLAGS_window env)];
          (split; [ reflexivity |]);
          (split; [ intros b; cbn; rewrite Hr; reflexivity |]).
        * discriminate.
        * split; [ discriminate | reflexivity ]. }
  destruct Hwin as (o0 & pre & E0 & Hpre & Ho0). rewrite E0.
  destruct o0 as [win | t].
  - destruct (measure_and_select_runs env win (logged w0 pre) Ho0)
      as (o & w1 & calls & E & Hlog & Hcalls & _ & Ho).
    exists o, w1. split; [ exact E |]. split.
    + rewrite Hlog. subst w0. cbn [log logged set_log initial_world app].
      change (XOpenDisplay :: pre ++ XGetGeometry win :: calls)
        with ((XOpenDisplay :: pre) ++ XGetGeometry win :: calls).
      rewrite forallb_app. rewrite Hcalls, Hpre. reflexivity.
    + destruct o as [win' | t].
      * subst win'. exact Ho0.
      * destruct Ho as [H0 Hp]. split; [ exact H0 | intros _; exact Hp ].
  - eexists _, _. split; [ reflexivity |]. split.
    + subst w0. cbn [log logged set_log initial_world app]. apply Hpre.
    + destruct Ho0 as [H0 Hr]. split; [ exact H0 |].
      intros Hr'. congruence.
Qed.

(** Every run of [main]: it ends before the capture, having made prelude
    calls only, or it goes through the capture pipeline. *)
Lemma main_runs env :
  exists w1,
    forallb (prelude_call env (next_xid w1)) (log w1) = true
    /\ ((exists t,
           main env = (t, w1) /\ t <> Exit 0
           /\ (FLAGS_region env = true -> t <> CheckFailed CheckParseWindow))
        \/ (exists win t calls w,
              main env = (t, w)
              /\ log w = log w1 ++ calls
              /\ (FLAGS_region env = true -> win = DefaultRootWindow env)
              /\ capture_run env win
                   (val_shot_x (frame w1)) (val_shot_y (frame w1))
                   (val_shot_width (frame w1)) (val_shot_height (frame w1))
                   (next_xid w1) t calls)).
Proof.
  destruct (main_prelude_runs env) as (o & w1 & E & Hcalls & Ho).
  exists w1. split; [ exact Hcalls |].
  unfold main. rewrite main_body_eq. unfold bind. rewrite E.
  destruct o as [win | t].
  - right.
    destruct (capture_runs env win w1) as (t & calls & w & Ec & Hlog & Hrun).
    exists win, t, calls, w. rewrite Ec. repeat split; assumption.
  - left. exists t. destruct Ho as [H0 Hp]. repeat split; assumption.
Qed.

(** ** Counting grabs and releases *)

Lemma count_calls_app p l1 l2 :
  count_calls p (l1 ++ l2) = (count_calls p l1 + count_calls p l2)%nat.
Proof. unfold count_calls. rewrite filter_app. apply length_app. Qed.

Lemma count_calls_none p l :
  (forall c, grab_neutral c = true -> p c = false) ->
  forallb grab_neutral l = true -> count_calls p l = 0%nat.
Proof.
  intros Hp. unfold count_calls.
  induction l as [| c l IH]; cbn; [ reflexivity |].
  intros H. apply andb_true_iff in H. destruct H as [Hc Hl].
  rewrite (Hp c Hc). apply IH. exact Hl.
Qed.

Lemma pointer_held_app l1 : forall held l2,
  pointer_held held (l1 ++ l2) = pointer_held (pointer_held held l1) l2.
Proof.
  induction l1 as [| c l1 IH]; intros held l2; [ reflexivity |].
  destruct c; cbn; apply IH.
Qed.

Lemma keyboard_held_app l1 : forall held l2,
  keyboard_held held (l1 ++ l2) = keyboard_held (keyboard_held held l1) l2.
Proof.
  induction l1 as [| c l1 IH]; intros held l2; [ reflexivity |].
  destruct c; cbn; apply IH.
Qed.

Lemma pointer_held_neutral l : forall held,
  forallb grab_neutral l = true -> pointer_held held l = held.
Proof.
  induction l as [| c l IH]; intros held H; [ reflexivity |].
  cbn in H. apply andb_true_iff in H. destruct H as [Hc Hl].
  destruct c; cbn in Hc |- *; try discriminate; try (apply IH; exact Hl).
  apply negb_true_iff in Hc. rewrite Hc, orb_false_r. apply IH. exact Hl.
Qed.

Lemma keyboard_held_neutral l : forall held,
  forallb grab_neutral l = true -> keyboard_held held l = held.
Proof.
  induction l as [| c l IH]; intros held H; [ reflexivity |].
  cbn in H. apply andb_true_iff in H. destruct H as [Hc Hl].
  destruct c; cbn in Hc |- *; try discriminate; try (apply IH; exact Hl).
  apply negb_true_iff in Hc. rewrite Hc, orb_false_r. apply IH. exact Hl.
Qed.

Lemma kbd_failure_neutral c :
  kbd_failure_call c = true -> grab_neutral c = true.
Proof. destruct c; cbn; congruence. Qed.

Lemma loop_neutral this c : loop_call this c = true -> grab_neutral c = true.
Proof. destruct c; cbn; congruence. Qed.

Lemma enter_calls_neutral this :
  forallb grab_neutral (enter_calls this) = true.
Proof. reflexivity. Qed.

(** ** The properties of the specification *)

(** C1 (the code does otherwise): a completed drag whose rectangle has
    width 0 or height 0 should make [SelectRegion] return [false].  The
    [return] compares the pointers [width] and [height] with 0, not the
    values behind them: for the click without movement at (5, 5) it returns
    [true] with a 0x0 rectangle stored, and [main] goes on to [XGetImage]
    with that rectangle. *)
Theorem zero_area_selection_returns_true :
  let this := selector_at click_env 100 in
  let run := SelectRegion click_env this
               (AddrOf shot_x) (AddrOf shot_y)
               (AddrOf shot_width) (AddrOf shot_height)
               (initial_world click_env) in
  fst run = Ret true
  /\ frame (snd run) =
     {| val_shot_x := 5; val_shot_y := 5;
        val_shot_width := 0; val_shot_height := 0 |}
  /\ fst (main click_env) = CheckFailed CheckImage
  /\ In (XGetImage 1 5 5 0 0) (log (snd (main click_env))).
Proof.
  cbv zeta. split; [ vm_compute; reflexivity |].
  split; [ vm_compute; reflexivity |].
  split; [ vm_compute; reflexivity |].
  vm_compute. repeat first [ left; reflexivity | right ].
Qed.

(** C2: for a completed drag -- a press at [(sx, sy)], then events that
    are neither button events nor Escape, then a release at [(ex, ey)] --
    [SelectRegion] returns [true] with [x = min sx ex], [y = min sy ey],
    [width = |sx - ex|] and [height = |sy - ey|] stored in the locals of
    [main]. *)
Theorem SelectRegion_normalizes_rectangle
    env this w n pre sx sy mid ex ey rest :
  grabs_acquired env w n ->
  pending w = pre ++ ButtonPress sx sy :: mid ++ ButtonRelease ex ey :: rest ->
  alive (vars_after env this pre initial_vars) = true ->
  forallb (keeps_drag env) mid = true ->
  CInt.in_int sx -> CInt.in_int sy -> CInt.in_int ex -> CInt.in_int ey ->
  exists w',
    SelectRegion env this (AddrOf shot_x) (AddrOf shot_y)
      (AddrOf shot_width) (AddrOf shot_height) w = (Ret true, w')
    /\ val_shot_x (frame w') = Z.min sx ex
    /\ val_shot_y (frame w') = Z.min sy ey
    /\ val_shot_width (frame w') = Z.abs (sx - ex)
    /\ val_shot_height (frame w') = Z.abs (sy - ey).
Proof.
  intros Hg Hp Hpre Hmid Hsx Hsy Hex Hey.
  destruct (SelectRegion_drag env this w n pre sx sy mid ex ey rest
              Hg Hp Hpre Hmid) as (w' & E & Hf & _).
  exists w'. split; [ exact E |]. rewrite Hf.
  unfold drag_rectangle; cbn [val_shot_x val_shot_y val_shot_width
                              val_shot_height].
  unfold CInt.in_int in *.
  rewrite !unsigned_distance, !max_sub_min_abs;
    unfold CInt.in_int; lia.
Qed.

Lemma SelectRegion_normalizes_rectangle_witness :
  exists w',
    SelectRegion drag_env (selector_at drag_env 100)
      (AddrOf shot_x) (AddrOf shot_y)
      (AddrOf shot_width) (AddrOf shot_height)
      (initial_world drag_env) = (Ret true, w')
    /\ val_shot_x (frame w') = Z.min 50 10
    /\ val_shot_y (frame w') = Z.min 50 10
    /\ val_shot_width (frame w') = Z.abs (50 - 10)
    /\ val_shot_height (frame w') = Z.abs (50 - 10).
Proof.
  apply (SelectRegion_normalizes_rectangle drag_env
           (selector_at drag_env 100) (initial_world drag_env) 0
           [] 50 50 [MotionNotify 30 30] 10 10 []).
  - repeat split; try reflexivity. intros i Hi. inversion Hi.
  - reflexivity.
  - reflexivity.
  - reflexivity.
  - unfold CInt.in_int, CInt.int_min, CInt.int_max. lia.
  - unfold CInt.in_int, CInt.int_min, CInt.int_max. lia.
  - unfold CInt.in_int, CInt.int_min, CInt.int_max. lia.
  - unfold CInt.in_int, CInt.int_min, CInt.int_max. lia.
Defined.

(** C10: a button press that arrives while a drag is in progress is not
    ignored: the handler has no state guard, so the press point becomes the
    new start point, the machine stays in the dragging state, and the loop
    goes on with the next event without touching the border windows. *)
Theorem button_press_while_dragging_restarts_drag
    env this x_root y_root queue v w :
  alive v = true ->
  dragging v = true ->
  let v' := {| done := done v; dragging := true; aborted := aborted v;
               start_x := x_root; start_y := y_root;
               end_x := end_x v; end_y := end_y v |} in
  handle_event env this (ButtonPress x_root y_root) v w = (Ret v', w)
  /\ event_loop env (ButtonPress x_root y_root :: queue) this v w =
     event_loop env queue this v'
       (logged (set_pending queue w) [XNextEvent (ButtonPress x_root y_root)])
  /\ alive v' = true
  /\ dragging v' = true.
Proof.
  intros Hv Hd v'. split; [ reflexivity |]. split; [| split ].
  - apply event_loop_step_emits; [ exact Hv |]. apply emits_ret.
  - exact Hv.
  - reflexivity.
Qed.

Lemma button_press_while_dragging_restarts_drag_witness :
  let v := {| done := false; dragging := true; aborted := false;
              start_x := 50; start_y := 50; end_x := 30; end_y := 30 |} in
  let v' := {| done := false; dragging := true; aborted := false;
               start_x := 70; start_y := 80; end_x := 30; end_y := 30 |} in
  let this := selector_at drag_env 100 in
  let w := initial_world drag_env in
  handle_event drag_env this (ButtonPress 70 80) v w = (Ret v', w)
  /\ event_loop drag_env [ButtonPress 70 80; ButtonRelease 10 10] this v w =
     event_loop drag_env [ButtonRelease 10 10] this v'
       (logged (set_pending [ButtonRelease 10 10] w)
          [XNextEvent (ButtonPress 70 80)])
  /\ alive v' = true
  /\ dragging v' = true.
Proof.
  cbv zeta.
  apply (button_press_while_dragging_restarts_drag drag_env
           (selector_at drag_env 100) 70 80 [ButtonRelease 10 10]
           {| done := false; dragging := true; aborted := false;
              start_x := 50; start_y := 50; end_x := 30; end_y := 30 |}
           (initial_world drag_env)); reflexivity.
Defined.

Lemma window_geometry_app win l1 : forall l2 current,
  window_geometry win (l1 ++ l2) current =
  window_geometry win l2 (window_geometry win l1 current).
Proof.
  induction l1 as [| c l1 IH]; intros l2 current; [ reflexivity |].
  destruct c; cbn; apply IH.
Qed.

(** After the four offscreen moves every border window is a 1x1 window at
    (-1, -1). *)
Lemma offscreen_geometry this b current :
  is_border this b = true ->
  window_geometry b (offscreen_calls this) current = Some (-1, -1, 1, 1).
Proof.
  unfold is_border, offscreen_calls. cbn.
  rewrite !(Z.eqb_sym b).
  destruct (left_win_ this =? b), (right_win_ this =? b),
    (top_win_ this =? b), (bottom_win_ this =? b); cbn;
    intros H; first [ discriminate | reflexivity ].
Qed.

(** C5: Escape is delivered after a prefix [pre] of events that has not
    ended the selection.  If a drag is in progress, the machine goes back
    to idle (not dragging, not done, not aborted), the four border windows
    are moved offscreen, and the loop goes on with the remaining events.
    If no drag is in progress, [SelectRegion] returns [false] and stores no
    rectangle. *)
Theorem escape_cancels_drag_or_aborts
    env this x y width height w n pre rest :
  grabs_acquired env w n ->
  pending w = pre ++ KeyPress (escape_keycode env) :: rest ->
  alive (vars_after env this pre initial_vars) = true ->
  let v := vars_after env this pre initial_vars in
  (dragging v = true ->
   let idle := {| done := false; dragging := false; aborted := false;
                  start_x := start_x v; start_y := start_y v;
                  end_x := end_x v; end_y := end_y v |} in
   exists w1,
     SelectRegion env this x y width height w =
     bind (event_loop env rest this idle)
       (after_loop this x y width height) w1
     /\ pending w1 = rest
     /\ vars_after env this (pre ++ [KeyPress (escape_keycode env)])
          initial_vars = idle
     /\ forall b, is_border this b = true ->
                  window_geometry b (log w1) None = Some (-1, -1, 1, 1))
  /\ (dragging v = false ->
      exists w',
        SelectRegion env this x y width height w = (Ret false, w')
        /\ frame w' = frame w
        /\ pending w' = rest).
Proof.
  intros Hg Hp Hv v. split; intros Hd.
  - assert (Hdone : done v = false /\ aborted v = false).
    { unfold alive in Hv. fold v in Hv.
      destruct (done v), (aborted v); try discriminate. split; reflexivity. }
    destruct Hdone as [Hdone Hab].
    assert (Hnext : next_vars env this (KeyPress (escape_keycode env)) v =
                    {| done := false; dragging := false; aborted := false;
                       start_x := start_x v; start_y := start_y v;
                       end_x := end_x v; end_y := end_y v |}).
    { rewrite next_vars_eq, Z.eqb_refl, Hd, Hdone, Hab. reflexivity. }
    rewrite (SelectRegion_acquired env this _ _ _ _ w n Hg).
    set (w0 := attempted w (n + 1) (acquire_calls env w n)).
    destruct (selection_prefix env this x y width height pre
                (KeyPress (escape_keycode env) :: rest) w0 Hp Hv)
      as (c1 & _ & E1).
    rewrite E1. clear E1. fold v.
    set (w2 := logged _ _).
    assert (He : emits
                   (handle_event env this (KeyPress (escape_keycode env)) v)
                   {| done := false; dragging := false; aborted := false;
                      start_x := start_x v; start_y := start_y v;
                      end_x := end_x v; end_y := end_y v |}
                   (XKeysymToKeycode_Escape :: offscreen_calls this)).
    { cbn [handle_event]. rewrite Z.eqb_refl, Hd, Hdone, Hab.
      eapply emits_eq.
      - eapply emits_bind; [ apply emits_call |].
        eapply emits_bind;
          [ apply MoveWindowsOffscreen_emits | apply emits_ret ].
      - reflexivity. }
    eexists. split; [| split; [| split ]].
    + unfold bind at 1.
      rewrite (event_loop_step_emits env this _ rest v _ _ w2 Hv He).
      reflexivity.
    + reflexivity.
    + rewrite vars_after_app. fold v. exact Hnext.
    + intros b Hb.
      cbn [log logged set_log set_pending].
      change (XNextEvent (KeyPress (escape_keycode env))
              :: XKeysymToKeycode_Escape :: offscreen_calls this)
        with ([XNextEvent (KeyPress (escape_keycode env));
               XKeysymToKeycode_Escape] ++ offscreen_calls this).
      rewrite !window_geometry_app.
      apply offscreen_geometry. exact Hb.
  - apply (SelectRegion_escape_idle env this x y width height w n pre rest);
      assumption.
Qed.

Lemma escape_cancels_drag_or_aborts_witness :
  (let this := selector_at cancel_env 100 in
   let v := vars_after cancel_env this
              [ButtonPress 50 50; MotionNotify 30 30] initial_vars in
   let idle := {| done := false; dragging := false; aborted := false;
                  start_x := start_x v; start_y := start_y v;
                  end_x := end_x v; end_y := end_y v |} in
   exists w1,
     SelectRegion cancel_env this (AddrOf shot_x) (AddrOf shot_y)
       (AddrOf shot_width) (AddrOf shot_height)
       (initial_world cancel_env) =
     bind (event_loop cancel_env [] this idle)
       (after_loop this (AddrOf shot_x) (AddrOf shot_y)
          (AddrOf shot_width) (AddrOf shot_height)) w1
     /\ pending w1 = []
     /\ vars_after cancel_env this
          ([ButtonPress 50 50; MotionNotify 30 30]
           ++ [KeyPress (escape_keycode cancel_env)]) initial_vars = idle
     /\ forall b, is_border this b = true ->
                  window_geometry b (log w1) None = Some (-1, -1, 1, 1))
  /\ (exists w',
        SelectRegion abort_env (selector_at abort_env 100)
          (AddrOf shot_x) (AddrOf shot_y)
          (AddrOf shot_width) (AddrOf shot_height)
          (initial_world abort_env) = (Ret false, w')
        /\ frame w' = frame (initial_world abort_env)
        /\ pending w' = []).
Proof.
  split.
  - cbv zeta.
    apply (proj1 (escape_cancels_drag_or_aborts cancel_env
                    (selector_at cancel_env 100)
                    (AddrOf shot_x) (AddrOf shot_y)
                    (AddrOf shot_width) (AddrOf shot_height)
                    (initial_world cancel_env) 0
                    [ButtonPress 50 50; MotionNotify 30 30] []
                    (conj eq_refl
                       (conj eq_refl
                          (conj (fun i (Hi : (i < 0)%nat) =>
                                   match Nat.nlt_0_r i Hi with end)
                             eq_refl)))
                    eq_refl eq_refl)).
    reflexivity.
  - apply (proj2 (escape_cancels_drag_or_aborts abort_env
                    (selector_at abort_env 100)
                    (AddrOf shot_x) (AddrOf shot_y)
                    (AddrOf shot_width) (AddrOf shot_height)
                    (initial_world abort_env) 0 [] []
                    (conj eq_refl
                       (conj eq_refl
                          (conj (fun i (Hi : (i < 0)%nat) =>
                                   match Nat.nlt_0_r i Hi with end)
                             eq_refl)))
                    eq_refl eq_refl)).
    reflexivity.
Defined.

(** C3: with the pointer grabbed, the keyboard grab is attempted up to 10
    times, with a delay of 100 ms after each failed attempt but the last.
    If the first [n < 10] attempts fail and the next one succeeds,
    [SelectRegion] parks and maps the border windows and runs the event
    loop from its initial state.  If all 10 attempts fail, it releases the
    pointer and returns [false], with nothing stored. *)
Theorem keyboard_grab_retried_up_to_max env this x y width height w :
  pointer_grab env = GrabSuccess ->
  (forall n,
     Z.of_nat n < kMaxKeyboardGrabAttempts ->
     (forall i, (i < n)%nat ->
                keyboard_grab env (kbd_calls w + i) <> GrabSuccess) ->
     keyboard_grab env (kbd_calls w + n) = GrabSuccess ->
     SelectRegion env this x y width height w =
     bind (event_loop env (pending w) this initial_vars)
       (after_loop this x y width height)
       (attempted w (n + 1)
          (XGrabPointer GrabSuccess
           :: failed_attempts env (kbd_calls w) n
           ++ XGrabKeyboard GrabSuccess :: enter_calls this)))
  /\ ((forall i, (i < Z.to_nat kMaxKeyboardGrabAttempts)%nat ->
                 keyboard_grab env (kbd_calls w + i) <> GrabSuccess) ->
      SelectRegion env this x y width height w =
      (Ret false,
       attempted w (Z.to_nat kMaxKeyboardGrabAttempts)
         (XGrabPointer GrabSuccess
          :: failed_attempts env (kbd_calls w) 9
          ++ [XGrabKeyboard (keyboard_grab env (kbd_calls w + 9));
              XUngrabPointer]))).
Proof.
  intros Hp. split.
  - intros n Hn Hfail Hok.
    rewrite (SelectRegion_acquired env this x y width height w n)
      by (repeat split; assumption).
    unfold selection.
    rewrite (bind_emits _ _ _ _ _ (MoveWindowsOffscreen_emits this)).
    rewrite !(bind_emits _ _ _ _ _ (emits_call _)), !logged_logged.
    change (offscreen_calls this ++ _) with (enter_calls this).
    unfold bind at 1.
    change (pending (logged ?a ?b)) with (pending a).
    change (pending (attempted w ?a ?b)) with (pending w).
    rewrite logged_attempted. unfold acquire_calls.
    cbn [app]. rewrite <- app_assoc. reflexivity.
  - intros Hfail.
    rewrite SelectRegion_eq.
    rewrite (bind_emits _ _ _ _ _ (GrabPointer_emits env this)).
    rewrite Hp. cbn [Z.eqb GrabSuccess negb].
    unfold bind at 1.
    rewrite (grab_keyboard_retry_exhausted env this 9).
    + cbn [negb kbd_calls logged set_log]. unfold ret.
      f_equal. apply world_eq; cbn; try reflexivity.
      rewrite <- !app_assoc. reflexivity.
    + cbn. lia.
    + lia.
    + reflexivity.
    + intros i Hi. cbn [kbd_calls logged set_log]. apply Hfail.
      cbn. lia.
Qed.

Lemma keyboard_grab_retried_up_to_max_witness :
  (let this := selector_at retry_env 100 in
   let w := initial_world retry_env in
   SelectRegion retry_env this (AddrOf shot_x) (AddrOf shot_y)
     (AddrOf shot_width) (AddrOf shot_height) w =
   bind (event_loop retry_env (pending w) this initial_vars)
     (after_loop this (AddrOf shot_x) (AddrOf shot_y)
        (AddrOf shot_width) (AddrOf shot_height))
     (attempted w (3 + 1)
        (XGrabPointer GrabSuccess
         :: failed_attempts retry_env (kbd_calls w) 3
         ++ XGrabKeyboard GrabSuccess :: enter_calls this)))
  /\ (let this := selector_at keyboard_stuck_env 100 in
      let w := initial_world keyboard_stuck_env in
      SelectRegion keyboard_stuck_env this (AddrOf shot_x) (AddrOf shot_y)
        (AddrOf shot_width) (AddrOf shot_height) w =
      (Ret false,
       attempted w (Z.to_nat kMaxKeyboardGrabAttempts)
         (XGrabPointer GrabSuccess
          :: failed_attempts keyboard_stuck_env (kbd_calls w) 9
          ++ [XGrabKeyboard
                (keyboard_grab keyboard_stuck_env (kbd_calls w + 9));
              XUngrabPointer]))).
Proof.
  split; cbv zeta.
  - apply (proj1 (keyboard_grab_retried_up_to_max retry_env
                    (selector_at retry_env 100)
                    (AddrOf shot_x) (AddrOf shot_y)
                    (AddrOf shot_width) (AddrOf shot_height)
                    (initial_world retry_env) eq_refl) 3%nat).
    + reflexivity.
    + intros i Hi. destruct i as [| [| [| i]]]; try discriminate. lia.
    + reflexivity.
  - apply (proj2 (keyboard_grab_retried_up_to_max keyboard_stuck_env
                    (selector_at keyboard_stuck_env 100)
                    (AddrOf shot_x) (AddrOf shot_y)
                    (AddrOf shot_width) (AddrOf shot_height)
                    (initial_world keyboard_stuck_env) eq_refl)).
    intros i _. discriminate.
Defined.

(** The two runs of the retry, evaluated: three failures, then the grab;
    and ten failures. *)
Example retry_three_failures :
  log (snd (grab_keyboard_retry retry_env 10 (selector_at retry_env 100) 0
              (initial_world retry_env))) =
  [XGrabKeyboard 1; usleep 100000; XGrabKeyboard 1; usleep 100000;
   XGrabKeyboard 1; usleep 100000; XGrabKeyboard 0].
Proof. vm_compute. reflexivity. Qed.

Example retry_ten_failures :
  SelectRegion keyboard_stuck_env (selector_at keyboard_stuck_env 100)
    (AddrOf shot_x) (AddrOf shot_y) (AddrOf shot_width) (AddrOf shot_height)
    (initial_world keyboard_stuck_env) =
  (Ret false,
   {| log :=
        [XGrabPointer 0;
         XGrabKeyboard 1; usleep 100000; XGrabKeyboard 1; usleep 100000;
         XGrabKeyboard 1; usleep 100000; XGrabKeyboard 1; usleep 100000;
         XGrabKeyboard 1; usleep 100000; XGrabKeyboard 1; usleep 100000;
         XGrabKeyboard 1; usleep 100000; XGrabKeyboard 1; usleep 100000;
         XGrabKeyboard 1; usleep 100000; XGrabKeyboard 1; XUngrabPointer];
      next_xid := 100; kbd_calls := 10;
      pending := [ButtonPress 50 50; ButtonRelease 10 10];
      frame := {| val_shot_x := 0; val_shot_y := 0;
                  val_shot_width := 0; val_shot_height := 0 |} |}).
Proof. vm_compute. reflexivity. Qed.

(** C4, as stated, fails on the pointer-grab failure path: there
    [SelectRegion] returns without releasing anything, so the release is
    not made "exactly once" on every exit path. *)
Lemma pointer_grab_failure_releases_nothing :
  let run := SelectRegion pointer_busy_env (selector_at pointer_busy_env 100)
               (AddrOf shot_x) (AddrOf shot_y)
               (AddrOf shot_width) (AddrOf shot_height)
               (initial_world pointer_busy_env) in
  fst run = Ret false
  /\ log (snd run) = [XGrabPointer 1]
  /\ count_calls is_XUngrabPointer (log (snd run)) <> 1%nat
  /\ count_calls is_XUngrabKeyboard (log (snd run)) <> 1%nat.
Proof.
  cbv zeta. vm_compute. repeat split; discriminate.
Qed.

(** C4, amended: whenever [SelectRegion] returns, each grab it acquired
    has been released exactly once and none is held any more.  The pointer
    is released once if [XGrabPointer] succeeded and not at all otherwise;
    the keyboard is released once if an [XGrabKeyboard] succeeded and not at
    all otherwise.  When the pointer grab fails, [XGrabPointer] is the only
    call made. *)
Theorem SelectRegion_releases_what_it_grabbed
    env this x y width height w b w' :
  SelectRegion env this x y width height w = (Ret b, w') ->
  exists calls,
    log w' = log w ++ calls
    /\ count_calls is_pointer_acquired calls =
       (if pointer_grab env =? GrabSuccess then 1%nat else 0%nat)
    /\ count_calls is_XUngrabPointer calls =
       count_calls is_pointer_acquired calls
    /\ (count_calls is_keyboard_acquired calls <= 1)%nat
    /\ count_calls is_XUngrabKeyboard calls =
       count_calls is_keyboard_acquired calls
    /\ pointer_held false calls = false
    /\ keyboard_held false calls = false
    /\ (pointer_grab env <> GrabSuccess ->
        calls = [XGrabPointer (pointer_grab env)]).
Proof.
  intros E.
  destruct (SelectRegion_runs env this x y width height w)
    as (o & calls & n & rest & f & E' & Hrun).
  rewrite E in E'. injection E' as Eo Ew. subst o w'.
  exists calls. split; [ reflexivity |].
  assert (Hn : forall p l,
             (forall c, grab_neutral c = true -> p c = false) ->
             forallb grab_neutral l = true -> count_calls p l = 0%nat)
    by (intros; apply count_calls_none; assumption).
  assert (Hp1 : forall c, grab_neutral c = true ->
                          is_pointer_acquired c = false).
  { intros c; destruct c; cbn; try congruence.
    intros H. apply negb_true_iff in H. exact H. }
  assert (Hp2 : forall c, grab_neutral c = true -> is_XUngrabPointer c = false)
    by (intros c; destruct c; cbn; congruence).
  assert (Hp3 : forall c, grab_neutral c = true ->
                          is_keyboard_acquired c = false).
  { intros c; destruct c; cbn; try congruence.
    intros H. apply negb_true_iff in H. exact H. }
  assert (Hp4 : forall c, grab_neutral c = true ->
                          is_XUngrabKeyboard c = false)
    by (intros c; destruct c; cbn; congruence).
  inversion Hrun as [Hp | K Hp HK | K L Hp HK HL | K L o Hp HK HL Ho];
    subst; clear Hrun.
  - (* the pointer grab failed *)
    assert (Hpb := Hp). apply Z.eqb_neq in Hpb.
    cbn. unfold count_calls; cbn. rewrite Hpb. cbn.
    repeat split; try reflexivity. lia.
  - (* the keyboard grab was given up *)
    rewrite Hp. cbn [Z.eqb GrabSuccess].
    apply (forallb_impl _ _ K kbd_failure_neutral) in HK.
    change (XGrabPointer GrabSuccess :: K ++ [XUngrabPointer])
      with ([XGrabPointer GrabSuccess] ++ K ++ [XUngrabPointer]).
    rewrite !count_calls_app, !pointer_held_app, !keyboard_held_app.
    rewrite !(Hn _ K) by assumption.
    rewrite !(pointer_held_neutral K), !(keyboard_held_neutral K)
      by assumption.
    repeat split; try reflexivity; try (cbn; lia);
      try (intros H; contradiction).
  - (* the run ended in the loop *)
    rewrite Hp. cbn [Z.eqb GrabSuccess].
    apply (forallb_impl _ _ K kbd_failure_neutral) in HK.
    apply (forallb_impl _ _ L (loop_neutral this)) in HL.
    assert (HE := enter_calls_neutral this).
    change (XGrabPointer GrabSuccess
            :: K ++ XGrabKeyboard GrabSuccess
            :: enter_calls this ++ L ++ leave_calls this)
      with ([XGrabPointer GrabSuccess]
            ++ K ++ [XGrabKeyboard GrabSuccess]
            ++ enter_calls this ++ L ++ leave_calls this).
    rewrite !count_calls_app, !pointer_held_app, !keyboard_held_app.
    rewrite !(Hn _ K), !(Hn _ L), !(Hn _ (enter_calls this)) by assumption.
    rewrite !(pointer_held_neutral K), !(keyboard_held_neutral K)
      by assumption.
    cbn [pointer_held keyboard_held GrabSuccess Z.eqb orb].
    rewrite !(pointer_held_neutral (enter_calls this)),
      !(keyboard_held_neutral (enter_calls this)) by assumption.
    rewrite !(pointer_held_neutral L), !(keyboard_held_neutral L)
      by assumption.
    repeat split; try reflexivity; try (cbn; lia);
      try (intros H; contradiction).
Qed.

Lemma SelectRegion_releases_what_it_grabbed_witness :
  exists calls,
    log (snd (SelectRegion drag_env (selector_at drag_env 100)
                (AddrOf shot_x) (AddrOf shot_y)
                (AddrOf shot_width) (AddrOf shot_height)
                (initial_world drag_env))) =
    log (initial_world drag_env) ++ calls
    /\ count_calls is_pointer_acquired calls =
       (if pointer_grab drag_env =? GrabSuccess then 1%nat else 0%nat)
    /\ count_calls is_XUngrabPointer calls =
       count_calls is_pointer_acquired calls
    /\ (count_calls is_keyboard_acquired calls <= 1)%nat
    /\ count_calls is_XUngrabKeyboard calls =
       count_calls is_keyboard_acquired calls
    /\ pointer_held false calls = false
    /\ keyboard_held false calls = false
    /\ (pointer_grab drag_env <> GrabSuccess ->
        calls = [XGrabPointer (pointer_grab drag_env)]).
Proof.
  apply (SelectRegion_releases_what_it_grabbed drag_env
           (selector_at drag_env 100)
           (AddrOf shot_x) (AddrOf shot_y)
           (AddrOf shot_width) (AddrOf shot_height)
           (initial_world drag_env) true).
  vm_compute. reflexivity.
Defined.

(** ** Reading the log of [main] *)

Lemma capture_run_calls env win x y wd ht fb t calls :
  capture_run env win x y wd ht fb t calls ->
  forallb (capture_call win) calls = true.
Proof.
  intros H; destruct H; cbn; rewrite Z.eqb_refl; reflexivity.
Qed.

(** the image the capture pipeline reads is the one it was asked for *)
Lemma capture_run_reads env win x y wd ht fb t calls win' x' y' wd' ht' :
  capture_run env win x y wd ht fb t calls ->
  In (XGetImage win' x' y' wd' ht') calls ->
  win' = win /\ x' = x /\ y' = y /\ wd' = wd /\ ht' = ht.
Proof.
  intros H Hin; destruct H; cbn in Hin;
    repeat (destruct Hin as [Hin | Hin]; try discriminate Hin);
    try contradiction;
    injection Hin as -> -> -> -> ->; repeat split.
Qed.

Lemma prelude_not_capture env bound c :
  prelude_call env bound c = true ->
  is_encode_call c = false
  /\ (forall w x y wd ht, c <> XGetImage w x y wd ht)
  /\ shows_window bound c = false.
Proof.
  destruct c; cbn; intros H; repeat split; try discriminate;
    try reflexivity;
    apply Z.ltb_lt in H; apply Z.eqb_neq; lia.
Qed.

Lemma In_forallb {A : Type} (p : A -> bool) (l : list A) (a : A) :
  forallb p l = true -> In a l -> p a = true.
Proof. intros H Hin. rewrite forallb_forall in H. apply H. exact Hin. Qed.

(** C6: once [XGetImage] has returned an image, its depth decides what
    follows.  Depth 24 hands the data to cairo as [CAIRO_FORMAT_RGB24],
    depth 32 as [CAIRO_FORMAT_ARGB32], and no surface is ever created with
    another pairing.  Any other depth ends the run in the failed depth
    [CHECK], with no cairo surface created and no PNG written. *)
Theorem depth_selects_encode_format env t w win x y wd ht image :
  main env = (t, w) ->
  In (XGetImage win x y wd ht) (log w) ->
  get_image env win x y wd ht = Some image ->
  (depth image = 24 ->
   In (cairo_image_surface_create_for_data CAIRO_FORMAT_RGB24
         (width image) (height image) (bytes_per_line image)) (log w))
  /\ (depth image = 32 ->
      In (cairo_image_surface_create_for_data CAIRO_FORMAT_ARGB32
            (width image) (height image) (bytes_per_line image)) (log w))
  /\ (forall fmt a b c,
        In (cairo_image_surface_create_for_data fmt a b c) (log w) ->
        (depth image = 24 /\ fmt = CAIRO_FORMAT_RGB24)
        \/ (depth image = 32 /\ fmt = CAIRO_FORMAT_ARGB32))
  /\ (depth image <> 24 -> depth image <> 32 ->
      t = CheckFailed CheckDepth
      /\ forallb (fun c => negb (is_encode_call c)) (log w) = true).
Proof.
  intros Hmain Hin Himage.
  destruct (main_runs env)
    as (w1 & Hpre & [(t' & E & _)
                    | (win0 & t' & calls & w'' & E & Hlog & _ & Hrun)]);
    rewrite Hmain in E; injection E as <- <-.
  { (* the run ended before the capture *)
    apply (In_forallb _ _ _ Hpre) in Hin. discriminate Hin. }
  assert (Hnot : forall c, In c (log w1) ->
                           is_encode_call c = false
                           /\ forall w x y wd ht, c <> XGetImage w x y wd ht).
  { intros c Hc. apply (In_forallb _ _ _ Hpre) in Hc.
    destruct (prelude_not_capture env _ c Hc) as (H1 & H2 & _).
    split; assumption. }
  assert (Hquiet : forallb (fun c => negb (is_encode_call c)) (log w1)
                   = true).
  { apply forallb_forall. intros c Hc.
    destruct (Hnot c Hc) as [H1 _]. rewrite H1. reflexivity. }
  rewrite Hlog in Hin |- *. apply in_app_or in Hin.
  destruct Hin as [Hin | Hin].
  { destruct (Hnot _ Hin) as [_ H]. exfalso. eapply H. reflexivity. }
  destruct (capture_run_reads _ _ _ _ _ _ _ _ _ _ _ _ _ _ Hrun Hin)
    as (Hwin & Hx & Hy & Hwd & Hht).
  subst win x y wd ht.
  assert (Hformat : forall image0,
            get_image env win0 (val_shot_x (frame w1)) (val_shot_y (frame w1))
              (val_shot_width (frame w1)) (val_shot_height (frame w1))
            = Some image0 ->
            depth image0 = 24 \/ depth image0 = 32 ->
            forall fmt a b c,
              cairo_image_surface_create_for_data fmt a b c
              = create_surface_call image0 ->
              (depth image = 24 /\ fmt = CAIRO_FORMAT_RGB24)
              \/ (depth image = 32 /\ fmt = CAIRO_FORMAT_ARGB32)).
  { intros image0 Hi0 Hd fmt a b c Heq. rewrite Himage in Hi0.
    injection Hi0 as <-. unfold create_surface_call in Heq.
    injection Heq as -> _ _ _.
    destruct Hd as [Hd | Hd]; rewrite Hd; cbn; auto. }
  assert (Hcreate : forall image0 l1 l2,
            get_image env win0 (val_shot_x (frame w1)) (val_shot_y (frame w1))
              (val_shot_width (frame w1)) (val_shot_height (frame w1))
            = Some image0 ->
            (depth image = 24 ->
             In (cairo_image_surface_create_for_data CAIRO_FORMAT_RGB24
                   (width image) (height image) (bytes_per_line image))
               (l1 ++ create_surface_call image0 :: l2))
            /\ (depth image = 32 ->
                In (cairo_image_surface_create_for_data CAIRO_FORMAT_ARGB32
                      (width image) (height image) (bytes_per_line image))
                  (l1 ++ create_surface_call image0 :: l2))).
  { intros image0 l1 l2 Hi0. rewrite Himage in Hi0. injection Hi0 as <-.
    split; intros Hd; apply in_or_app; right; left;
      unfold create_surface_call; rewrite Hd; reflexivity. }
  inversion Hrun as [Hi | image0 Hi H24 H32 | image0 Hi Hd Hs
                    | image0 Hi Hd Hs Hw | image0 Hi Hd Hs Hw];
    subst; clear Hrun.
  - rewrite Himage in Hi. discriminate Hi.
  - rewrite Himage in Hi. injection Hi as <-.
    repeat split; try contradiction.
    + intros fmt a b c Hc. apply in_app_or in Hc.
      destruct Hc as [Hc | Hc].
      * destruct (Hnot _ Hc) as [H _]. discriminate H.
      * cbn in Hc. destruct Hc as [Hc | []]. discriminate Hc.
    + rewrite forallb_app, Hquiet. reflexivity.
  - destruct (Hcreate image0
                (log w1 ++ XGetImage win0 (val_shot_x (frame w1))
                             (val_shot_y (frame w1))
                             (val_shot_width (frame w1))
                             (val_shot_height (frame w1))
                 :: flash_calls (next_xid w1) (val_shot_x (frame w1))
                      (val_shot_y (frame w1)) (val_shot_width (frame w1))
                      (val_shot_height (frame w1)))
                [] Hi) as [C24 C32].
    rewrite <- app_assoc in C24, C32. cbn [app] in C24, C32.
    split; [ exact C24 |]. split; [ exact C32 |]. split.
    + intros fmt a b c Hc. apply in_app_or in Hc.
      destruct Hc as [Hc | Hc].
      * destruct (Hnot _ Hc) as [H _]. discriminate H.
      * cbn in Hc.
        repeat (destruct Hc as [Hc | Hc]; try discriminate Hc);
          try contradiction.
        apply (Hformat image0 Hi Hd fmt a b c). symmetry. exact Hc.
    + intros H24 H32. rewrite Himage in Hi. injection Hi as <-.
      destruct Hd; contradiction.
  - destruct (Hcreate image0
                (log w1 ++ XGetImage win0 (val_shot_x (frame w1))
                             (val_shot_y (frame w1))
                             (val_shot_width (frame w1))
                             (val_shot_height (frame w1))
                 :: flash_calls (next_xid w1) (val_shot_x (frame w1))
                      (val_shot_y (frame w1)) (val_shot_width (frame w1))
                      (val_shot_height (frame w1)))
                [cairo_surface_write_to_png (filename env)] Hi)
      as [C24 C32].
    rewrite <- app_assoc in C24, C32. cbn [app] in C24, C32.
    split; [ exact C24 |]. split; [ exact C32 |]. split.
    + intros fmt a b c Hc. apply in_app_or in Hc.
      destruct Hc as [Hc | Hc].
      * destruct (Hnot _ Hc) as [H _]. discriminate H.
      * cbn in Hc.
        repeat (destruct Hc as [Hc | Hc]; try discriminate Hc);
          try contradiction.
        apply (Hformat image0 Hi Hd fmt a b c). symmetry. exact Hc.
    + intros H24 H32. rewrite Himage in Hi. injection Hi as <-.
      destruct Hd; contradiction.
  - destruct (Hcreate image0
                (log w1 ++ XGetImage win0 (val_shot_x (frame w1))
                             (val_shot_y (frame w1))
                             (val_shot_width (frame w1))
                             (val_shot_height (frame w1))
                 :: flash_calls (next_xid w1) (val_shot_x (frame w1))
                      (val_shot_y (frame w1)) (val_shot_width (frame w1))
                      (val_shot_height (frame w1)))
                [cairo_surface_write_to_png (filename env);
                 cairo_surface_destroy; XDestroyImage; XCloseDisplay] Hi)
      as [C24 C32].
    rewrite <- app_assoc in C24, C32. cbn [app] in C24, C32.
    split; [ exact C24 |]. split; [ exact C32 |]. split.
    + intros fmt a b c Hc. apply in_app_or in Hc.
      destruct Hc as [Hc | Hc].
      * destruct (Hnot _ Hc) as [H _]. discriminate H.
      * cbn in Hc.
        repeat (destruct Hc as [Hc | Hc]; try discriminate Hc);
          try contradiction.
        apply (Hformat image0 Hi Hd fmt a b c). symmetry. exact Hc.
    + intros H24 H32. rewrite Himage in Hi. injection Hi as <-.
      destruct Hd; contradiction.
Qed.

Lemma depth_selects_encode_format_witness :
  In (cairo_image_surface_create_for_data CAIRO_FORMAT_RGB24 1920 1080 7680)
    (log (snd (main (root_env 24))))
  /\ In (cairo_image_surface_create_for_data CAIRO_FORMAT_ARGB32
           1920 1080 7680)
       (log (snd (main (root_env 32))))
  /\ (fst (main (root_env 16)) = CheckFailed CheckDepth
      /\ forallb (fun c => negb (is_encode_call c))
           (log (snd (main (root_env 16)))) = true).
Proof.
  split; [| split ].
  - refine (proj1 (depth_selects_encode_format (root_env 24)
                     (fst (main (root_env 24))) (snd (main (root_env 24)))
                     1 0 0 1920 1080
                     {| depth := 24; width := 1920; height := 1080;
                        bytes_per_line := 7680 |} _ _ _) _).
    + vm_compute. reflexivity.
    + vm_compute. right. right. left. reflexivity.
    + vm_compute. reflexivity.
    + reflexivity.
  - refine (proj1 (proj2 (depth_selects_encode_format (root_env 32)
                     (fst (main (root_env 32))) (snd (main (root_env 32)))
                     1 0 0 1920 1080
                     {| depth := 32; width := 1920; height := 1080;
                        bytes_per_line := 7680 |} _ _ _)) _).
    + vm_compute. reflexivity.
    + vm_compute. right. right. left. reflexivity.
    + vm_compute. reflexivity.
    + reflexivity.
  - refine (proj2 (proj2 (proj2 (depth_selects_encode_format (root_env 16)
                     (fst (main (root_env 16))) (snd (main (root_env 16)))
                     1 0 0 1920 1080
                     {| depth := 16; width := 1920; height := 1080;
                        bytes_per_line := 7680 |} _ _ _))) _ _).
    + vm_compute. reflexivity.
    + vm_compute. right. right. left. reflexivity.
    + vm_compute. reflexivity.
    + discriminate.
    + discriminate.
Defined.

(** C8: in every run that exits with status 0, the log reads: calls that
    neither create nor map the feedback window and hand nothing to cairo;
    then [XGetImage]; then the feedback window is created over the captured
    rectangle, given its opacity property, mapped, shown for
    [kVisualFeedbackWindowDisplayTimeMs] and destroyed; and only then the
    cairo surface is created and written to the PNG file. *)
Theorem feedback_window_after_read_before_encode env w :
  main env = (Exit 0, w) ->
  exists before win x y wd ht fb image,
    log w =
    before
    ++ [XGetImage win x y wd ht;
        XCreateWindow fb x y wd ht;
        XInternAtom "_NET_WM_WINDOW_OPACITY";
        XChangeProperty fb kVisualFeedbackWindowOpacity_times_max;
        XMapWindow fb;
        XFlush;
        usleep (kVisualFeedbackWindowDisplayTimeMs * 1000);
        XDestroyWindow fb;
        XFlush;
        cairo_image_surface_create_for_data
          (if depth image =? 24 then CAIRO_FORMAT_RGB24
           else CAIRO_FORMAT_ARGB32)
          (width image) (height image) (bytes_per_line image);
        cairo_surface_write_to_png (filename env);
        cairo_surface_destroy; XDestroyImage; XCloseDisplay]
    /\ get_image env win x y wd ht = Some image
    /\ forallb (fun c => negb (shows_window fb c)) before = true
    /\ forallb (fun c => negb (is_encode_call c)) before = true.
Proof.
  intros Hmain.
  destruct (main_runs env)
    as (w1 & Hpre & [(t' & E & Ht & _)
                    | (win & t' & calls & w'' & E & Hlog & _ & Hrun)]);
    rewrite Hmain in E; injection E as <- <-.
  { contradiction. }
  inversion Hrun as [| | | | image Hi Hd Hs Hw]; subst; clear Hrun.
  exists (log w1), win, (val_shot_x (frame w1)), (val_shot_y (frame w1)),
    (val_shot_width (frame w1)), (val_shot_height (frame w1)),
    (next_xid w1), image.
  split; [ exact Hlog |]. split; [ exact Hi |].
  split; apply forallb_forall; intros c Hc;
    apply (In_forallb _ _ _ Hpre) in Hc;
    destruct (prelude_not_capture env _ c Hc) as (H1 & _ & H3);
    [ rewrite H3 | rewrite H1 ]; reflexivity.
Qed.

Lemma feedback_window_after_read_before_encode_witness :
  exists before win x y wd ht fb image,
    log (snd (main drag_env)) =
    before
    ++ [XGetImage win x y wd ht;
        XCreateWindow fb x y wd ht;
        XInternAtom "_NET_WM_WINDOW_OPACITY";
        XChangeProperty fb kVisualFeedbackWindowOpacity_times_max;
        XMapWindow fb;
        XFlush;
        usleep (kVisualFeedbackWindowDisplayTimeMs * 1000);
        XDestroyWindow fb;
        XFlush;
        cairo_image_surface_create_for_data
          (if depth image =? 24 then CAIRO_FORMAT_RGB24
           else CAIRO_FORMAT_ARGB32)
          (width image) (height image) (bytes_per_line image);
        cairo_surface_write_to_png (filename drag_env);
        cairo_surface_destroy; XDestroyImage; XCloseDisplay]
    /\ get_image drag_env win x y wd ht = Some image
    /\ forallb (fun c => negb (shows_window fb c)) before = true
    /\ forallb (fun c => negb (is_encode_call c)) before = true.
Proof.
  apply (feedback_window_after_read_before_encode drag_env
           (snd (main drag_env))).
  vm_compute. reflexivity.
Defined.

(** With the region flag, a run that gets past the usage check and opens
    the display asks for the geometry of the root window next. *)
Lemma main_region_geometry env :
  argc env = 2 -> display_opens env = true -> FLAGS_region env = true ->
  exists rest,
    log (snd (main env)) =
    XOpenDisplay :: XGetGeometry (DefaultRootWindow env) :: rest.
Proof.
  intros Ha Hd Hr. unfold main. rewrite main_body_eq. unfold bind at 1.
  unfold main_prelude. rewrite Ha. cbn [Z.eqb Pos.eqb negb].
  rewrite bind_call. unfold CHECK. rewrite Hd, bind_ret.
  rewrite Hr, orb_true_r, bind_ret.
  destruct (measure_and_select_runs env (DefaultRootWindow env)
              (logged (initial_world env) [XOpenDisplay]) (fun _ => eq_refl))
    as (o & w1 & calls & E & Hlog & _ & _ & _).
  rewrite E. cbn in Hlog.
  destruct o as [win | t].
  - destruct (capture_runs env win w1) as (t & calls2 & w & Ec & Hlog2 & _).
    rewrite Ec. cbn [snd]. rewrite Hlog2, Hlog.
    exists (calls ++ calls2). reflexivity.
  - cbn [snd]. rewrite Hlog. exists calls. reflexivity.
Qed.

(** C9: with the region flag set, the value of the window flag is never
    handed to the hexadecimal extraction, the run does not end in the
    parse [CHECK], and every geometry query and every image read is made on
    the root window; if the run gets as far as opening the display, the
    geometry of the root window is queried. *)
Theorem region_flag_ignores_window_flag env t w :
  FLAGS_region env = true ->
  main env = (t, w) ->
  (forall s, ~ In (IstreamExtractHex s) (log w))
  /\ t <> CheckFailed CheckParseWindow
  /\ (forall win, In (XGetGeometry win) (log w) ->
                  win = DefaultRootWindow env)
  /\ (forall win x y wd ht,
        In (XGetImage win x y wd ht) (log w) -> win = DefaultRootWindow env)
  /\ (argc env = 2 -> display_opens env = true ->
      In (XGetGeometry (DefaultRootWindow env)) (log w)).
Proof.
  intros Hr Hmain.
  assert (Hgeo : argc env = 2 -> display_opens env = true ->
                 In (XGetGeometry (DefaultRootWindow env)) (log w)).
  { intros Ha Hd.
    destruct (main_region_geometry env Ha Hd Hr) as (rest & Hlog).
    rewrite Hmain in Hlog. cbn [snd] in Hlog. rewrite Hlog.
    right. left. reflexivity. }
  assert (Hpc : forall b c, prelude_call env b c = true ->
                  (forall s, c <> IstreamExtractHex s)
                  /\ (forall win, c = XGetGeometry win ->
                                  win = DefaultRootWindow env)
                  /\ (forall win x y wd ht, c <> XGetImage win x y wd ht)).
  { intros b c. destruct c; cbn; rewrite ?Hr; cbn; intros H;
      repeat split; try discriminate; try congruence.
    intros win Hc. injection Hc as <-. apply Z.eqb_eq. exact H. }
  destruct (main_runs env)
    as (w1 & Hpre & [(t' & E & _ & Ht)
                    | (win0 & t' & calls & w'' & E & Hlog & Hwin & Hrun)]);
    rewrite Hmain in E; injection E as <- <-.
  - (* the run ended before the capture *)
    split; [| split; [| split; [| split ]]].
    + intros s Hin. apply (In_forallb _ _ _ Hpre) in Hin.
      destruct (Hpc _ _ Hin) as (H & _). exact (H s eq_refl).
    + apply Ht. exact Hr.
    + intros win Hin. apply (In_forallb _ _ _ Hpre) in Hin.
      destruct (Hpc _ _ Hin) as (_ & H & _). apply H. reflexivity.
    + intros win x y wd ht Hin. apply (In_forallb _ _ _ Hpre) in Hin.
      destruct (Hpc _ _ Hin) as (_ & _ & H). exfalso. eapply H. reflexivity.
    + exact Hgeo.
  - (* the run went through the capture *)
    assert (Hcc := capture_run_calls _ _ _ _ _ _ _ _ _ Hrun).
    rewrite (Hwin Hr) in *.
    split; [| split; [| split; [| split ]]].
    + intros s Hin. rewrite Hlog in Hin. apply in_app_or in Hin.
      destruct Hin as [Hin | Hin].
      * apply (In_forallb _ _ _ Hpre) in Hin.
        destruct (Hpc _ _ Hin) as (H & _). exact (H s eq_refl).
      * apply (In_forallb _ _ _ Hcc) in Hin. discriminate Hin.
    + inversion Hrun; discriminate.
    + intros win Hin. rewrite Hlog in Hin. apply in_app_or in Hin.
      destruct Hin as [Hin | Hin].
      * apply (In_forallb _ _ _ Hpre) in Hin.
        destruct (Hpc _ _ Hin) as (_ & H & _). apply H. reflexivity.
      * apply (In_forallb _ _ _ Hcc) in Hin. discriminate Hin.
    + intros win x y wd ht Hin. rewrite Hlog in Hin.
      apply in_app_or in Hin. destruct Hin as [Hin | Hin].
      * apply (In_forallb _ _ _ Hpre) in Hin.
        destruct (Hpc _ _ Hin) as (_ & _ & H). exfalso. eapply H.
        reflexivity.
      * apply (In_forallb _ _ _ Hcc) in Hin. cbn in Hin.
        apply Z.eqb_eq. exact Hin.
    + exact Hgeo.
Qed.

Lemma region_flag_ignores_window_flag_witness :
  (forall s, ~ In (IstreamExtractHex s) (log (snd (main region_not_hex_env))))
  /\ fst (main region_not_hex_env) <> CheckFailed CheckParseWindow
  /\ (forall win,
        In (XGetGeometry win) (log (snd (main region_not_hex_env))) ->
        win = DefaultRootWindow region_not_hex_env)
  /\ (forall win x y wd ht,
        In (XGetImage win x y wd ht) (log (snd (main region_not_hex_env))) ->
        win = DefaultRootWindow region_not_hex_env)
  /\ (argc region_not_hex_env = 2 ->
      display_opens region_not_hex_env = true ->
      In (XGetGeometry (DefaultRootWindow region_not_hex_env))
        (log (snd (main region_not_hex_env)))).
Proof.
  refine (region_flag_ignores_window_flag region_not_hex_env
            (fst (main region_not_hex_env)) (snd (main region_not_hex_env))
            _ _).
  - reflexivity.
  - vm_compute. reflexivity.
Defined.

(** The run of [region_not_hex_env]: the drag is captured and saved. *)
Example region_not_hex_run :
  fst (main region_not_hex_env) = Exit 0
  /\ frame (snd (main region_not_hex_env)) =
     {| val_shot_x := 10; val_shot_y := 10;
        val_shot_width := 40; val_shot_height := 40 |}.
Proof. vm_compute. split; reflexivity. Qed.

(** C7, as stated, fails twice.  Without the region flag the window id
    "not-hex" does end the run in the parse [CHECK], but only after the
    display has been opened.  With the region flag the same value is never
    parsed, and the run exits with status 0 after writing the PNG. *)
Lemma unparsable_window_counterexample :
  extract_hex not_hex_env (FLAGS_window not_hex_env) = None
  /\ fst (main not_hex_env) = CheckFailed CheckParseWindow
  /\ existsb is_display_call (log (snd (main not_hex_env))) = true
  /\ extract_hex region_not_hex_env (FLAGS_window region_not_hex_env) = None
  /\ fst (main region_not_hex_env) = Exit 0
  /\ existsb is_encode_call (log (snd (main region_not_hex_env))) = true.
Proof. vm_compute. repeat split; reflexivity. Qed.

(** C7, amended: without the region flag, a window id that is supplied and
    fails to parse as hexadecimal makes the run fail, and the only thing
    done with the display before that is to open it.  With a wrong argument
    count the run shows the usage and exits with status 1; when the display
    cannot be opened it ends in the display [CHECK]; otherwise it ends in
    the parse [CHECK] right after the extraction. *)
Theorem unparsable_window_fails_after_open env :
  FLAGS_region env = false ->
  FLAGS_window env <> ""%string ->
  extract_hex env (FLAGS_window env) = None ->
  (argc env <> 2 ->
   main env = (Exit 1, logged (initial_world env) [ShowUsageWithFlags]))
  /\ (argc env = 2 -> display_opens env = false ->
      main env =
      (CheckFailed CheckDisplay, logged (initial_world env) [XOpenDisplay]))
  /\ (argc env = 2 -> display_opens env = true ->
      main env =
      (CheckFailed CheckParseWindow,
       logged (initial_world env)
         [XOpenDisplay; IstreamExtractHex (FLAGS_window env)])).
Proof.
  intros Hr Hw Hx.
  apply String.eqb_neq in Hw.
  split; [| split ]; intros Ha; [| intros Hd | intros Hd ];
    unfold main; rewrite main_body_eq; unfold bind at 1;
    unfold main_prelude.
  - apply Z.eqb_neq in Ha. rewrite Ha. reflexivity.
  - rewrite Ha. cbn [Z.eqb Pos.eqb negb].
    rewrite bind_call. unfold CHECK. rewrite Hd. reflexivity.
  - rewrite Ha. cbn [Z.eqb Pos.eqb negb].
    rewrite bind_call. unfold CHECK. rewrite Hd, bind_ret.
    rewrite Hr, Hw. cbn [orb].
    unfold bind at 1. rewrite bind_call, Hx. reflexivity.
Qed.

Lemma unparsable_window_fails_after_open_witness :
  main not_hex_env =
  (CheckFailed CheckParseWindow,
   logged (initial_world not_hex_env)
     [XOpenDisplay; IstreamExtractHex (FLAGS_window not_hex_env)]).
Proof.
  refine (proj2 (proj2 (unparsable_window_fails_after_open not_hex_env
                          _ _ _)) _ _).
  - reflexivity.
  - discriminate.
  - reflexivity.
  - reflexivity.
  - reflexivity.
Defined.

(** ** The scenarios of the specification *)

(** Scenario A: no flags on a 1920x1080 display: the whole root window is
    read and saved. *)
Example scenario_A :
  fst (main (root_env 24)) = Exit 0
  /\ In (XGetImage 1 0 0 1920 1080) (log (snd (main (root_env 24)))).
Proof. vm_compute. split; [ reflexivity | auto 10 ]. Qed.

(** Scenario C: a drag from (50, 50) to (10, 10) gives the rectangle
    {10, 10, 40, 40}. *)
Example scenario_C :
  fst (main drag_env) = Exit 0
  /\ frame (snd (main drag_env)) =
     {| val_shot_x := 10; val_shot_y := 10;
        val_shot_width := 40; val_shot_height := 40 |}.
Proof. vm_compute. split; reflexivity. Qed.

(** Scenario D: Escape before any button press: exit status 1, nothing
    read and nothing written. *)
Example scenario_D :
  fst (main abort_env) = Exit 1
  /\ forallb (fun c => negb (is_encode_call c)) (log (snd (main abort_env)))
     = true
  /\ frame (snd (main abort_env)) =
     {| val_shot_x := 0; val_shot_y := 0;
        val_shot_width := 1920; val_shot_height := 1080 |}.
Proof. vm_compute. repeat split; reflexivity. Qed.

(** * Further properties of the selector and of [main] *)

(** ** The border windows frame the dragged rectangle *)

Lemma in_rect_true (r : Rect) (px py : Z) :
  in_rect r px py = true <->
  let '(x, y, wd, ht) := r in x <= px < x + wd /\ y <= py < y + ht.
Proof.
  destruct r as [[[x y] wd] ht]. unfold in_rect.
  rewrite !andb_true_iff, !Z.leb_le, !Z.ltb_lt. lia.
Qed.

Lemma in_rect_false (r : Rect) (px py : Z) :
  in_rect r px py = false <->
  let '(x, y, wd, ht) := r in ~ (x <= px < x + wd /\ y <= py < y + ht).
Proof.
  rewrite <- not_true_iff_false, in_rect_true.
  destruct r as [[[x y] wd] ht]. reflexivity.
Qed.

Lemma sub_small (a b : Z) :
  CInt.in_int (a - b) -> CInt.sub a b = a - b.
Proof. apply wrap_small. Qed.

Lemma add_small (a b : Z) :
  CInt.in_int (a + b) -> CInt.add a b = a + b.
Proof. apply wrap_small. Qed.

Lemma to_unsigned_small (z : Z) :
  0 <= z < 2 ^ 32 -> CInt.to_unsigned z = z.
Proof. intros H. unfold CInt.to_unsigned. apply Z.mod_small. exact H. Qed.

(** [ConfigureWindows] makes exactly the four moves to the border
    rectangles; no intermediate [int] wraps. *)
Lemma ConfigureWindows_moves this sx sy dx dy :
  coordinate sx -> coordinate sy -> coordinate dx -> coordinate dy ->
  emits (ConfigureWindows this sx sy dx dy) tt
    [move_call (left_win_ this) (left_border sx sy dx dy);
     move_call (right_win_ this) (right_border sx sy dx dy);
     move_call (top_win_ this) (top_border sx sy dx dy);
     move_call (bottom_win_ this) (bottom_border sx sy dx dy)].
Proof.
  unfold coordinate. intros Hsx Hsy Hdx Hdy.
  eapply emits_eq; [ unfold ConfigureWindows; emit |].
  cbn [app]. unfold move_call, left_border, right_border, top_border,
    bottom_border, kBorder.
  assert (Hint : forall z, - 2 ^ 31 <= z <= 2 ^ 31 - 1 -> CInt.in_int z).
  { intros z Hz. unfold CInt.in_int, CInt.int_min, CInt.int_max. exact Hz. }
  change (CInt.mul 2 2) with 4.
  change (CInt.to_unsigned 2) with 2.
  rewrite (sub_small (Z.min dx sx) 2) by (apply Hint; lia).
  rewrite (sub_small (Z.min dy sy) 2) by (apply Hint; lia).
  rewrite (sub_small (Z.max dy sy) (Z.min dy sy)) by (apply Hint; lia).
  rewrite (sub_small (Z.max dx sx) (Z.min dx sx)) by (apply Hint; lia).
  rewrite (add_small (Z.max dx sx - Z.min dx sx) 4) by (apply Hint; lia).
  rewrite !to_unsigned_small by lia.
  reflexivity.
Qed.

(** X1: for pointer positions in range, [ConfigureWindows] moves the four
    border windows so that together they cover exactly the ring of width
    [kBorder] around the dragged rectangle; unless the rectangle has height
    0, no pixel is covered by two of them. *)
Theorem border_windows_frame_dragged_rectangle this sx sy dx dy :
  coordinate sx -> coordinate sy -> coordinate dx -> coordinate dy ->
  emits (ConfigureWindows this sx sy dx dy) tt
    [move_call (left_win_ this) (left_border sx sy dx dy);
     move_call (right_win_ this) (right_border sx sy dx dy);
     move_call (top_win_ this) (top_border sx sy dx dy);
     move_call (bottom_win_ this) (bottom_border sx sy dx dy)]
  /\ (forall px py,
        in_rect (left_border sx sy dx dy) px py
        || in_rect (right_border sx sy dx dy) px py
        || in_rect (top_border sx sy dx dy) px py
        || in_rect (bottom_border sx sy dx dy) px py =
        in_rect (grown_rect kBorder sx sy dx dy) px py
        && negb (in_rect (dragged_rect sx sy dx dy) px py))
  /\ (sy <> dy ->
      forall px py,
        Z.b2z (in_rect (left_border sx sy dx dy) px py)
        + Z.b2z (in_rect (right_border sx sy dx dy) px py)
        + Z.b2z (in_rect (top_border sx sy dx dy) px py)
        + Z.b2z (in_rect (bottom_border sx sy dx dy) px py) <= 1).
Proof.
  intros Hsx Hsy Hdx Hdy.
  split; [ apply ConfigureWindows_moves; assumption |].
  split.
  - intros px py. apply eq_iff_eq_true.
    rewrite !orb_true_iff, andb_true_iff, negb_true_iff.
    rewrite !in_rect_true, in_rect_false.
    unfold left_border, right_border, top_border, bottom_border,
      grown_rect, dragged_rect, kBorder. lia.
  - intros Hne px py.
    destruct (in_rect (left_border sx sy dx dy) px py) eqn:El;
      destruct (in_rect (right_border sx sy dx dy) px py) eqn:Er;
      destruct (in_rect (top_border sx sy dx dy) px py) eqn:Et;
      destruct (in_rect (bottom_border sx sy dx dy) px py) eqn:Eb;
      cbn [Z.b2z]; try lia;
      rewrite ?in_rect_true, ?in_rect_false in *;
      unfold left_border, right_border, top_border, bottom_border in *;
      lia.
Qed.

Lemma border_windows_frame_dragged_rectangle_witness :
  emits (ConfigureWindows (selector_at drag_env 100) 50 50 30 30) tt
    [XMoveResizeWindow 101 28 30 2 20; XMoveResizeWindow 102 50 30 2 20;
     XMoveResizeWindow 103 28 28 24 2; XMoveResizeWindow 104 28 50 24 2]
  /\ (forall px py,
        in_rect (left_border 50 50 30 30) px py
        || in_rect (right_border 50 50 30 30) px py
        || in_rect (top_border 50 50 30 30) px py
        || in_rect (bottom_border 50 50 30 30) px py =
        in_rect (grown_rect kBorder 50 50 30 30) px py
        && negb (in_rect (dragged_rect 50 50 30 30) px py))
  /\ (50 <> 30 ->
      forall px py,
        Z.b2z (in_rect (left_border 50 50 30 30) px py)
        + Z.b2z (in_rect (right_border 50 50 30 30) px py)
        + Z.b2z (in_rect (top_border 50 50 30 30) px py)
        + Z.b2z (in_rect (bottom_border 50 50 30 30) px py) <= 1).
Proof.
  apply (border_windows_frame_dragged_rectangle
           (selector_at drag_env 100) 50 50 30 30);
    unfold coordinate; lia.
Defined.

(** A drag of height 0: the left and the bottom border window overlap. *)
Example flat_drag_borders_overlap :
  in_rect (left_border 50 50 30 50) 28 50 = true
  /\ in_rect (bottom_border 50 50 30 50) 28 50 = true.
Proof. split; reflexivity. Qed.

(** ** The borders on the screen during a drag *)

Lemma distinct_borders_eqb this :
  distinct_borders this ->
  (left_win_ this =? right_win_ this) = false
  /\ (left_win_ this =? top_win_ this) = false
  /\ (left_win_ this =? bottom_win_ this) = false
  /\ (right_win_ this =? top_win_ this) = false
  /\ (right_win_ this =? bottom_win_ this) = false
  /\ (top_win_ this =? bottom_win_ this) = false.
Proof.
  unfold distinct_borders. intros H.
  inversion H as [| a l Ha Hl]; subst.
  inversion Hl as [| b l' Hb Hl']; subst.
  inversion Hl' as [| c l'' Hc Hl'']; subst.
  cbn in Ha, Hb, Hc.
  repeat split; apply Z.eqb_neq; intros E; rewrite E in *; tauto.
Qed.

(** X2: a pointer motion during a drag leaves the drag state with the new
    end point and, when the four border windows are different windows,
    leaves each of them at its border rectangle for the start point and the
    pointer position. *)
Theorem motion_reframes_border_windows env this x y queue v w :
  alive v = true ->
  dragging v = true ->
  distinct_borders this ->
  coordinate (start_x v) -> coordinate (start_y v) ->
  coordinate x -> coordinate y ->
  exists w',
    event_loop env (MotionNotify x y :: queue) this v w =
    event_loop env queue this
      {| done := done v; dragging := dragging v; aborted := aborted v;
         start_x := start_x v; start_y := start_y v;
         end_x := x; end_y := y |} w'
    /\ pending w' = queue
    /\ (forall current,
          window_geometry (left_win_ this) (log w') current =
          Some (left_border (start_x v) (start_y v) x y)
          /\ window_geometry (right_win_ this) (log w') current =
             Some (right_border (start_x v) (start_y v) x y)
          /\ window_geometry (top_win_ this) (log w') current =
             Some (top_border (start_x v) (start_y v) x y)
          /\ window_geometry (bottom_win_ this) (log w') current =
             Some (bottom_border (start_x v) (start_y v) x y)).
Proof.
  intros Hv Hd Hdist Hsx Hsy Hx Hy.
  destruct (distinct_borders_eqb this Hdist)
    as (Hlr & Hlt & Hlb & Hrt & Hrb & Htb).
  assert (He : emits (handle_event env this (MotionNotify x y) v)
                 {| done := done v; dragging := dragging v;
                    aborted := aborted v;
                    start_x := start_x v; start_y := start_y v;
                    end_x := x; end_y := y |}
                 ([move_call (left_win_ this)
                     (left_border (start_x v) (start_y v) x y);
                   move_call (right_win_ this)
                     (right_border (start_x v) (start_y v) x y);
                   move_call (top_win_ this)
                     (top_border (start_x v) (start_y v) x y);
                   move_call (bottom_win_ this)
                     (bottom_border (start_x v) (start_y v) x y)] ++ [])).
  { cbn [handle_event]. rewrite Hd.
    eapply emits_bind; [| apply emits_ret ].
    apply ConfigureWindows_moves; assumption. }
  eexists. split; [| split ].
  - apply (event_loop_step_emits env this _ queue v _ _ w Hv He).
  - reflexivity.
  - intros current. cbn [log logged set_log set_pending].
    rewrite !window_geometry_app.
    unfold left_border, right_border, top_border, bottom_border, move_call.
    cbn [app window_geometry].
    rewrite !Z.eqb_refl.
    rewrite (Z.eqb_sym (right_win_ this) (left_win_ this)), Hlr.
    rewrite (Z.eqb_sym (top_win_ this) (left_win_ this)), Hlt.
    rewrite (Z.eqb_sym (bottom_win_ this) (left_win_ this)), Hlb.
    rewrite (Z.eqb_sym (top_win_ this) (right_win_ this)), Hrt.
    rewrite (Z.eqb_sym (bottom_win_ this) (right_win_ this)), Hrb.
    rewrite (Z.eqb_sym (bottom_win_ this) (top_win_ this)), Htb.
    rewrite ?Hlr, ?Hlt, ?Hlb, ?Hrt, ?Hrb, ?Htb.
    repeat split; reflexivity.
Qed.

Lemma motion_reframes_border_windows_witness :
  let this := selector_at drag_env 100 in
  let v := {| done := false; dragging := true; aborted := false;
              start_x := 50; start_y := 50; end_x := 0; end_y := 0 |} in
  exists w',
    event_loop drag_env [MotionNotify 30 30; ButtonRelease 10 10] this v
      (initial_world drag_env) =
    event_loop drag_env [ButtonRelease 10 10] this
      {| done := done v; dragging := dragging v; aborted := aborted v;
         start_x := start_x v; start_y := start_y v;
         end_x := 30; end_y := 30 |} w'
    /\ pending w' = [ButtonRelease 10 10]
    /\ (forall current,
          window_geometry (left_win_ this) (log w') current =
          Some (left_border (start_x v) (start_y v) 30 30)
          /\ window_geometry (right_win_ this) (log w') current =
             Some (right_border (start_x v) (start_y v) 30 30)
          /\ window_geometry (top_win_ this) (log w') current =
             Some (top_border (start_x v) (start_y v) 30 30)
          /\ window_geometry (bottom_win_ this) (log w') current =
             Some (bottom_border (start_x v) (start_y v) 30 30)).
Proof.
  cbv zeta.
  apply (motion_reframes_border_windows drag_env (selector_at drag_env 100)
           30 30 [ButtonRelease 10 10]
           {| done := false; dragging := true; aborted := false;
              start_x := 50; start_y := 50; end_x := 0; end_y := 0 |}
           (initial_world drag_env)).
  - reflexivity.
  - reflexivity.
  - unfold distinct_borders; cbn.
    repeat constructor; cbn; intuition discriminate.
  - unfold coordinate; cbn; lia.
  - unfold coordinate; cbn; lia.
  - unfold coordinate; lia.
  - unfold coordinate; lia.
Defined.

(** ** What [PaintWindow] paints *)

Ltac paint_arith sx sy dx dy :=
  unfold kBorder, kInteriorBorder;
  change (CInt.sub 2 1) with 1;
  change (CInt.mul 2 2) with 4;
  change (CInt.mul 2 1) with 2;
  change (CInt.to_unsigned 1) with 1;
  rewrite ?(sub_small (Z.max sx dx) (Z.min sx dx))
    by (unfold CInt.in_int, CInt.int_min, CInt.int_max; lia);
  rewrite ?(sub_small (Z.max sy dy) (Z.min sy dy))
    by (unfold CInt.in_int, CInt.int_min, CInt.int_max; lia);
  rewrite ?(add_small (Z.max sx dx - Z.min sx dx) 4)
    by (unfold CInt.in_int, CInt.int_min, CInt.int_max; lia);
  rewrite ?(add_small (Z.max sx dx - Z.min sx dx) 2)
    by (unfold CInt.in_int, CInt.int_min, CInt.int_max; lia);
  rewrite ?(add_small 2 (Z.max sx dx - Z.min sx dx))
    by (unfold CInt.in_int, CInt.int_min, CInt.int_max; lia);
  rewrite ?(add_small (2 + (Z.max sx dx - Z.min sx dx)) 1)
    by (unfold CInt.in_int, CInt.int_min, CInt.int_max; lia);
  rewrite ?to_unsigned_small by lia.

(** The fills of each border window, in plain arithmetic. *)
Lemma PaintWindow_left this sx sy dx dy :
  coordinate sx -> coordinate sy -> coordinate dx -> coordinate dy ->
  emits (PaintWindow this (left_win_ this) sx sy dx dy) tt
    [XFillRectangle (left_win_ this) (black_gc_ this)
       0 0 1 (Z.max sy dy - Z.min sy dy);
     XFillRectangle (left_win_ this) (white_gc_ this)
       1 0 1 (Z.max sy dy - Z.min sy dy)].
Proof.
  unfold coordinate. intros Hsx Hsy Hdx Hdy.
  unfold PaintWindow. rewrite Z.eqb_refl.
  eapply emits_eq; [ emit |]. cbn [app].
  paint_arith sx sy dx dy. reflexivity.
Qed.

Lemma PaintWindow_right this sx sy dx dy :
  distinct_borders this ->
  coordinate sx -> coordinate sy -> coordinate dx -> coordinate dy ->
  emits (PaintWindow this (right_win_ this) sx sy dx dy) tt
    [XFillRectangle (right_win_ this) (black_gc_ this)
       1 0 1 (Z.max sy dy - Z.min sy dy);
     XFillRectangle (right_win_ this) (white_gc_ this)
       0 0 1 (Z.max sy dy - Z.min sy dy)].
Proof.
  unfold coordinate. intros Hdist Hsx Hsy Hdx Hdy.
  destruct (distinct_borders_eqb this Hdist) as (Hlr & _).
  unfold PaintWindow.
  rewrite (Z.eqb_sym (right_win_ this) (left_win_ this)), Hlr, Z.eqb_refl.
  eapply emits_eq; [ emit |]. cbn [app].
  paint_arith sx sy dx dy. reflexivity.
Qed.

Lemma PaintWindow_top this sx sy dx dy :
  distinct_borders this ->
  coordinate sx -> coordinate sy -> coordinate dx -> coordinate dy ->
  emits (PaintWindow this (top_win_ this) sx sy dx dy) tt
    [XFillRectangle (top_win_ this) (black_gc_ this)
       0 0 (Z.max sx dx - Z.min sx dx + 4) 1;
     XFillRectangle (top_win_ this) (black_gc_ this) 0 1 1 1;
     XFillRectangle (top_win_ this) (black_gc_ this)
       (2 + (Z.max sx dx - Z.min sx dx) + 1) 1 1 1;
     XFillRectangle (top_win_ this) (white_gc_ this)
       1 1 (Z.max sx dx - Z.min sx dx + 2) 1].
Proof.
  unfold coordinate. intros Hdist Hsx Hsy Hdx Hdy.
  destruct (distinct_borders_eqb this Hdist) as (_ & Hlt & _ & Hrt & _).
  unfold PaintWindow.
  rewrite (Z.eqb_sym (top_win_ this) (left_win_ this)), Hlt.
  rewrite (Z.eqb_sym (top_win_ this) (right_win_ this)), Hrt, Z.eqb_refl.
  eapply emits_eq; [ emit |]. cbn [app].
  paint_arith sx sy dx dy. reflexivity.
Qed.

Lemma PaintWindow_bottom this sx sy dx dy :
  distinct_borders this ->
  coordinate sx -> coordinate sy -> coordinate dx -> coordinate dy ->
  emits (PaintWindow this (bottom_win_ this) sx sy dx dy) tt
    [XFillRectangle (bottom_win_ this) (black_gc_ this)
       0 1 (Z.max sx dx - Z.min sx dx + 4) 1;
     XFillRectangle (bottom_win_ this) (black_gc_ this) 0 0 1 1;
     XFillRectangle (bottom_win_ this) (black_gc_ this)
       (2 + (Z.max sx dx - Z.min sx dx) + 1) 0 1 1;
     XFillRectangle (bottom_win_ this) (white_gc_ this)
       1 0 (Z.max sx dx - Z.min sx dx + 2) 1].
Proof.
  unfold coordinate. intros Hdist Hsx Hsy Hdx Hdy.
  destruct (distinct_borders_eqb this Hdist)
    as (_ & _ & Hlb & _ & Hrb & Htb).
  unfold PaintWindow.
  rewrite (Z.eqb_sym (bottom_win_ this) (left_win_ this)), Hlb.
  rewrite (Z.eqb_sym (bottom_win_ this) (right_win_ this)), Hrb.
  rewrite (Z.eqb_sym (bottom_win_ this) (top_win_ this)), Htb, Z.eqb_refl.
  eapply emits_eq; [ emit |]. cbn [app].
  paint_arith sx sy dx dy. reflexivity.
Qed.

Ltac paint_cases :=
  intros px py;
  unfold left_border, right_border, top_border, bottom_border,
    grown_rect, kInteriorBorder;
  cbn [fills_at];
  repeat match goal with
         | |- context [in_rect ?r ?a ?b] =>
             let E := fresh "E" in destruct (in_rect r a b) eqn:E
         end;
  try reflexivity; exfalso;
  rewrite ?in_rect_true, ?in_rect_false in *;
  cbv beta iota zeta in *; lia.

(** X3: a border window is repainted from the start point and the pointer
    position alone.  When the four border windows are different windows
    and the dragged rectangle has a height, the fills of [PaintWindow] on a
    border window paint every pixel of the rectangle [ConfigureWindows]
    gives that window exactly once, and nothing outside it: white on the
    ring of width [kInteriorBorder] around the dragged rectangle, black on
    the rest. *)
Theorem PaintWindow_tiles_border this sx sy dx dy win r :
  distinct_borders this ->
  coordinate sx -> coordinate sy -> coordinate dx -> coordinate dy ->
  sy <> dy ->
  In (win, r)
    [(left_win_ this, left_border sx sy dx dy);
     (right_win_ this, right_border sx sy dx dy);
     (top_win_ this, top_border sx sy dx dy);
     (bottom_win_ this, bottom_border sx sy dx dy)] ->
  exists fills,
    emits (PaintWindow this win sx sy dx dy) tt fills
    /\ forall px py,
         fills_at fills (px - fst (fst (fst r))) (py - snd (fst (fst r))) =
         if in_rect r px py then
           [if in_rect (grown_rect kInteriorBorder sx sy dx dy) px py
            then white_gc_ this else black_gc_ this]
         else [].
Proof.
  intros Hdist Hsx Hsy Hdx Hdy Hne Hin.
  assert (Hc := conj Hsx (conj Hsy (conj Hdx Hdy))).
  unfold coordinate in Hc.
  cbn [In] in Hin.
  destruct Hin as [E | [E | [E | [E | []]]]]; injection E as <- <-;
    cbn [fst snd].
  - eexists. split; [ apply PaintWindow_left; assumption |].
    unfold left_border; cbn [fst snd]. paint_cases.
  - eexists. split; [ apply PaintWindow_right; assumption |].
    unfold right_border; cbn [fst snd]. paint_cases.
  - eexists. split; [ apply PaintWindow_top; assumption |].
    unfold top_border; cbn [fst snd]. paint_cases.
  - eexists. split; [ apply PaintWindow_bottom; assumption |].
    unfold bottom_border; cbn [fst snd]. paint_cases.
Qed.

Lemma PaintWindow_tiles_border_witness :
  exists fills,
    emits (PaintWindow (selector_at drag_env 100) 103 50 50 30 30) tt fills
    /\ forall px py,
         fills_at fills
           (px - fst (fst (fst (top_border 50 50 30 30))))
           (py - snd (fst (fst (top_border 50 50 30 30)))) =
         if in_rect (top_border 50 50 30 30) px py then
           [if in_rect (grown_rect kInteriorBorder 50 50 30 30) px py
            then white_gc_ (selector_at drag_env 100)
            else black_gc_ (selector_at drag_env 100)]
         else [].
Proof.
  apply (PaintWindow_tiles_border (selector_at drag_env 100) 50 50 30 30
           103 (top_border 50 50 30 30)).
  - unfold distinct_borders; cbn.
    repeat constructor; cbn; intuition discriminate.
  - unfold coordinate; lia.
  - unfold coordinate; lia.
  - unfold coordinate; lia.
  - unfold coordinate; lia.
  - discriminate.
  - right. right. left. reflexivity.
Defined.

(** ** An idle selection *)

Lemma PaintWindow_only_fills this win sx sy dx dy :
  exists calls,
    emits (PaintWindow this win sx sy dx dy) tt calls
    /\ forallb idle_call calls = true.
Proof.
  unfold PaintWindow.
  destruct (win =? left_win_ this);
    [| destruct (win =? right_win_ this);
       [| destruct (win =? top_win_ this);
          [| destruct (win =? bottom_win_ this) ]]];
    (eexists; split; [ emit | reflexivity ]).
Qed.

Lemma handle_idle_noise env this event v :
  dragging v = false ->
  idle_noise env event = true ->
  exists calls,
    emits (handle_event env this event v) v calls
    /\ forallb idle_call calls = true.
Proof.
  intros Hd Hn.
  destruct event as [x y | x y | win | keycode | x y | ty];
    cbn [handle_event]; cbn in Hn; try discriminate; rewrite ?Hd.
  - exists []. split; [ apply emits_ret | reflexivity ].
  - destruct (PaintWindow_only_fills this win (start_x v) (start_y v)
                (end_x v) (end_y v)) as (calls & He & Hc).
    exists (calls ++ []). split.
    + eapply emits_bind; [ exact He | apply emits_ret ].
    + rewrite app_nil_r. exact Hc.
  - apply negb_true_iff in Hn. rewrite Hn.
    exists ([XKeysymToKeycode_Escape] ++ []). split.
    + eapply emits_bind; [ apply emits_call | apply emits_ret ].
    + reflexivity.
  - exists []. split; [ apply emits_ret | reflexivity ].
  - exists []. split; [ apply emits_ret | reflexivity ].
Qed.

Lemma event_loop_idle_noise env this pre : forall queue v w,
  alive v = true ->
  dragging v = false ->
  forallb (idle_noise env) pre = true ->
  pending w = pre ++ queue ->
  exists calls,
    forallb idle_call calls = true
    /\ event_loop env (pre ++ queue) this v w =
       event_loop env queue this v (logged (set_pending queue w) calls).
Proof.
  induction pre as [| event pre IH]; intros queue v w Hv Hd Hn Hp.
  - exists []. split; [ reflexivity |].
    cbn in Hp |- *. rewrite <- Hp, set_pending_same, logged_nil.
    reflexivity.
  - cbn in Hn. apply andb_true_iff in Hn. destruct Hn as [He Hn].
    destruct (handle_idle_noise env this event v Hd He) as (c1 & Hc & Hi).
    cbn [app].
    rewrite (event_loop_step_emits env this event (pre ++ queue) v v c1 w
               Hv Hc).
    destruct (IH queue v
                (logged (set_pending (pre ++ queue) w)
                   (XNextEvent event :: c1)) Hv Hd Hn eq_refl)
      as (c2 & Hc2 & E2).
    exists ((XNextEvent event :: c1) ++ c2). split.
    + rewrite forallb_app. cbn. rewrite Hi, Hc2. reflexivity.
    + rewrite E2. f_equal.
      unfold logged, set_log, set_pending; cbn. rewrite <- app_assoc.
      reflexivity.
Qed.

Lemma window_geometry_kept win l : forall current,
  forallb keeps_geometry l = true ->
  window_geometry win l current = current.
Proof.
  induction l as [| c l IH]; intros current H; [ reflexivity |].
  cbn in H. apply andb_true_iff in H. destruct H as [Hc Hl].
  destruct c; cbn in Hc |- *; try discriminate; apply IH; exact Hl.
Qed.

Lemma idle_keeps_geometry c : idle_call c = true -> keeps_geometry c = true.
Proof. destruct c; cbn; congruence. Qed.

(** After the selection has been entered, every border window is offscreen,
    and calls that keep the geometry leave it there. *)
Lemma entered_offscreen this b before calls :
  is_border this b = true ->
  forallb keeps_geometry calls = true ->
  window_geometry b (before ++ enter_calls this ++ calls) None =
  Some (-1, -1, 1, 1).
Proof.
  intros Hb Hc. unfold enter_calls.
  rewrite !window_geometry_app.
  rewrite (window_geometry_kept b calls) by exact Hc.
  cbn [window_geometry]. apply offscreen_geometry. exact Hb.
Qed.

(** X4: until the first button press or Escape, the selection stays idle:
    releases, motion, expose events, other keys and other events are
    consumed without changing the drag state, the loop goes on with the
    remaining events from its initial state, and the four border windows
    stay offscreen. *)
Theorem idle_selection_ignores_other_events
    env this x y width height w n pre rest :
  grabs_acquired env w n ->
  pending w = pre ++ rest ->
  forallb (idle_noise env) pre = true ->
  exists w1,
    SelectRegion env this x y width height w =
    bind (event_loop env rest this initial_vars)
      (after_loop this x y width height) w1
    /\ pending w1 = rest
    /\ frame w1 = frame w
    /\ forall b, is_border this b = true ->
                 window_geometry b (log w1) None = Some (-1, -1, 1, 1).
Proof.
  intros Hg Hp Hn.
  rewrite (SelectRegion_acquired env this x y width height w n Hg).
  unfold selection.
  rewrite (bind_emits _ _ _ _ _ (MoveWindowsOffscreen_emits this)).
  rewrite !(bind_emits _ _ _ _ _ (emits_call _)), !logged_logged.
  change (offscreen_calls this ++ _) with (enter_calls this).
  unfold bind at 1.
  change (pending (logged ?a ?b)) with (pending a).
  change (pending (attempted w ?a ?b)) with (pending w).
  rewrite Hp.
  match goal with |- context [event_loop env (pre ++ rest) this _ ?w0] =>
    destruct (event_loop_idle_noise env this pre rest initial_vars w0
                eq_refl eq_refl Hn Hp) as (calls & Hc & E)
  end.
  rewrite E. eexists. split; [ reflexivity |].
  split; [ reflexivity |]. split; [ reflexivity |].
  intros b Hb. cbn [log logged set_log set_pending attempted set_kbd_calls].
  rewrite <- !app_assoc.
  rewrite (app_assoc (log w)).
  apply entered_offscreen; [ exact Hb |].
  revert Hc. apply forallb_impl. apply idle_keeps_geometry.
Qed.

Lemma idle_selection_ignores_other_events_witness :
  let this := selector_at noisy_env 100 in
  exists w1,
    SelectRegion noisy_env this (AddrOf shot_x) (AddrOf shot_y)
      (AddrOf shot_width) (AddrOf shot_height) (initial_world noisy_env) =
    bind (event_loop noisy_env [ButtonPress 50 50; ButtonRelease 10 10]
            this initial_vars)
      (after_loop this (AddrOf shot_x) (AddrOf shot_y)
         (AddrOf shot_width) (AddrOf shot_height)) w1
    /\ pending w1 = [ButtonPress 50 50; ButtonRelease 10 10]
    /\ frame w1 = frame (initial_world noisy_env)
    /\ forall b, is_border this b = true ->
                 window_geometry b (log w1) None = Some (-1, -1, 1, 1).
Proof.
  cbv zeta.
  apply (idle_selection_ignores_other_events noisy_env
           (selector_at noisy_env 100)
           (AddrOf shot_x) (AddrOf shot_y)
           (AddrOf shot_width) (AddrOf shot_height)
           (initial_world noisy_env) 0
           [MotionNotify 7 7; ButtonRelease 7 7; KeyPress 38; Expose 101]
           [ButtonPress 50 50; ButtonRelease 10 10]).
  - repeat split; try reflexivity. intros i Hi. inversion Hi.
  - reflexivity.
  - reflexivity.
Defined.

(** ** The exit status and the PNG file *)

Lemma count_calls_zero p l :
  (forall c, In c l -> p c = false) -> count_calls p l = 0%nat.
Proof.
  unfold count_calls. induction l as [| c l IH]; intros H; [ reflexivity |].
  cbn. rewrite (H c (or_introl eq_refl)). apply IH.
  intros c' Hc'. apply H. right. exact Hc'.
Qed.

(** X5: [cairo_surface_write_to_png] is called at most once in a run, with
    the file name of the command line, and only in runs that end with
    status 0 or in the failed [CHECK] on its result; a run that ends with
    status 0 has made the call, on a surface that was created, and cairo has
    reported success. *)
Theorem png_written_at_most_once env t w :
  main env = (t, w) ->
  (count_calls is_write_png (log w) <= 1)%nat
  /\ (forall f, In (cairo_surface_write_to_png f) (log w) ->
                f = filename env
                /\ (t = Exit 0 \/ t = CheckFailed CheckWritePng))
  /\ (t = Exit 0 ->
      In (cairo_surface_write_to_png (filename env)) (log w)
      /\ surface_created env = true
      /\ write_png_status env = CAIRO_STATUS_SUCCESS).
Proof.
  intros Hmain.
  destruct (main_runs env)
    as (w1 & Hpre & [(t' & E & Ht & _)
                    | (win & t' & calls & w'' & E & Hlog & _ & Hrun)]);
    rewrite Hmain in E; injection E as <- <-.
  - assert (Hnot : forall c, In c (log w) -> is_write_png c = false).
    { intros c Hc. apply (In_forallb _ _ _ Hpre) in Hc.
      destruct (prelude_not_capture env _ c Hc) as (H & _).
      destruct c; try reflexivity; discriminate H. }
    split; [| split ].
    + rewrite (count_calls_zero _ _ Hnot). lia.
    + intros f Hf. apply Hnot in Hf. discriminate Hf.
    + intros H0. contradiction.
  - assert (Hnot : forall c, In c (log w1) -> is_write_png c = false).
    { intros c Hc. apply (In_forallb _ _ _ Hpre) in Hc.
      destruct (prelude_not_capture env _ c Hc) as (H & _).
      destruct c; try reflexivity; discriminate H. }
    rewrite Hlog, count_calls_app, (count_calls_zero _ _ Hnot).
    inversion Hrun as [Hi | image Hi H24 H32 | image Hi Hd Hs
                      | image Hi Hd Hs Hw | image Hi Hd Hs Hw];
      subst; clear Hrun.
    all: split; [ cbn; lia |].
    all: split.
    all: try (intros H0; discriminate H0).
    all: try (intros f Hf; apply in_app_or in Hf; destruct Hf as [Hf | Hf];
              [ apply Hnot in Hf; discriminate Hf |];
              cbn in Hf;
              repeat (destruct Hf as [Hf | Hf]; try discriminate Hf);
              try contradiction;
              injection Hf as <-; split; first [ reflexivity | auto ]).
    intros _. split; [| split; assumption ].
    apply in_or_app. right. cbn. auto 20.
Qed.

Lemma png_written_at_most_once_witness :
  (count_calls is_write_png (log (snd (main drag_env))) <= 1)%nat
  /\ (forall f, In (cairo_surface_write_to_png f) (log (snd (main drag_env)))
                -> f = filename drag_env
                   /\ (fst (main drag_env) = Exit 0
                       \/ fst (main drag_env) = CheckFailed CheckWritePng))
  /\ (fst (main drag_env) = Exit 0 ->
      In (cairo_surface_write_to_png (filename drag_env))
        (log (snd (main drag_env)))
      /\ surface_created drag_env = true
      /\ write_png_status drag_env = CAIRO_STATUS_SUCCESS).
Proof.
  refine (png_written_at_most_once drag_env (fst (main drag_env))
            (snd (main drag_env)) _).
  vm_compute. reflexivity.
Defined.

(** ** The cost of the keyboard-grab retry *)

Lemma sleep_total_app l1 l2 :
  sleep_total (l1 ++ l2) = sleep_total l1 + sleep_total l2.
Proof.
  induction l1 as [| c l1 IH]; [ reflexivity |].
  destruct c; cbn; rewrite ?IH; lia.
Qed.

Lemma no_retry_quiet l :
  forallb no_retry_call l = true ->
  sleep_total l = 0
  /\ count_calls is_XGrabKeyboard l = 0%nat
  /\ count_calls is_XGrabPointer l = 0%nat.
Proof.
  unfold count_calls.
  induction l as [| c l IH]; intros H; [ repeat split |].
  cbn in H. apply andb_true_iff in H. destruct H as [Hc Hl].
  destruct (IH Hl) as (H1 & H2 & H3).
  destruct c; cbn in Hc |- *; try discriminate; repeat split; assumption.
Qed.

Lemma loop_no_retry this c : loop_call this c = true -> no_retry_call c = true.
Proof. destruct c; cbn; congruence. Qed.

(** The retry loop with [10 - k] attempts left makes at most that many
    attempts and sleeps after each of them but the last. *)
Lemma grab_keyboard_retry_budget env this fuel : forall k w,
  0 <= k < kMaxKeyboardGrabAttempts ->
  exists calls,
    log (snd (grab_keyboard_retry env fuel this k w)) = log w ++ calls
    /\ Z.of_nat (count_calls is_XGrabKeyboard calls)
       <= kMaxKeyboardGrabAttempts - k
    /\ sleep_total calls
       <= kKeyboardGrabDelayMs * 1000 * (kMaxKeyboardGrabAttempts - 1 - k)
    /\ count_calls is_XGrabPointer calls = 0%nat.
Proof.
  unfold kMaxKeyboardGrabAttempts at 1.
  induction fuel as [| fuel IH]; intros k w Hk.
  - exists []. cbn [grab_keyboard_retry snd]. rewrite app_nil_r.
    change (count_calls is_XGrabKeyboard []) with 0%nat.
    change (sleep_total []) with 0.
    unfold kMaxKeyboardGrabAttempts, kKeyboardGrabDelayMs.
    repeat split; lia.
  - destruct (Z.eq_dec (keyboard_grab env (kbd_calls w)) GrabSuccess)
      as [Hok | Hfail].
    + rewrite (grab_keyboard_retry_now env this fuel k w Hok).
      exists [XGrabKeyboard GrabSuccess].
      change (count_calls is_XGrabKeyboard [XGrabKeyboard GrabSuccess])
        with 1%nat.
      change (sleep_total [XGrabKeyboard GrabSuccess]) with 0.
      unfold kMaxKeyboardGrabAttempts, kKeyboardGrabDelayMs.
      repeat split; lia.
    + destruct (Z.eq_dec (k + 1) kMaxKeyboardGrabAttempts)
        as [Hlast | Hmore].
      * rewrite (grab_keyboard_retry_last env this fuel k w Hfail)
          by (try exact Hlast; lia).
        eexists. split; [ reflexivity |].
        change (count_calls is_XGrabKeyboard
                  [XGrabKeyboard (keyboard_grab env (kbd_calls w));
                   XUngrabPointer]) with 1%nat.
        change (sleep_total
                  [XGrabKeyboard (keyboard_grab env (kbd_calls w));
                   XUngrabPointer]) with 0.
        unfold kMaxKeyboardGrabAttempts, kKeyboardGrabDelayMs in *.
        repeat split; lia.
      * rewrite (grab_keyboard_retry_again env this fuel k w Hfail)
          by (unfold kMaxKeyboardGrabAttempts in *; lia).
        destruct (IH (k + 1)
                    (attempted w 1 (failed_attempts env (kbd_calls w) 1)))
          as (calls & Hlog & Hcount & Hsleep & Hptr);
          [ unfold kMaxKeyboardGrabAttempts in *; lia |].
        exists (failed_attempts env (kbd_calls w) 1 ++ calls).
        rewrite Hlog. cbn [log attempted logged set_log set_kbd_calls].
        split; [ rewrite <- app_assoc; reflexivity |].
        rewrite !count_calls_app, sleep_total_app, Hptr.
        change (count_calls is_XGrabKeyboard
                  (failed_attempts env (kbd_calls w) 1)) with 1%nat.
        change (count_calls is_XGrabPointer
                  (failed_attempts env (kbd_calls w) 1)) with 0%nat.
        change (sleep_total (failed_attempts env (kbd_calls w) 1))
          with (kKeyboardGrabDelayMs * 1000 + 0).
        unfold kMaxKeyboardGrabAttempts, kKeyboardGrabDelayMs in *.
        repeat split; lia.
Qed.

(** What follows the grabs neither grabs nor sleeps. *)
Lemma selection_runs env this x y width height w :
  exists calls,
    log (snd (selection env this x y width height w)) = log w ++ calls
    /\ forallb no_retry_call calls = true.
Proof.
  unfold selection.
  rewrite (bind_emits _ _ _ _ _ (MoveWindowsOffscreen_emits this)).
  rewrite !(bind_emits _ _ _ _ _ (emits_call _)), !logged_logged.
  change (offscreen_calls this ++ _) with (enter_calls this).
  set (w3 := logged w (enter_calls this)).
  unfold bind at 1.
  destruct (event_loop_result env this (pending w3) initial_vars w3)
    as (L & rest & HL & [E' | (v' & _ & E')]); rewrite E'.
  - exists (enter_calls this ++ L). split.
    + cbn. rewrite <- !app_assoc. reflexivity.
    + rewrite forallb_app,
        (forallb_impl _ _ L (loop_no_retry this) HL). reflexivity.
  - destruct (after_loop_any this x y width height v'
                (logged (set_pending rest w3) L)) as (o & f & E'' & _).
    rewrite E''.
    exists (enter_calls this ++ L ++ leave_calls this). split.
    + cbn. rewrite <- !app_assoc. reflexivity.
    + rewrite !forallb_app,
        (forallb_impl _ _ L (loop_no_retry this) HL). reflexivity.
Qed.

(** X6: whatever the server answers, one call of [SelectRegion] grabs the
    pointer once, tries to grab the keyboard at most
    [kMaxKeyboardGrabAttempts] times, and sleeps at most 9 times
    [kKeyboardGrabDelayMs]. *)
Theorem SelectRegion_retry_budget env this x y width height w :
  exists calls,
    log (snd (SelectRegion env this x y width height w)) = log w ++ calls
    /\ count_calls is_XGrabPointer calls = 1%nat
    /\ Z.of_nat (count_calls is_XGrabKeyboard calls)
       <= kMaxKeyboardGrabAttempts
    /\ sleep_total calls
       <= kKeyboardGrabDelayMs * 1000 * (kMaxKeyboardGrabAttempts - 1).
Proof.
  rewrite SelectRegion_eq.
  rewrite (bind_emits _ _ _ _ _ (GrabPointer_emits env this)).
  assert (Hone : forall c1,
    count_calls is_XGrabPointer c1 = 0%nat ->
    Z.of_nat (count_calls is_XGrabKeyboard c1) <= kMaxKeyboardGrabAttempts ->
    sleep_total c1
    <= kKeyboardGrabDelayMs * 1000 * (kMaxKeyboardGrabAttempts - 1) ->
    count_calls is_XGrabPointer (XGrabPointer (pointer_grab env) :: c1)
    = 1%nat
    /\ Z.of_nat
         (count_calls is_XGrabKeyboard (XGrabPointer (pointer_grab env) :: c1))
       <= kMaxKeyboardGrabAttempts
    /\ sleep_total (XGrabPointer (pointer_grab env) :: c1)
       <= kKeyboardGrabDelayMs * 1000 * (kMaxKeyboardGrabAttempts - 1)).
  { intros c1 Hp Hk Hs.
    change (XGrabPointer (pointer_grab env) :: c1)
      with ([XGrabPointer (pointer_grab env)] ++ c1).
    rewrite !count_calls_app, sleep_total_app, Hp.
    change (count_calls is_XGrabPointer [XGrabPointer (pointer_grab env)])
      with 1%nat.
    change (count_calls is_XGrabKeyboard [XGrabPointer (pointer_grab env)])
      with 0%nat.
    change (sleep_total [XGrabPointer (pointer_grab env)]) with 0.
    repeat split; [ assumption | lia ]. }
  destruct (pointer_grab env =? GrabSuccess); cbn [negb].
  2:{ exists [XGrabPointer (pointer_grab env)].
      split; [ reflexivity |].
      apply Hone; [ reflexivity | |];
        unfold kMaxKeyboardGrabAttempts, kKeyboardGrabDelayMs, count_calls;
        simpl; lia. }
  set (w1 := logged w [XGrabPointer (pointer_grab env)]).
  destruct (grab_keyboard_retry_budget env this
              (Z.to_nat kMaxKeyboardGrabAttempts) 0 w1)
    as (c1 & Hlog1 & Hcount & Hsleep & Hptr);
    [ unfold kMaxKeyboardGrabAttempts; lia |].
  rewrite Z.sub_0_r in Hcount, Hsleep.
  unfold bind at 1.
  destruct (grab_keyboard_retry env (Z.to_nat kMaxKeyboardGrabAttempts)
              this 0 w1) as [[grabbed | t] w2] eqn:E; cbn [snd] in Hlog1.
  - destruct grabbed; cbn [negb].
    + destruct (selection_runs env this x y width height w2)
        as (c2 & Hlog2 & Hc2).
      destruct (no_retry_quiet c2 Hc2) as (Hs2 & Hk2 & Hp2).
      exists (XGrabPointer (pointer_grab env) :: c1 ++ c2).
      rewrite Hlog2, Hlog1. subst w1. cbn [log logged set_log].
      split; [ rewrite <- !app_assoc; reflexivity |].
      apply Hone; rewrite ?count_calls_app, ?sleep_total_app; lia.
    + exists (XGrabPointer (pointer_grab env) :: c1).
      cbn [ret snd]. rewrite Hlog1. subst w1. cbn [log logged set_log].
      split; [ rewrite <- !app_assoc; reflexivity |].
      apply Hone; assumption.
  - exists (XGrabPointer (pointer_grab env) :: c1).
    cbn [snd]. rewrite Hlog1. subst w1. cbn [log logged set_log].
    split; [ rewrite <- !app_assoc; reflexivity |].
    apply Hone; assumption.
Qed.

(** ** What [main] captures *)

Lemma main_prelude_measured env win wd ht :
  argc env = 2 -> display_opens env = true ->
  target_window env = Some win ->
  geometry env win = Some (wd, ht) ->
  main_prelude env (initial_world env) =
  ((if FLAGS_region env then select_block env else ret tt) ;; ret win)
    (measured_world env win wd ht).
Proof.
  intros Hargc Hopen Hwin Hgeo.
  unfold main_prelude, target_window, measured_world, resolve_calls in *.
  rewrite Hargc, Z.eqb_refl. cbn [negb].
  unfold bind at 1; cbn [call]. rewrite Hopen.
  unfold bind at 1; cbn [CHECK ret].
  unfold bind at 1.
  destruct ((FLAGS_window env =? "")%string || FLAGS_region env).
  - injection Hwin as <-. cbn [ret].
    unfold measure_and_select.
    unfold bind at 1 2 3 4 5; cbn [store call]. rewrite Hgeo.
    unfold bind at 1 2 3; cbn [store]. reflexivity.
  - unfold bind at 1; cbn [call]. rewrite Hwin. cbn [ret].
    unfold measure_and_select.
    unfold bind at 1 2 3 4 5; cbn [store call]. rewrite Hgeo.
    unfold bind at 1 2 3; cbn [store]. reflexivity.
Qed.

(** X7: without [--region], [main] reads the rectangle at the origin of the
    window it works on, as wide and as high as [XGetGeometry] reports, and
    it makes no call before [XGetImage] but those that open the display,
    parse the window id and measure the window. *)
Theorem window_capture_reads_whole_window env win wd ht :
  argc env = 2 -> display_opens env = true ->
  FLAGS_region env = false ->
  target_window env = Some win ->
  geometry env win = Some (wd, ht) ->
  exists t calls w,
    main env = (t, w)
    /\ log w = XOpenDisplay :: resolve_calls env
               ++ XGetGeometry win :: calls
    /\ capture_run env win 0 0 wd ht (first_xid env) t calls.
Proof.
  intros Hargc Hopen Hregion Hwin Hgeo.
  unfold main. rewrite main_body_eq. unfold bind at 1.
  rewrite (main_prelude_measured env win wd ht Hargc Hopen Hwin Hgeo).
  rewrite Hregion. unfold bind at 1; cbn [ret].
  destruct (capture_runs env win (measured_world env win wd ht))
    as (t & calls & w & E & Hlog & Hrun).
  rewrite E. exists t, calls, w.
  split; [ reflexivity |]. split; [| exact Hrun ].
  rewrite Hlog. cbn [log measured_world].
  rewrite <- app_comm_cons, <- app_assoc. reflexivity.
Qed.

Lemma window_capture_reads_whole_window_witness :
  exists t calls w,
    main window_env = (t, w)
    /\ log w = XOpenDisplay :: resolve_calls window_env
               ++ XGetGeometry 42 :: calls
    /\ capture_run window_env 42 0 0 1920 1080 (first_xid window_env)
         t calls.
Proof.
  refine (window_capture_reads_whole_window window_env 42 1920 1080
            _ _ _ _ _); vm_compute; reflexivity.
Defined.

Lemma region_target_window env :
  FLAGS_region env = true ->
  target_window env = Some (DefaultRootWindow env) /\ resolve_calls env = [].
Proof.
  intros Hregion. unfold target_window, resolve_calls.
  rewrite Hregion, orb_true_r. split; reflexivity.
Qed.

(** With [--region], [main] goes on as [SelectRegion] has returned. *)
Lemma main_after_selection env wd ht b w1 :
  argc env = 2 -> display_opens env = true ->
  FLAGS_region env = true ->
  geometry env (DefaultRootWindow env) = Some (wd, ht) ->
  SelectRegion env (main_selector env)
    (AddrOf shot_x) (AddrOf shot_y) (AddrOf shot_width) (AddrOf shot_height)
    (selecting_world env wd ht) = (Ret b, w1) ->
  main_prelude env (initial_world env) =
  (if b then Ret (DefaultRootWindow env) else Stop (Exit 1),
   logged w1 (dtor_calls (main_selector env))).
Proof.
  intros Hargc Hopen Hregion Hgeo Hsel.
  destruct (region_target_window env Hregion) as [Hwin Hres].
  rewrite (main_prelude_measured env _ wd ht Hargc Hopen Hwin Hgeo).
  rewrite Hregion. unfold select_block.
  rewrite bind_assoc. unfold bind at 1. rewrite RegionSelector_ctor_eq.
  assert (Hw : set_next_xid
                 (next_xid (measured_world env (DefaultRootWindow env) wd ht)
                  + 7)
                 (logged (measured_world env (DefaultRootWindow env) wd ht)
                    (ctor_calls
                       (next_xid
                          (measured_world env (DefaultRootWindow env)
                             wd ht))))
               = selecting_world env wd ht).
  { unfold measured_world, selecting_world, set_next_xid, logged, set_log.
    cbn [log next_xid kbd_calls pending frame]. rewrite Hres. reflexivity. }
  rewrite Hw.
  change (selector_at env
            (next_xid (measured_world env (DefaultRootWindow env) wd ht)))
    with (main_selector env).
  rewrite bind_assoc. unfold bind at 1. rewrite Hsel.
  rewrite bind_assoc.
  rewrite (bind_emits _ _ _ _ _
             (RegionSelector_dtor_emits (main_selector env))).
  destruct b; reflexivity.
Qed.

Lemma selection_never_reads this c :
  selection_call this c = true -> is_XGetImage c = false.
Proof. destruct c; cbn; congruence. Qed.

Lemma not_read_not_In l :
  forallb (fun c => negb (is_XGetImage c)) l = true ->
  forall win x y wd ht, ~ In (XGetImage win x y wd ht) l.
Proof.
  intros H win x y wd ht Hin.
  rewrite forallb_forall in H. specialize (H _ Hin). discriminate.
Qed.

(** X8: with [--region], if [SelectRegion] returns false, whatever the
    reason, [main] returns 1 once the selector is destroyed; it makes no
    further call and does not read an image. *)
Theorem failed_selection_exits_with_status_1 env wd ht w1 :
  argc env = 2 -> display_opens env = true ->
  FLAGS_region env = true ->
  geometry env (DefaultRootWindow env) = Some (wd, ht) ->
  SelectRegion env (main_selector env)
    (AddrOf shot_x) (AddrOf shot_y) (AddrOf shot_width) (AddrOf shot_height)
    (selecting_world env wd ht) = (Ret false, w1) ->
  main env = (Exit 1, logged w1 (dtor_calls (main_selector env)))
  /\ forall win x y wd' ht',
       ~ In (XGetImage win x y wd' ht') (log (snd (main env))).
Proof.
  intros Hargc Hopen Hregion Hgeo Hsel.
  assert (Hmain : main env
                  = (Exit 1, logged w1 (dtor_calls (main_selector env)))).
  { unfold main. rewrite main_body_eq. unfold bind at 1.
    rewrite (main_after_selection env wd ht false w1
               Hargc Hopen Hregion Hgeo Hsel).
    reflexivity. }
  split; [ exact Hmain |].
  rewrite Hmain. cbn [snd log logged set_log].
  destruct (SelectRegion_runs env (main_selector env)
              (AddrOf shot_x) (AddrOf shot_y)
              (AddrOf shot_width) (AddrOf shot_height)
              (selecting_world env wd ht))
    as (o & calls & n & rest & f & E & Hrun).
  rewrite Hsel in E.
  pose proof (f_equal (fun r => log (snd r)) E) as Hlog.
  cbn [snd log] in Hlog.
  apply not_read_not_In. rewrite Hlog, !forallb_app.
  apply selection_run_calls in Hrun.
  rewrite (forallb_impl (selection_call (main_selector env)) _ calls);
    [ reflexivity | | exact Hrun ].
  intros c Hc. rewrite (selection_never_reads _ c Hc). reflexivity.
Qed.

Lemma failed_selection_exits_with_status_1_witness :
  main abort_env
  = (Exit 1,
     logged
       (snd (SelectRegion abort_env (main_selector abort_env)
               (AddrOf shot_x) (AddrOf shot_y)
               (AddrOf shot_width) (AddrOf shot_height)
               (selecting_world abort_env 1920 1080)))
       (dtor_calls (main_selector abort_env)))
  /\ forall win x y wd' ht',
       ~ In (XGetImage win x y wd' ht') (log (snd (main abort_env))).
Proof.
  refine (failed_selection_exits_with_status_1 abort_env 1920 1080 _
            _ _ _ _ _); vm_compute; reflexivity.
Defined.

(** X9: with [--region], once the grabs are taken and the user has pressed
    the button, dragged, and released it, [main] destroys the selector and
    then reads the rectangle of the drag from the root window: the frame that
    [XGetGeometry] filled is overwritten.  The feedback window gets the
    first id after the seven of the selector. *)
Theorem region_capture_reads_dragged_rectangle
    env wd ht n pre sx sy mid ex ey rest :
  argc env = 2 -> display_opens env = true ->
  FLAGS_region env = true ->
  geometry env (DefaultRootWindow env) = Some (wd, ht) ->
  grabs_acquired env (initial_world env) n ->
  events env
  = pre ++ ButtonPress sx sy :: mid ++ ButtonRelease ex ey :: rest ->
  alive (vars_after env (main_selector env) pre initial_vars) = true ->
  forallb (keeps_drag env) mid = true ->
  let r := drag_rectangle sx sy ex ey in
  exists t selecting calls w,
    main env = (t, w)
    /\ log w
       = [XOpenDisplay; XGetGeometry (DefaultRootWindow env)]
         ++ ctor_calls (first_xid env) ++ selecting
         ++ dtor_calls (main_selector env) ++ calls
    /\ selection_run env (main_selector env) (Ret true) selecting
    /\ capture_run env (DefaultRootWindow env)
         (val_shot_x r) (val_shot_y r)
         (val_shot_width r) (val_shot_height r)
         (first_xid env + 7) t calls.
Proof.
  intros Hargc Hopen Hregion Hgeo Hgrabs Hevents Halive Hmid r.
  destruct (SelectRegion_drag env (main_selector env)
              (selecting_world env wd ht) n pre sx sy mid ex ey rest
              Hgrabs Hevents Halive Hmid)
    as (w1 & Hsel & Hframe & _).
  destruct (SelectRegion_runs env (main_selector env)
              (AddrOf shot_x) (AddrOf shot_y)
              (AddrOf shot_width) (AddrOf shot_height)
              (selecting_world env wd ht))
    as (o & selecting & k & rest' & f & E & Hrun).
  rewrite Hsel in E.
  pose proof (f_equal (fun p => log (snd p)) E) as Hlog.
  pose proof (f_equal (fun p => next_xid (snd p)) E) as Hnext.
  pose proof (f_equal fst E) as Ho.
  cbn [fst snd log next_xid] in Hlog, Hnext, Ho. subst o.
  destruct (capture_runs env (DefaultRootWindow env)
              (logged w1 (dtor_calls (main_selector env))))
    as (t & calls & w & Ecap & Hcap & Hcrun).
  exists t, selecting, calls, w.
  split; [| split; [| split; [ exact Hrun |] ] ].
  - unfold main. rewrite main_body_eq. unfold bind at 1.
    rewrite (main_after_selection env wd ht true w1
               Hargc Hopen Hregion Hgeo Hsel).
    rewrite Ecap. reflexivity.
  - rewrite Hcap. cbn [log logged set_log]. rewrite Hlog.
    cbn [log selecting_world]. rewrite <- !app_assoc. reflexivity.
  - cbn [frame next_xid logged set_log] in Hcrun.
    rewrite Hframe, Hnext in Hcrun. exact Hcrun.
Qed.

Lemma region_capture_reads_dragged_rectangle_witness :
  let r := drag_rectangle 50 50 10 10 in
  exists t selecting calls w,
    main drag_env = (t, w)
    /\ log w
       = [XOpenDisplay; XGetGeometry (DefaultRootWindow drag_env)]
         ++ ctor_calls (first_xid drag_env) ++ selecting
         ++ dtor_calls (main_selector drag_env) ++ calls
    /\ selection_run drag_env (main_selector drag_env) (Ret true) selecting
    /\ capture_run drag_env (DefaultRootWindow drag_env)
         (val_shot_x r) (val_shot_y r)
         (val_shot_width r) (val_shot_height r)
         (first_xid drag_env + 7) t calls.
Proof.
  apply (region_capture_reads_dragged_rectangle drag_env 1920 1080 0
           [] 50 50 [MotionNotify 30 30] 10 10 []).
  - reflexivity.
  - reflexivity.
  - reflexivity.
  - reflexivity.
  - repeat split; try reflexivity. intros i Hi. inversion Hi.
  - reflexivity.
  - reflexivity.
  - reflexivity.
Defined.

(** ** The screen when the image is read *)

Lemma window_exists_app id l1 : forall now l2,
  window_exists id (l1 ++ l2) now
  = window_exists id l2 (window_exists id l1 now).
Proof.
  induction l1 as [| c l1 IH]; intros now l2; [ reflexivity |].
  destruct c; cbn; apply IH.
Qed.

Lemma window_exists_kept id l : forall now,
  forallb keeps_windows l = true -> window_exists id l now = now.
Proof.
  induction l as [| c l IH]; intros now H; [ reflexivity |].
  cbn in H. apply andb_true_iff in H. destruct H as [Hc Hl].
  destruct c; cbn in Hc |- *; try discriminate; apply IH; exact Hl.
Qed.

Lemma selection_keeps_windows this c :
  selection_call this c = true -> keeps_windows c = true.
Proof. destruct c; cbn; congruence. Qed.

(** The selector's windows do not outlive it. *)
Lemma selector_lifetime_windows env n id selecting :
  forallb (selection_call (selector_at env n)) selecting = true ->
  window_exists id
    (ctor_calls n ++ selecting ++ dtor_calls (selector_at env n)) false
  = false.
Proof.
  intros Hsel.
  rewrite !window_exists_app.
  rewrite (window_exists_kept id selecting)
    by (revert Hsel; apply forallb_impl; apply selection_keeps_windows).
  cbn.
  destruct (n + 1 =? id), (n + 2 =? id), (n + 3 =? id), (n + 4 =? id);
    reflexivity.
Qed.

Lemma selection_run_released env this b calls :
  selection_run env this (Ret b) calls ->
  pointer_held false calls = false /\ keyboard_held false calls = false.
Proof.
  intros Hrun.
  inversion Hrun as [Hp | K Hp HK | K L Hp HK HL | K L o Hp HK HL Ho];
    subst; clear Hrun.
  - apply Z.eqb_neq in Hp. cbn. rewrite Hp. split; reflexivity.
  - apply (forallb_impl _ _ K kbd_failure_neutral) in HK.
    change (XGrabPointer GrabSuccess :: K ++ [XUngrabPointer])
      with ([XGrabPointer GrabSuccess] ++ K ++ [XUngrabPointer]).
    rewrite !pointer_held_app, !keyboard_held_app.
    rewrite !(pointer_held_neutral K), !(keyboard_held_neutral K)
      by assumption.
    split; reflexivity.
  - apply (forallb_impl _ _ K kbd_failure_neutral) in HK.
    apply (forallb_impl _ _ L (loop_neutral this)) in HL.
    assert (HE := enter_calls_neutral this).
    change (XGrabPointer GrabSuccess
            :: K ++ XGrabKeyboard GrabSuccess
            :: enter_calls this ++ L ++ leave_calls this)
      with ([XGrabPointer GrabSuccess]
            ++ K ++ [XGrabKeyboard GrabSuccess]
            ++ enter_calls this ++ L ++ leave_calls this).
    rewrite !pointer_held_app, !keyboard_held_app.
    rewrite !(pointer_held_neutral K), !(keyboard_held_neutral K)
      by assumption.
    cbn [pointer_held keyboard_held GrabSuccess Z.eqb orb].
    rewrite !(pointer_held_neutral (enter_calls this)),
      !(keyboard_held_neutral (enter_calls this)) by assumption.
    rewrite !(pointer_held_neutral L), !(keyboard_held_neutral L)
      by assumption.
    split; reflexivity.
Qed.

(** With [--region], a selection that stops the program stops [main]. *)
Lemma main_selection_stops env wd ht t w1 :
  argc env = 2 -> display_opens env = true ->
  FLAGS_region env = true ->
  geometry env (DefaultRootWindow env) = Some (wd, ht) ->
  SelectRegion env (main_selector env)
    (AddrOf shot_x) (AddrOf shot_y) (AddrOf shot_width) (AddrOf shot_height)
    (selecting_world env wd ht) = (Stop t, w1) ->
  main_prelude env (initial_world env) = (Stop t, w1).
Proof.
  intros Hargc Hopen Hregion Hgeo Hsel.
  destruct (region_target_window env Hregion) as [Hwin Hres].
  rewrite (main_prelude_measured env _ wd ht Hargc Hopen Hwin Hgeo).
  rewrite Hregion. unfold select_block.
  rewrite bind_assoc. unfold bind at 1. rewrite RegionSelector_ctor_eq.
  assert (Hw : set_next_xid
                 (next_xid (measured_world env (DefaultRootWindow env) wd ht)
                  + 7)
                 (logged (measured_world env (DefaultRootWindow env) wd ht)
                    (ctor_calls
                       (next_xid
                          (measured_world env (DefaultRootWindow env)
                             wd ht))))
               = selecting_world env wd ht).
  { unfold measured_world, selecting_world, set_next_xid, logged, set_log.
    cbn [log next_xid kbd_calls pending frame]. rewrite Hres. reflexivity. }
  rewrite Hw.
  change (selector_at env
            (next_xid (measured_world env (DefaultRootWindow env) wd ht)))
    with (main_selector env).
  rewrite bind_assoc. unfold bind at 1. rewrite Hsel. reflexivity.
Qed.

(** When the prelude of [main] yields a window, the arguments were right,
    the display opened, the window was found and measured, and the
    selection, if there was one, returned true. *)
Lemma main_prelude_returns env win w1 :
  main_prelude env (initial_world env) = (Ret win, w1) ->
  exists wd ht,
    argc env = 2 /\ display_opens env = true
    /\ target_window env = Some win
    /\ geometry env win = Some (wd, ht)
    /\ (if FLAGS_region env
        then exists w',
               SelectRegion env (main_selector env)
                 (AddrOf shot_x) (AddrOf shot_y)
                 (AddrOf shot_width) (AddrOf shot_height)
                 (selecting_world env wd ht) = (Ret true, w')
               /\ w1 = logged w' (dtor_calls (main_selector env))
        else w1 = measured_world env win wd ht).
Proof.
  intros E.
  assert (Hargc : argc env = 2).
  { destruct (Z.eq_dec (argc env) 2) as [H | H]; [ exact H | exfalso ].
    apply Z.eqb_neq in H. unfold main_prelude in E. rewrite H in E.
    discriminate E. }
  assert (Hopen : display_opens env = true).
  { destruct (display_opens env) eqn:H; [ reflexivity | exfalso ].
    unfold main_prelude in E. rewrite Hargc, H in E. discriminate E. }
  assert (Hwin : exists win', target_window env = Some win').
  { destruct (target_window env) as [win' |] eqn:H; [ eauto | exfalso ].
    unfold target_window in H. unfold main_prelude in E.
    rewrite Hargc, Hopen in E. cbn [Z.eqb Pos.eqb negb] in E.
    unfold bind at 1 in E; cbn [call] in E.
    unfold bind at 1 in E; cbn [CHECK ret] in E.
    unfold bind at 1 in E.
    destruct ((FLAGS_window env =? "")%string || FLAGS_region env);
      [ discriminate H |].
    unfold bind at 1 in E; cbn [call] in E. rewrite H in E.
    discriminate E. }
  destruct Hwin as (win' & Hwin).
  assert (Hgeo : exists wd ht, geometry env win' = Some (wd, ht)).
  { destruct (geometry env win') as [[wd ht] |] eqn:H; [ eauto | exfalso ].
    unfold target_window in Hwin. unfold main_prelude in E.
    rewrite Hargc, Hopen in E. cbn [Z.eqb Pos.eqb negb] in E.
    unfold bind at 1 in E; cbn [call] in E.
    unfold bind at 1 in E; cbn [CHECK ret] in E.
    unfold bind at 1 in E.
    destruct ((FLAGS_window env =? "")%string || FLAGS_region env).
    - injection Hwin as <-. cbn [ret] in E.
      unfold measure_and_select in E.
      unfold bind at 1 2 3 4 5 in E; cbn [store call] in E.
      rewrite H in E. discriminate E.
    - unfold bind at 1 in E; cbn [call] in E. rewrite Hwin in E.
      cbn [ret] in E. unfold measure_and_select in E.
      unfold bind at 1 2 3 4 5 in E; cbn [store call] in E.
      rewrite H in E. discriminate E. }
  destruct Hgeo as (wd & ht & Hgeo).
  destruct (FLAGS_region env) eqn:Hregion.
  - destruct (region_target_window env Hregion) as [Hroot _].
    rewrite Hroot in Hwin. injection Hwin as <-.
    destruct (SelectRegion_runs env (main_selector env)
                (AddrOf shot_x) (AddrOf shot_y)
                (AddrOf shot_width) (AddrOf shot_height)
                (selecting_world env wd ht))
      as (o & calls & n & rest & f & Esel & _).
    destruct o as [[|] | t].
    + rewrite (main_after_selection env wd ht true _
                 Hargc Hopen Hregion Hgeo Esel) in E.
      injection E as <- <-.
      exists wd, ht.
      split; [ exact Hargc |]. split; [ exact Hopen |].
      split; [ exact Hroot |]. split; [ exact Hgeo |].
      eexists. split; [ exact Esel | reflexivity ].
    + rewrite (main_after_selection env wd ht false _
                 Hargc Hopen Hregion Hgeo Esel) in E.
      discriminate E.
    + rewrite (main_selection_stops env wd ht t _
                 Hargc Hopen Hregion Hgeo Esel) in E.
      discriminate E.
  - rewrite (main_prelude_measured env win' wd ht Hargc Hopen Hwin Hgeo)
      in E.
    rewrite Hregion in E.
    unfold bind at 1 in E; cbn [ret] in E. injection E as <- <-.
    exists wd, ht. repeat split; assumption.
Qed.

Lemma split_at_read l1 : forall l2 c1 c2 r1 r2,
  forallb not_read l1 = true -> forallb not_read r1 = true ->
  is_XGetImage c2 = true ->
  l1 ++ c1 :: r1 = l2 ++ c2 :: r2 ->
  l2 = l1 /\ r2 = r1.
Proof.
  induction l1 as [| a l1 IH]; intros l2 c1 c2 r1 r2 H1 Hr Hc E.
  - destruct l2 as [| a' l2]; cbn in E.
    + injection E as _ <-. split; reflexivity.
    + injection E as _ ->. rewrite forallb_app in Hr. cbn in Hr.
      unfold not_read at 2 in Hr. rewrite Hc in Hr.
      rewrite andb_false_r in Hr. discriminate Hr.
  - cbn in H1. apply andb_true_iff in H1. destruct H1 as [Ha H1].
    destruct l2 as [| a' l2]; cbn in E.
    + injection E as -> _. unfold not_read in Ha. rewrite Hc in Ha.
      discriminate Ha.
    + injection E as <- E.
      destruct (IH _ _ _ _ _ H1 Hr Hc E) as [-> ->]. split; reflexivity.
Qed.

Lemma capture_run_reads_first env win x y wd ht fb t calls :
  capture_run env win x y wd ht fb t calls ->
  exists rest,
    calls = XGetImage win x y wd ht :: rest
    /\ forallb not_read rest = true.
Proof.
  intros H. destruct H; eexists; split; reflexivity.
Qed.

(** The log with which the prelude of [main] hands over to the capture. *)
Lemma main_prelude_clean env win w1 :
  main_prelude env (initial_world env) = (Ret win, w1) ->
  forallb not_read (log w1) = true
  /\ (forall id, window_exists id (log w1) false = false)
  /\ pointer_held false (log w1) = false
  /\ keyboard_held false (log w1) = false.
Proof.
  intros E.
  destruct (main_prelude_returns env win w1 E)
    as (wd & ht & _ & _ & _ & _ & Hw1).
  destruct (FLAGS_region env).
  - destruct Hw1 as (w' & Hsel & ->).
    destruct (SelectRegion_runs env (main_selector env)
                (AddrOf shot_x) (AddrOf shot_y)
                (AddrOf shot_width) (AddrOf shot_height)
                (selecting_world env wd ht))
      as (o & calls & n & rest & f & Esel & Hrun).
    rewrite Hsel in Esel.
    pose proof (f_equal (fun p => log (snd p)) Esel) as Hlog.
    pose proof (f_equal fst Esel) as Ho.
    cbn [fst snd log] in Hlog, Ho. subst o.
    assert (Hcalls := selection_run_calls _ _ _ _ Hrun).
    destruct (selection_run_released _ _ _ _ Hrun) as [Hp Hk].
    cbn [log logged set_log]. rewrite Hlog.
    cbn [log selecting_world]. rewrite <- !app_assoc.
    set (this := main_selector env) in *.
    repeat split.
    + rewrite !forallb_app.
      rewrite (forallb_impl (selection_call this) not_read calls);
        [ reflexivity | | exact Hcalls ].
      intros c Hc. unfold not_read.
      rewrite (selection_never_reads _ c Hc). reflexivity.
    + intros id. rewrite window_exists_app.
      apply (selector_lifetime_windows env (first_xid env) id calls Hcalls).
    + rewrite !pointer_held_app.
      change (pointer_held false [XOpenDisplay; XGetGeometry _]) with false.
      change (pointer_held false (ctor_calls (first_xid env))) with false.
      rewrite Hp. reflexivity.
    + rewrite !keyboard_held_app.
      change (keyboard_held false [XOpenDisplay; XGetGeometry _]) with false.
      change (keyboard_held false (ctor_calls (first_xid env))) with false.
      rewrite Hk. reflexivity.
  - subst w1. cbn [log measured_world]. unfold resolve_calls.
    destruct ((FLAGS_window env =? "")%string || FLAGS_region env);
      repeat split.
Qed.

(** X10: [main] reads at most one image, and when it calls [XGetImage]
    none of the windows it has created exists any more and neither the
    pointer nor the keyboard is grabbed: the selector's border windows and
    its grabs are gone before the screen is read. *)
Theorem selector_gone_when_image_is_read
    env before win x y wd ht after :
  log (snd (main env)) = before ++ XGetImage win x y wd ht :: after ->
  forallb not_read before = true
  /\ forallb not_read after = true
  /\ (forall id, window_exists id before false = false)
  /\ pointer_held false before = false
  /\ keyboard_held false before = false.
Proof.
  intros Hlog. unfold main in Hlog. rewrite main_body_eq in Hlog.
  unfold bind at 1 in Hlog.
  destruct (main_prelude env (initial_world env)) as [[win0 | t] w1] eqn:E.
  - destruct (capture_runs env win0 w1)
      as (t & calls & w & Ecap & Hcap & Hrun).
    rewrite Ecap in Hlog. cbn [snd] in Hlog. rewrite Hcap in Hlog.
    destruct (capture_run_reads_first _ _ _ _ _ _ _ _ _ Hrun)
      as (rest & -> & Hrest).
    destruct (main_prelude_clean env win0 w1 E) as (Hpre & Hwin & Hp & Hk).
    destruct (split_at_read (log w1) before _
                (XGetImage win x y wd ht) rest after
                Hpre Hrest eq_refl Hlog)
      as [-> ->].
    repeat split; assumption.
  - exfalso. cbn [snd] in Hlog.
    destruct (main_prelude_runs env) as (o & w1' & E' & Hcalls & _).
    rewrite E in E'. injection E' as _ <-.
    assert (Hin : In (XGetImage win x y wd ht) (log w1))
      by (rewrite Hlog; apply in_elt).
    apply (In_forallb _ _ _ Hcalls) in Hin. discriminate Hin.
Qed.

Lemma selector_gone_when_image_is_read_witness :
  forallb not_read
    [XOpenDisplay; XGetGeometry 1;
     XCreateFontCursor 100;
     XCreateWindow 101 (-1) (-1) 1 1; XSelectInput 101;
     XCreateWindow 102 (-1) (-1) 1 1; XSelectInput 102;
     XCreateWindow 103 (-1) (-1) 1 1; XSelectInput 103;
     XCreateWindow 104 (-1) (-1) 1 1; XSelectInput 104;
     XCreateGC 105 BlackPixel; XCreateGC 106 WhitePixel;
     XGrabPointer 0; XGrabKeyboard 0;
     XMoveResizeWindow 101 (-1) (-1) 1 1;
     XMoveResizeWindow 102 (-1) (-1) 1 1;
     XMoveResizeWindow 103 (-1) (-1) 1 1;
     XMoveResizeWindow 104 (-1) (-1) 1 1;
     XMapWindow 101; XMapWindow 102; XMapWindow 103; XMapWindow 104;
     XNextEvent (ButtonPress 5 5); XNextEvent (ButtonRelease 5 5);
     XUngrabKeyboard; XUngrabPointer;
     XUnmapWindow 101; XUnmapWindow 102; XUnmapWindow 103; XUnmapWindow 104;
     XDestroyWindow 101; XDestroyWindow 102;
     XDestroyWindow 103; XDestroyWindow 104;
     XFreeCursor 100; XFreeGC 105; XFreeGC 106] = true
  /\ forallb not_read [] = true
  /\ (forall id,
        window_exists id (firstn 38 (log (snd (main click_env)))) false
        = false)
  /\ pointer_held false (firstn 38 (log (snd (main click_env)))) = false
  /\ keyboard_held false (firstn 38 (log (snd (main click_env)))) = false.
Proof.
  refine (selector_gone_when_image_is_read click_env
            (firstn 38 (log (snd (main click_env)))) 1 5 5 0 0 [] _).
  vm_compute. reflexivity.
Defined.

(** ** How [main] ends *)

(** Called on the addresses of four locals, [SelectRegion] returns or waits
    for an event that does not come. *)
Lemma SelectRegion_outcome env this w :
  let o := fst (SelectRegion env this
                  (AddrOf shot_x) (AddrOf shot_y)
                  (AddrOf shot_width) (AddrOf shot_height) w) in
  (exists b, o = Ret b) \/ o = Stop Blocked.
Proof.
  cbv zeta.
  destruct (SelectRegion env this (AddrOf shot_x) (AddrOf shot_y)
              (AddrOf shot_width) (AddrOf shot_height) w)
    as [o w'] eqn:E0.
  cbn [fst]. revert E0. rewrite SelectRegion_eq.
  rewrite (bind_emits _ _ _ _ _ (GrabPointer_emits env this)).
  destruct (pointer_grab env =? GrabSuccess); cbn [negb];
    [| intros E0; injection E0 as <- _; left; exists false; reflexivity ].
  set (w1 := logged w [XGrabPointer (pointer_grab env)]).
  unfold bind at 1.
  destruct (grab_keyboard_retry_cases env this
              (Z.to_nat kMaxKeyboardGrabAttempts) 0 w1)
    as (n & K & _ & [E | [E | [_ Hfuel]]]);
    [ unfold kMaxKeyboardGrabAttempts; lia | | |].
  - rewrite E. cbn [negb]. unfold selection.
    rewrite (bind_emits _ _ _ _ _ (MoveWindowsOffscreen_emits this)).
    rewrite !(bind_emits _ _ _ _ _ (emits_call _)), !logged_logged.
    set (w3 := logged _ _).
    unfold bind at 1.
    destruct (event_loop_result env this (pending w3) initial_vars w3)
      as (L & rest & _ & [E' | (v' & _ & E')]); rewrite E'.
    + intros E0; injection E0 as <- _. right. reflexivity.
    + destruct (aborted v') eqn:Hab.
      * rewrite (after_loop_aborted this _ _ _ _ v' _ Hab).
        intros E0; injection E0 as <- _. left. eauto.
      * rewrite (after_loop_done this v' _ Hab).
        intros E0; injection E0 as <- _. left. eauto.
  - rewrite E. intros E0; injection E0 as <- _.
    left. exists false. reflexivity.
  - unfold kMaxKeyboardGrabAttempts in Hfuel. lia.
Qed.

(** Why the prelude of [main] ends the program, when it does. *)
Lemma main_prelude_stops env t w1 :
  main_prelude env (initial_world env) = (Stop t, w1) ->
  (t = Exit 1 /\ argc env <> 2)
  \/ t = CheckFailed CheckDisplay
  \/ (t = CheckFailed CheckParseWindow /\ FLAGS_region env = false)
  \/ t = CheckFailed CheckGeometry
  \/ ((t = Exit 1 \/ t = Blocked) /\ FLAGS_region env = true).
Proof.
  intros E.
  destruct (Z.eq_dec (argc env) 2) as [Hargc | Hargc].
  2:{ left. split; [| exact Hargc ].
      apply Z.eqb_neq in Hargc. unfold main_prelude in E.
      rewrite Hargc in E. injection E as <- _. reflexivity. }
  destruct (display_opens env) eqn:Hopen.
  2:{ right; left. unfold main_prelude in E. rewrite Hargc, Hopen in E.
      injection E as <- _. reflexivity. }
  destruct (target_window env) as [win |] eqn:Hwin.
  2:{ right; right; left.
      unfold target_window in Hwin. unfold main_prelude in E.
      rewrite Hargc, Hopen in E. cbn [Z.eqb Pos.eqb negb] in E.
      unfold bind at 1 in E; cbn [call] in E.
      unfold bind at 1 in E; cbn [CHECK ret] in E.
      unfold bind at 1 in E.
      destruct (FLAGS_region env);
        [ rewrite orb_true_r in Hwin; discriminate Hwin |].
      destruct (FLAGS_window env =? "")%string; [ discriminate Hwin |].
      cbn [orb] in E, Hwin.
      unfold bind at 1 in E; cbn [call] in E. rewrite Hwin in E.
      injection E as <- _. split; reflexivity. }
  destruct (geometry env win) as [[wd ht] |] eqn:Hgeo.
  2:{ right; right; right; left.
      unfold target_window in Hwin. unfold main_prelude in E.
      rewrite Hargc, Hopen in E. cbn [Z.eqb Pos.eqb negb] in E.
      unfold bind at 1 in E; cbn [call] in E.
      unfold bind at 1 in E; cbn [CHECK ret] in E.
      unfold bind at 1 in E.
      destruct ((FLAGS_window env =? "")%string || FLAGS_region env).
      - injection Hwin as <-. cbn [ret] in E.
        unfold measure_and_select in E.
        unfold bind at 1 2 3 4 5 in E; cbn [store call] in E.
        rewrite Hgeo in E. injection E as <- _. reflexivity.
      - unfold bind at 1 in E; cbn [call] in E. rewrite Hwin in E.
        cbn [ret] in E. unfold measure_and_select in E.
        unfold bind at 1 2 3 4 5 in E; cbn [store call] in E.
        rewrite Hgeo in E. injection E as <- _. reflexivity. }
  right; right; right; right.
  destruct (FLAGS_region env) eqn:Hregion.
  - split; [| reflexivity ].
    destruct (region_target_window env Hregion) as [Hroot _].
    rewrite Hroot in Hwin. injection Hwin as <-.
    assert (Ho := SelectRegion_outcome env (main_selector env)
                    (selecting_world env wd ht)).
    cbv zeta in Ho.
    destruct (SelectRegion env (main_selector env)
                (AddrOf shot_x) (AddrOf shot_y)
                (AddrOf shot_width) (AddrOf shot_height)
                (selecting_world env wd ht)) as [[[|] | t'] w'] eqn:Esel.
    + rewrite (main_after_selection env wd ht true _
                 Hargc Hopen Hregion Hgeo Esel) in E.
      discriminate E.
    + rewrite (main_after_selection env wd ht false _
                 Hargc Hopen Hregion Hgeo Esel) in E.
      injection E as <- _. left. reflexivity.
    + rewrite (main_selection_stops env wd ht t' _
                 Hargc Hopen Hregion Hgeo Esel) in E.
      injection E as <- _. right.
      destruct Ho as [(b & Ho) | Ho]; cbn [fst] in Ho;
        [ discriminate Ho | injection Ho as -> ]. reflexivity.
  - exfalso.
    rewrite (main_prelude_measured env win wd ht Hargc Hopen Hwin Hgeo)
      in E.
    rewrite Hregion in E. discriminate E.
Qed.

(** X11: [main] returns 0 or 1, fails a [CHECK], or waits for an event
    that does not come.  It never stores through a null pointer and its
    retry loop always ends.  It returns 1 only when the arguments are wrong
    or the selection fails, and it waits only when it selects a region. *)
Theorem main_ends_in_exit_check_or_wait env :
  let t := fst (main env) in
  t <> Segfault /\ t <> OutOfFuel
  /\ (t = Exit 1 -> argc env <> 2 \/ FLAGS_region env = true)
  /\ (t = Blocked -> FLAGS_region env = true)
  /\ (t = CheckFailed CheckParseWindow -> FLAGS_region env = false)
  /\ (forall n, t = Exit n -> n = 0 \/ n = 1).
Proof.
  cbv zeta. destruct (main env) as [t w] eqn:Em. cbn [fst].
  revert Em. unfold main. rewrite main_body_eq. unfold bind at 1.
  destruct (main_prelude env (initial_world env)) as [[win | t'] w1] eqn:E.
  - destruct (capture_runs env win w1)
      as (t' & calls & w' & Ecap & _ & Hrun).
    rewrite Ecap. intros Em. injection Em as <- _.
    destruct Hrun; repeat split; try discriminate;
      intros n Hn; injection Hn as <-; left; reflexivity.
  - intros Em. injection Em as <- _.
    destruct (main_prelude_stops env t' w1 E)
      as [[-> Ha] | [-> | [[-> Hr] | [-> | [[-> | ->] Hr]]]]];
      repeat split; try discriminate; auto;
      intros n Hn; injection Hn as <-; right; reflexivity.
Qed.

(** ** Resources *)

Lemma held_after_app r l1 : forall now l2,
  held_after r (l1 ++ l2) now = held_after r l2 (held_after r l1 now).
Proof.
  induction l1 as [| c l1 IH]; intros now l2; [ reflexivity |].
  cbn [app held_after]. apply IH.
Qed.

Lemma held_after_kept r l : forall now,
  forallb keeps_resources l = true -> held_after r l now = now.
Proof.
  induction l as [| c l IH]; intros now H; [ reflexivity |].
  cbn in H. apply andb_true_iff in H. destruct H as [Hc Hl].
  cbn [held_after]. rewrite (IH _ Hl).
  destruct c, r; cbn in Hc |- *; try discriminate;
    rewrite ?orb_false_r, ?andb_true_r; reflexivity.
Qed.

Lemma selection_keeps_resources this c :
  selection_call this c = true -> keeps_resources c = true.
Proof. destruct c; cbn; congruence. Qed.

Lemma capture_run_saved env win x y wd ht fb calls :
  capture_run env win x y wd ht fb (Exit 0) calls ->
  exists image,
    calls = XGetImage win x y wd ht
            :: flash_calls fb x y wd ht
            ++ [create_surface_call image;
                cairo_surface_write_to_png (filename env);
                cairo_surface_destroy; XDestroyImage; XCloseDisplay].
Proof.
  intros H. inversion H; subst. eexists. reflexivity.
Qed.

(** X12: a run of [main] that returns 0 has given back all it has
    acquired: the display, the cursor, the graphics contexts and the border
    windows of the selector, the feedback window, the image and the cairo
    surface. *)
Theorem successful_run_releases_everything env w :
  main env = (Exit 0, w) ->
  forall r, held_after r (log w) false = false.
Proof.
  unfold main. rewrite main_body_eq. unfold bind at 1.
  destruct (main_prelude env (initial_world env)) as [[win | t] w1] eqn:E.
  2:{ intros Em. injection Em as -> _.
      destruct (main_prelude_stops env _ w1 E)
        as [[H _] | [H | [[H _] | [H | [[H | H] _]]]]]; discriminate H. }
  destruct (capture_runs env win w1) as (t & calls & w' & Ecap & Hcap & Hrun).
  rewrite Ecap. intros Em. injection Em as -> ->.
  destruct (capture_run_saved _ _ _ _ _ _ _ _ Hrun) as (image & ->).
  clear Hrun Ecap. intros r. rewrite Hcap. clear Hcap.
  destruct (main_prelude_returns env win w1 E)
    as (wd & ht & _ & _ & _ & _ & Hw1).
  destruct (FLAGS_region env).
  - destruct Hw1 as (w1' & Hsel & ->).
    destruct (SelectRegion_runs env (main_selector env)
                (AddrOf shot_x) (AddrOf shot_y)
                (AddrOf shot_width) (AddrOf shot_height)
                (selecting_world env wd ht))
      as (o & selecting & n & rest & f & Esel & Hrun).
    rewrite Hsel in Esel.
    pose proof (f_equal (fun p => log (snd p)) Esel) as Hlog.
    pose proof (f_equal (fun p => next_xid (snd p)) Esel) as Hnext.
    cbn [snd log next_xid] in Hlog, Hnext.
    assert (Hkeep : forallb keeps_resources selecting = true).
    { apply selection_run_calls in Hrun. revert Hrun.
      apply forallb_impl. apply selection_keeps_resources. }
    cbn [log logged set_log next_xid]. rewrite Hlog, Hnext.
    cbn [log next_xid selecting_world].
    rewrite !held_after_app.
    rewrite (held_after_kept r selecting _ Hkeep).
    unfold create_surface_call.
    destruct r as [| c | id | g | |]; cbn;
      rewrite ?orb_false_r, ?andb_true_r, ?andb_false_r; try reflexivity.
    + destruct (first_xid env =? c); reflexivity.
    + destruct (first_xid env + 1 =? id), (first_xid env + 2 =? id),
        (first_xid env + 3 =? id), (first_xid env + 4 =? id),
        (first_xid env + 7 =? id); reflexivity.
    + destruct (first_xid env + 5 =? g), (first_xid env + 6 =? g);
        reflexivity.
  - subst w1. cbn [log measured_world frame next_xid].
    change (XOpenDisplay :: resolve_calls env ++ [XGetGeometry win])
      with ([XOpenDisplay] ++ resolve_calls env ++ [XGetGeometry win]).
    rewrite !held_after_app.
    rewrite (held_after_kept r (resolve_calls env))
      by (unfold resolve_calls;
          destruct ((FLAGS_window env =? "")%string || FLAGS_region env);
          reflexivity).
    unfold create_surface_call.
    destruct r as [| c | id | g | |]; cbn;
      rewrite ?orb_false_r, ?andb_true_r, ?andb_false_r; try reflexivity.
    destruct (first_xid env =? id); reflexivity.
Qed.

Lemma successful_run_releases_everything_witness :
  held_after TheDisplay (log (snd (main drag_env))) false = false
  /\ held_after (AWindow 101) (log (snd (main drag_env))) false = false
  /\ held_after (AWindow 107) (log (snd (main drag_env))) false = false.
Proof.
  refine
    (conj (successful_run_releases_everything drag_env _ _ TheDisplay)
       (conj (successful_run_releases_everything drag_env _ _ (AWindow 101))
          (successful_run_releases_everything drag_env _ _ (AWindow 107))));
    vm_compute; reflexivity.
Defined.
